(** * llm-reliability-harness: a shallow embedding of the triage core

    The development follows the Python sources module by module:
    - the interpreter's values and the string builtins the code relies on,
    - a backtracking matcher for the [re] patterns of [eval/rules.py],
    - [eval/rules.py], [eval/normalize.py], [eval/schema.py],
      [eval/scoring.py], the extraction and repair functions of
      [providers/ollama.py] and the latency part of
      [reporting/summarize.py],
    - the properties proved about them.

    Texts are byte strings ([string]); case conversion, whitespace and the
    word class of the patterns use the ASCII tables, as the interpreter does
    on ASCII text. *)

From Stdlib Require Import ZArith List String Ascii Bool Lia Floats DecimalString.
Import ListNotations.
Open Scope list_scope.
Open Scope string_scope.

Set Warnings "-inexact-float,-register-all".

(** ** Characters and strings *)

Definition code (c : ascii) : nat := nat_of_ascii c.

Definition between (lo hi : nat) (c : ascii) : bool :=
  (lo <=? code c)%nat && (code c <=? hi)%nat.

Definition is_upper (c : ascii) : bool := between 65 90 c.
Definition is_lower (c : ascii) : bool := between 97 122 c.
Definition is_digit (c : ascii) : bool := between 48 57 c.

Definition lower_char (c : ascii) : ascii :=
  if is_upper c then ascii_of_nat (code c + 32) else c.

Definition upper_char (c : ascii) : ascii :=
  if is_lower c then ascii_of_nat (code c - 32) else c.

(** [str.isspace] on ASCII: TAB..CR, FS..US and the blank. *)
Definition is_space (c : ascii) : bool :=
  between 9 13 c || between 28 32 c.

Fixpoint lower (s : string) : string :=
  match s with
  | EmptyString => EmptyString
  | String c s' => String (lower_char c) (lower s')
  end.

Fixpoint upper (s : string) : string :=
  match s with
  | EmptyString => EmptyString
  | String c s' => String (upper_char c) (upper s')
  end.

Definition is_empty (s : string) : bool :=
  match s with EmptyString => true | _ => false end.

Fixpoint lstrip (s : string) : string :=
  match s with
  | EmptyString => EmptyString
  | String c s' => if is_space c then lstrip s' else s
  end.

Fixpoint rstrip (s : string) : string :=
  match s with
  | EmptyString => EmptyString
  | String c s' =>
      let r := rstrip s' in
      if is_empty r && is_space c then EmptyString else String c r
  end.

(** [s.strip()] *)
Definition strip (s : string) : string := rstrip (lstrip s).

Fixpoint starts_with (p s : string) : bool :=
  match p with
  | EmptyString => true
  | String a p' =>
      match s with
      | EmptyString => false
      | String b s' => Ascii.eqb a b && starts_with p' s'
      end
  end.

(** [p in s] for two strings. *)
Fixpoint contains (p s : string) : bool :=
  starts_with p s ||
  match s with
  | EmptyString => false
  | String _ s' => contains p s'
  end.

Fixpoint last_char (s : string) : option ascii :=
  match s with
  | EmptyString => None
  | String c EmptyString => Some c
  | String _ s' => last_char s'
  end.

(** [s[:n]] *)
Fixpoint take (n : nat) (s : string) : string :=
  match n, s with
  | S n', String c s' => String c (take n' s')
  | _, _ => EmptyString
  end.

(** [s[n:]] *)
Fixpoint drop (n : nat) (s : string) : string :=
  match n, s with
  | S n', String _ s' => drop n' s'
  | _, _ => s
  end.

(** [x in xs] for a list or set of strings. *)
Fixpoint mem (x : string) (xs : list string) : bool :=
  match xs with
  | [] => false
  | y :: ys => String.eqb x y || mem x ys
  end.

(** [_dedupe]: the same helper is defined in rules.py, normalize.py and
    scoring.py; [seen] is the set of values already emitted. *)
Fixpoint dedupe_from (seen : list string) (values : list string) : list string :=
  match values with
  | [] => []
  | value :: rest =>
      if mem value seen then dedupe_from seen rest
      else value :: dedupe_from (value :: seen) rest
  end.

Definition _dedupe (values : list string) : list string := dedupe_from [] values.

(** ** Interpreter values *)

(** What [json.loads] can return, which is also what the tests pass in:
    [None], booleans, integers, floats, strings, lists and string-keyed
    dictionaries.  A dictionary keeps its insertion order. *)
Inductive pyval : Type :=
| PNone
| PBool (b : bool)
| PInt (z : Z)
| PFloat (f : float)
| PStr (s : string)
| PList (items : list pyval)
| PDict (entries : list (string * pyval)).

Definition dict : Type := list (string * pyval).

(** [d.get(key)], with [None] standing for the absent key at this level. *)
Fixpoint dget (d : dict) (key : string) : option pyval :=
  match d with
  | [] => None
  | (k, v) :: d' => if String.eqb k key then Some v else dget d' key
  end.

(** [d[key] = v]: an existing key keeps its place, a new one goes last. *)
Fixpoint dset (d : dict) (key : string) (v : pyval) : dict :=
  match d with
  | [] => [(key, v)]
  | (k, v') :: d' =>
      if String.eqb k key then (k, v) :: d' else (k, v') :: dset d' key v
  end.

Definition has_key (d : dict) (key : string) : bool :=
  match dget d key with Some _ => true | None => false end.

(** [d.get(key)] as a value: an absent key reads [None]. *)
Definition get (d : dict) (key : string) : pyval :=
  match dget d key with Some v => v | None => PNone end.

(** [d.get(key, default)] *)
Definition get_default (d : dict) (key : string) (default : pyval) : pyval :=
  match dget d key with Some v => v | None => default end.

(** [bool(v)] *)
Definition truthy (v : pyval) : bool :=
  match v with
  | PNone => false
  | PBool b => b
  | PInt z => negb (z =? 0)%Z
  | PFloat f => negb (PrimFloat.eqb f 0%float)
  | PStr s => negb (is_empty s)
  | PList l => match l with [] => false | _ => true end
  | PDict d => match d with [] => false | _ => true end
  end.

Definition is_str (v : pyval) : bool := match v with PStr _ => true | _ => false end.
Definition is_bool (v : pyval) : bool := match v with PBool _ => true | _ => false end.
Definition is_list (v : pyval) : bool := match v with PList _ => true | _ => false end.
Definition is_dict (v : pyval) : bool := match v with PDict _ => true | _ => false end.

(** *** Equality of values ([==]) *)

(** A finite float [(-1)^s * m * 2^e] against an integer, exactly. *)
Definition float_eq_int (f : float) (z : Z) : bool :=
  match Prim2SF f with
  | S754_zero _ => (z =? 0)%Z
  | S754_finite s m e =>
      let sm := if s then Z.neg m else Z.pos m in
      if (0 <=? e)%Z then (sm * 2 ^ e =? z)%Z
      else (sm =? z * 2 ^ (- e))%Z
  | _ => false
  end.

Definition int_of_bool (b : bool) : Z := if b then 1%Z else 0%Z.

Fixpoint py_eq (a b : pyval) {struct a} : bool :=
  let fix list_eq (xs ys : list pyval) {struct xs} : bool :=
    match xs, ys with
    | [], [] => true
    | x :: xs', y :: ys' => py_eq x y && list_eq xs' ys'
    | _, _ => false
    end in
  let fix entries_in (xs : list (string * pyval)) (other : dict) {struct xs} : bool :=
    match xs with
    | [] => true
    | (k, v) :: xs' =>
        match dget other k with
        | Some w => py_eq v w && entries_in xs' other
        | None => false
        end
    end in
  match a, b with
  | PNone, PNone => true
  | PBool x, PBool y => Bool.eqb x y
  | PBool x, PInt y => (int_of_bool x =? y)%Z
  | PInt x, PBool y => (x =? int_of_bool y)%Z
  | PInt x, PInt y => (x =? y)%Z
  | PBool x, PFloat y => float_eq_int y (int_of_bool x)
  | PFloat x, PBool y => float_eq_int x (int_of_bool y)
  | PInt x, PFloat y => float_eq_int y x
  | PFloat x, PInt y => float_eq_int x y
  | PFloat x, PFloat y => PrimFloat.eqb x y
  | PStr x, PStr y => String.eqb x y
  | PList xs, PList ys => list_eq xs ys
  | PDict xs, PDict ys =>
      (List.length xs =? List.length ys)%nat && entries_in xs ys
  | _, _ => false
  end.

(** *** [str()] and [repr()] *)

Definition hex_digit (n : nat) : ascii :=
  if (n <? 10)%nat then ascii_of_nat (48 + n) else ascii_of_nat (87 + n).

Definition is_char (n : nat) (c : ascii) : bool := (code c =? n)%nat.

(** One character of a string inside [repr]: the quote in use and the
    backslash are escaped, control characters are written out. *)
Definition repr_char (quote : ascii) (c : ascii) : string :=
  if Ascii.eqb c quote || is_char 92 c then String "\" (String c "")
  else if is_char 9 c then "\t"
  else if is_char 10 c then "\n"
  else if is_char 13 c then "\r"
  else if (code c <? 32)%nat || is_char 127 c then
    "\x" ++ String (hex_digit (code c / 16)) (String (hex_digit (code c mod 16)) "")
  else String c "".

Fixpoint repr_chars (quote : ascii) (s : string) : string :=
  match s with
  | EmptyString => EmptyString
  | String c s' => repr_char quote c ++ repr_chars quote s'
  end.

Definition squote : ascii := ascii_of_nat 39.
Definition dquote : ascii := ascii_of_nat 34.

Fixpoint has_char (q : ascii) (s : string) : bool :=
  match s with
  | EmptyString => false
  | String c s' => Ascii.eqb c q || has_char q s'
  end.

(** [repr(s)]: single quotes unless the text has one and no double quote. *)
Definition repr_str (s : string) : string :=
  let quote := if has_char squote s && negb (has_char dquote s) then dquote else squote in
  String quote (repr_chars quote s ++ String quote "").

Definition str_of_int (z : Z) : string := NilEmpty.string_of_int (Z.to_int z).

(** *** What the sources take from outside

    Five things are not computed by the sources themselves: the
    interpreter's [repr] of a float (the shortest text that reads back as
    the same float), [json.loads] ([None] stands for
    [json.JSONDecodeError]), [float(text)] ([None] stands for
    [ValueError]), [os.getenv("LLMH_LATENCY_P95_MS_THRESHOLD")], and what
    [_default_allowed_missing_fields()] reads, once, from
    data/tickets_eval.jsonl: the string values of [expected.missing_fields]
    over its rows, empty when the file is absent.  The development is
    parameterized by them. *)
Record runtime : Type := {
  float_repr : float -> string;
  json_loads : string -> option pyval;
  float_of_string : string -> option float;
  env_latency_threshold : option string;
  _default_allowed_missing_fields : list string
}.

(** [repr] of a float that is an integer below [10^16] in magnitude, of a
    zero, an infinity or a NaN; unspecified (empty) on other floats. *)
Definition float_repr_sample (f : float) : string :=
  match Prim2SF f with
  | S754_zero s => if s then "-0.0" else "0.0"
  | S754_infinity s => if s then "-inf" else "inf"
  | S754_nan => "nan"
  | S754_finite s m e =>
      let sm := if s then Z.neg m else Z.pos m in
      if (0 <=? e)%Z then
        (if (Z.abs (sm * 2 ^ e) <? 10 ^ 16)%Z then str_of_int (sm * 2 ^ e) ++ ".0" else "")
      else if (Z.pos m mod 2 ^ (- e) =? 0)%Z then str_of_int (sm / 2 ^ (- e)) ++ ".0"
      else ""
  end.

(** The runtime of the closed examples at the end of the file: no
    environment variable, no data file; none of those examples prints a
    fractional float, reads JSON text or parses a float. *)
Definition sample_runtime : runtime :=
  {| float_repr := float_repr_sample;
     json_loads := fun _ => None;
     float_of_string := fun _ => None;
     env_latency_threshold := None;
     _default_allowed_missing_fields := [] |}.

Section Harness.

Variable rt : runtime.

Fixpoint py_repr (v : pyval) : string :=
  let fix items (first : bool) (xs : list pyval) {struct xs} : string :=
    match xs with
    | [] => ""
    | x :: xs' => (if first then "" else ", ") ++ py_repr x ++ items false xs'
    end in
  let fix entries (first : bool) (xs : list (string * pyval)) {struct xs} : string :=
    match xs with
    | [] => ""
    | (k, x) :: xs' =>
        (if first then "" else ", ") ++ repr_str k ++ ": " ++ py_repr x ++ entries false xs'
    end in
  match v with
  | PNone => "None"
  | PBool true => "True"
  | PBool false => "False"
  | PInt z => str_of_int z
  | PFloat f => float_repr rt f
  | PStr s => repr_str s
  | PList xs => "[" ++ items true xs ++ "]"
  | PDict xs => "{" ++ entries true xs ++ "}"
  end.

(** [str(v)] *)
Definition py_str (v : pyval) : string :=
  match v with
  | PStr s => s
  | _ => py_repr v
  end.

(** ** Patterns ([re])

    The patterns of the sources use literals, character classes, groups,
    alternation, bounded and unbounded repetition, [.] and [\b].  Only
    [search(...)] as a truth value is used, so the matcher answers whether
    some match exists: it tries every alternative and every repetition
    count, from every start position. *)

Inductive regex : Type :=
| REps
| RSet (ranges : list (ascii * ascii))
| RAny
| RSeq (a b : regex)
| RAlt (a b : regex)
| RStar (a : regex)
| RWordB.

Fixpoint in_ranges (ranges : list (ascii * ascii)) (c : ascii) : bool :=
  match ranges with
  | [] => false
  | (lo, hi) :: rest => between (code lo) (code hi) c || in_ranges rest c
  end.

(** A class against a character; under [re.IGNORECASE] either case of the
    character may be in the class. *)
Definition char_in (ignorecase : bool) (ranges : list (ascii * ascii)) (c : ascii) : bool :=
  in_ranges ranges c ||
  (ignorecase && (in_ranges ranges (lower_char c) || in_ranges ranges (upper_char c))).

(** [\w] *)
Definition is_word (c : ascii) : bool :=
  is_lower c || is_upper c || is_digit c || is_char 95 c.

Definition is_word_at (c : option ascii) : bool :=
  match c with Some x => is_word x | None => false end.

Definition head (s : string) : option ascii :=
  match s with String c _ => Some c | EmptyString => None end.

(** [rmatch ic r prev s k]: [r] matches a prefix of [s] ([prev] is the
    character before [s]) and [k] accepts what follows. *)
Fixpoint rmatch (ic : bool) (r : regex) (prev : option ascii) (s : string)
    (k : option ascii -> string -> bool) {struct r} : bool :=
  match r with
  | REps => k prev s
  | RSet ranges =>
      match s with
      | String c s' => if char_in ic ranges c then k (Some c) s' else false
      | EmptyString => false
      end
  | RAny =>
      match s with
      | String c s' => if is_char 10 c then false else k (Some c) s'
      | EmptyString => false
      end
  | RSeq a b => rmatch ic a prev s (fun p t => rmatch ic b p t k)
  | RAlt a b => if rmatch ic a prev s k then true else rmatch ic b prev s k
  | RStar a =>
      (fix loop (n : nat) (p : option ascii) (t : string) {struct n} : bool :=
         match n with
         | O => k p t
         | S n' => if rmatch ic a p t (fun p' t' => loop n' p' t') then true else k p t
         end) (String.length s) prev s
  | RWordB => if xorb (is_word_at prev) (is_word_at (head s)) then k prev s else false
  end.

Fixpoint search_from (ic : bool) (r : regex) (prev : option ascii) (s : string) : bool :=
  if rmatch ic r prev s (fun _ _ => true) then true
  else
    match s with
    | EmptyString => false
    | String c s' => search_from ic r (Some c) s'
    end.

(** A compiled pattern: the expression and whether [re.IGNORECASE] is set. *)
Record pattern : Type := { expr : regex; ignorecase : bool }.

(** [bool(p.search(s))] *)
Definition search (p : pattern) (s : string) : bool :=
  search_from (ignorecase p) (expr p) None s.

(** *** Writing patterns *)

Definition chr (c : ascii) : regex := RSet [(c, c)].

Fixpoint lit (s : string) : regex :=
  match s with
  | EmptyString => REps
  | String c EmptyString => chr c
  | String c s' => RSeq (chr c) (lit s')
  end.

(** [(a|b|...)] *)
Fixpoint alts (rs : list regex) : regex :=
  match rs with
  | [] => RSet []
  | [r] => r
  | r :: rs' => RAlt r (alts rs')
  end.

Fixpoint seqs (rs : list regex) : regex :=
  match rs with
  | [] => REps
  | [r] => r
  | r :: rs' => RSeq r (seqs rs')
  end.

Definition words (ws : list string) : regex := alts (List.map lit ws).

(** [r?], [r+], [r{n}], [r{lo,hi}], [r{lo,}] *)
Definition opt (r : regex) : regex := RAlt r REps.
Definition plus (r : regex) : regex := RSeq r (RStar r).

Fixpoint rep (n : nat) (r : regex) : regex :=
  match n with
  | O => REps
  | S n' => RSeq r (rep n' r)
  end.

Fixpoint upto (n : nat) (r : regex) : regex :=
  match n with
  | O => REps
  | S n' => RAlt (RSeq r (upto n' r)) REps
  end.

Definition rep_range (lo hi : nat) (r : regex) : regex := RSeq (rep lo r) (upto (hi - lo) r).
Definition rep_min (lo : nat) (r : regex) : regex := RSeq (rep lo r) (RStar r).

(** [\s], [\w], [\d], [[A-Z]], [[a-z]] *)
Definition cls_s : regex :=
  RSet [(ascii_of_nat 9, ascii_of_nat 13); (ascii_of_nat 28, ascii_of_nat 32)].
Definition cls_w : regex := RSet [("a", "z"); ("A", "Z"); ("0", "9"); ("_", "_")]%char.
Definition cls_d : regex := RSet [("0", "9")]%char.
Definition cls_AZ : regex := RSet [("A", "Z")]%char.
Definition cls_az : regex := RSet [("a", "z")]%char.

(** [\b(w1|w2|...)\b] *)
Definition bounded (r : regex) : regex := seqs [RWordB; r; RWordB].

(** [re.compile(r"\b(w1|w2|...)\b", re.IGNORECASE)] *)
Definition word_pattern_i (ws : list string) : pattern :=
  {| expr := bounded (words ws); ignorecase := true |}.

(** [re.search(r"\b(w1|w2|...)\b", text)] *)
Definition word_pattern (ws : list string) : pattern :=
  {| expr := bounded (words ws); ignorecase := false |}.

(** ** eval/normalize.py: the closed vocabularies *)

Definition ALLOWED_CATEGORIES : list string :=
  ["VPN"; "Email"; "Access"; "Laptop"; "Network"; "Printer"; "Software"; "Security"; "Hardware"].
Definition ALLOWED_DEVICES : list string := ["Windows"; "Mac"; "iPhone"; "Android"; "Unknown"].
Definition ALLOWED_PRIORITIES : list string := ["P1"; "P2"; "P3"; "P4"].

(** ** eval/rules.py *)

Definition STRICT_MISSING_FIELDS_DEFAULT : bool := true.

Definition _EMAIL_RE : pattern :=
  {| expr := seqs [RWordB;
                   plus (RSet [("a", "z"); ("A", "Z"); ("0", "9"); (".", "."); ("_", "_");
                               ("%", "%"); ("+", "+"); ("-", "-")]%char);
                   chr "@";
                   plus (RSet [("a", "z"); ("A", "Z"); ("0", "9"); (".", "."); ("-", "-")]%char);
                   chr ".";
                   rep_min 2 (RSet [("A", "Z"); ("a", "z")]%char);
                   RWordB];
     ignorecase := false |}.
Definition _USERNAME_RE := word_pattern_i ["username"; "user id"; "userid"; "user:"].
Definition _DEVICE_WORD_RE :=
  word_pattern_i ["windows"; "mac"; "macbook"; "iphone"; "ios"; "android"; "linux"].
Definition _LOGIN_WORD_RE := word_pattern_i ["login"; "log in"; "signin"; "sign in"; "password"].
Definition _PRINTER_ID_RE : pattern :=
  {| expr := bounded (alts [seqs [lit "printer"; RStar cls_s; words ["id"; "model"; "number"; "#"]];
                            seqs [rep_range 1 4 cls_AZ; chr "-"; rep_range 2 5 cls_d]]);
     ignorecase := true |}.
Definition _TEAM_RE := word_pattern_i ["team"; "department"; "org"; "organization"].
Definition _ACCESS_LEVEL_RE :=
  word_pattern_i ["admin"; "read"; "write"; "viewer"; "editor"; "owner"; "role"; "access level"].
Definition _NAME_HINT_RE : pattern :=
  {| expr := seqs [RWordB;
                   alts [lit "name:";
                         seqs [lit "for "; cls_AZ; plus cls_az;
                               opt (seqs [chr " "; cls_AZ; plus cls_az])]]];
     ignorecase := false |}.
Definition _URGENCY_RE :=
  word_pattern_i ["urgent"; "asap"; "immediately"; "critical"; "sev1"; "priority"].
Definition _DEADLINE_RE :=
  word_pattern_i ["deadline"; "due"; "by"; "before"; "today"; "tomorrow"; "this week"; "eod";
                  "end of day"; "monday"].
Definition _TIME_HINT_RE : pattern :=
  {| expr := bounded (alts [words ["since"; "started"; "start"; "today"; "yesterday";
                                   "this morning"; "last night"; "next month"];
                            seqs [rep_range 1 2 cls_d; chr ":"; rep 2 cls_d]]);
     ignorecase := true |}.
Definition _LOCATION_HINT_RE :=
  word_pattern_i ["home"; "office"; "floor"; "room"; "building"; "site"; "remote"; "location"].
Definition _ERROR_HINT_RE :=
  word_pattern_i ["error"; "code"; "failed"; "denied"; "incorrect"; "timeout"; "screenshot"].

Definition _SECURITY_OVERRIDE_RE :=
  word_pattern_i ["phishing"; "malware"; "ransomware"; "compromised"; "suspicious link";
                  "credential theft"; "unauthorized"; "breach"; "confidential"; "data leak";
                  "lost phone"; "lost device"; "wrong external email"].
Definition _ACCESS_OVERRIDE_RE :=
  word_pattern_i ["access"; "permission"; "role"; "account"; "provisioning"; "onboarding";
                  "new employee"; "joiner"; "leaver"; "grant access"; "provide access";
                  "requesting access"; "access to"; "jira"; "confluence"; "okta"; "sso";
                  "sap system"; "vpn access"].
Definition _ACCESS_STRONG_RE :=
  word_pattern_i ["access denied"; "permission denied"; "account locked"; "onboarding";
                  "new employee"; "joiner"; "jira"; "confluence"; "okta"; "sso"; "hr portal";
                  "sap"; "provisioning"; "role"].
Definition _PRINTER_OVERRIDE_RE :=
  word_pattern_i ["printer"; "print queue"; "toner"; "paper jam"; "spooler"].
Definition _APP_NAME_RE :=
  word_pattern_i ["teams"; "slack"; "zoom"; "outlook"; "chrome"; "edge"; "onedrive"; "sharepoint"].
Definition _SOFTWARE_SYMPTOM_RE :=
  word_pattern_i ["stuck loading"; "loading screen"; "crash"; "not opening"; "not working";
                  "freezing"; "won't start"; "wont start"; "spinning"; "hangs"].
Definition _STRONG_OUTAGE_RE :=
  word_pattern_i ["wifi is down"; "wifi down"; "wi-fi is down"; "wi-fi down"; "wireless is down";
                  "no internet"; "internet down"; "can't connect"; "cannot connect";
                  "unable to connect"; "network outage"; "outage"].

(** [error\s*(809|720|691)] *)
Definition error_code_expr : regex :=
  seqs [lit "error"; RStar cls_s; words ["809"; "720"; "691"]].

Definition _VPN_OVERRIDE_RE : pattern :=
  {| expr := bounded (alts [lit "vpn"; lit "anyconnect"; lit "pulse secure"; error_code_expr]);
     ignorecase := true |}.
Definition _OUTAGE_MULTI_RE :=
  word_pattern_i ["outage affecting multiple users"; "affecting multiple users"; "whole floor";
                  "entire floor"; "whole office"].
Definition _NETWORK_TERM_RE :=
  word_pattern_i ["wifi"; "wi-fi"; "wireless"; "internet"; "network"; "connect"; "connection"].
Definition _NETWORK_PERF_RE :=
  word_pattern_i ["slow internet"; "internet is very slow"; "network is slow"; "times out";
                  "timeout"].
Definition _PRINT_TO_PDF_RE := word_pattern_i ["print to pdf"; "pdf"].
Definition _HARDWARE_REQUEST_RE :=
  word_pattern_i ["new laptop"; "monitor"; "keyboard"; "mouse"; "dock"].
Definition _PHYSICAL_REPLACEMENT_RE :=
  word_pattern_i ["replace"; "replacement"; "new laptop"; "new monitor"; "new keyboard"].
Definition _LOST_DEVICE_RE : pattern :=
  {| expr := bounded (alts [seqs [lit "lost";
                                  rep_range 0 2 (RSeq (plus cls_s) (plus cls_w));
                                  plus cls_s;
                                  words ["phone"; "device"]];
                            lit "lost phone"; lit "lost device"; lit "stolen";
                            lit "missing phone"; lit "device stolen"]);
     ignorecase := true |}.
Definition _CORP_ACCESS_RE :=
  word_pattern_i ["company email"; "corporate email"; "work email"; "company access";
                  "corporate access"].
Definition _LAPTOP_FAILURE_RE :=
  word_pattern_i ["blue screen"; "bsod"; "boot loop"; "won't boot"; "wont boot"; "bitlocker";
                  "recovery key"; "startup repair"].
Definition _EMAIL_OVERRIDE_RE :=
  word_pattern_i ["outlook"; "calendar"; "shared mailbox"; "delegate access"; "mailbox";
                  "invitation"; "meeting invite"; "exchange"; "shared calendar"].
Definition _BITLOCKER_RE := word_pattern_i ["bitlocker"; "recovery key"; "windows laptop"].

(** [(home wi-?fi|home wifi)] *)
Definition home_wifi_expr : regex :=
  alts [seqs [lit "home wi"; opt (chr "-"); lit "fi"]; lit "home wifi"].

(** The alternation is at the top level of the pattern: the first branch
    begins with [\b], the second ends with it. *)
Definition _HOTSPOT_HOME_WIFI_RE : pattern :=
  {| expr := alts [seqs [RWordB;
                         alts [lit "vpn works via hotspot";
                               seqs [lit "vpn works from "; RStar RAny; lit "hotspot"];
                               lit "hotspot works"];
                         RStar RAny;
                         home_wifi_expr];
                   seqs [home_wifi_expr;
                         RStar RAny;
                         words ["vpn works via hotspot"; "hotspot works"];
                         RWordB]];
     ignorecase := true |}.
Definition _DEVICE_EXPLICIT_RE :=
  word_pattern_i ["iphone"; "ios"; "android"; "windows"; "mac"; "macbook"].

Definition _BLOCKING_WORK_RE :=
  word_pattern_i ["can't work"; "cannot work"; "unable to work"; "blocked"; "can't log in";
                  "cannot log in"; "reboot loop"; "blue screen"].
Definition _OUTAGE_RE : pattern :=
  {| expr := bounded (alts [lit "outage"; lit "down"; lit "whole company";
                            seqs [lit "company";
                                  opt (RSet [("-", "-")%char; (ascii_of_nat 9, ascii_of_nat 13);
                                             (ascii_of_nat 28, ascii_of_nat 32)]);
                                  lit "wide"];
                            lit "whole team"; lit "all users"; lit "everyone"; lit "nobody can";
                            lit "can't connect"]);
     ignorecase := true |}.
Definition _ACCESS_URGENT_RE :=
  word_pattern_i ["today"; "asap"; "urgent"; "blocked now"; "immediately"].
Definition _NETWORK_BLOCK_ACCESS_RE :=
  word_pattern_i ["cannot access"; "can't access"; "can’t access"; "canâ€™t access"].
Definition _NETWORK_TIMEOUT_DNS_PROXY_RE :=
  word_pattern_i ["timeout"; "times out"; "time out"; "dns"; "proxy"].
Definition _CORP_NETWORK_RE := word_pattern_i ["company network"; "office network"].
Definition _EXTERNAL_SERVICE_RE :=
  word_pattern_i ["github"; "external site"; "external service"; "external services"].

Definition CANON_FIELD_MAP : list (string * list string) :=
  [("error_message", ["error_message_or_screenshot"; "screenshot_or_error_code"]);
   ("exact_error_message", ["error_message_or_screenshot"; "screenshot_or_error_code"]);
   ("error_code", ["screenshot_or_error_code"; "error_details"]);
   ("speed_test", ["speed_test_result"]);
   ("since_when", ["when_started"; "start_time"]);
   ("wifi_or_ethernet", ["connection_type"]);
   ("network_type", ["connection_type"; "is_vpn_on"]);
   ("app_name", ["application_name"]);
   ("system_name", ["sap_system_name"; "drive_name"; "hr_portal_url"]);
   ("role_needed", ["role_or_permissions"; "access_level"; "role"]);
   ("time_window", ["exact_time_window"; "start_time"]);
   ("indicators", ["error_details"]);
   ("containment_steps", ["error_details"]);
   ("what_happened", ["what_was_sent"; "error_details"]);
   ("affected_accounts", ["team_distribution_list"; "username"; "employee_email"]);
   ("battery_or_power", ["on_battery_or_power"]);
   ("apps_affected", ["application_name"])].

Definition _signal_bool (signals : dict) (key : string) : bool :=
  truthy (get signals key).

Definition _signal_text (signals : dict) (key : string) : string :=
  py_str (get_default signals key (PStr "")).

Definition _normalize_scope (value : string) : string :=
  let lowered := lower (strip value) in
  if mem lowered ["single_user"; "multiple_users"; "unknown"] then lowered else "unknown".

Definition has_security_text (text : string) : bool :=
  search _SECURITY_OVERRIDE_RE text.

Definition _is_lost_device_security (text : string) : bool :=
  search _LOST_DEVICE_RE text &&
  (search _CORP_ACCESS_RE text || contains "email" text || contains "access" text).

Definition _is_password_reset (text : string) : bool :=
  contains "password reset" text || (contains "forgot" text && contains "password" text).

Definition _is_new_joiner_request (text : string) : bool :=
  search (word_pattern ["new employee"; "new hire"; "joining"; "joiner"; "starts"]) text.

Definition _is_login_issue (signals : dict) (input_text : string) : bool :=
  if _signal_bool signals "access_request" then false
  else search _LOGIN_WORD_RE input_text.

Definition error_code_pattern : pattern :=
  {| expr := seqs [RWordB; error_code_expr; RWordB]; ignorecase := false |}.

Definition _is_actionable_incident (signals : dict) (input_text : string) : bool :=
  let text := lower input_text in
  let scope := _normalize_scope (_signal_text signals "scope") in
  let has_scope_or_location :=
    mem scope ["single_user"; "multiple_users"] || search _LOCATION_HINT_RE text in
  let has_clear_symptom :=
    search _ERROR_HINT_RE text
    || search _STRONG_OUTAGE_RE text
    || search _LOGIN_WORD_RE text
    || search error_code_pattern text
    || search {| expr := seqs [RWordB; lit "outlook"; RStar RAny; lit "password"; RWordB];
                 ignorecase := false |} text
    || search _LOST_DEVICE_RE text in
  has_scope_or_location && has_clear_symptom.

Definition _is_true_network_outage (signals : dict) (input_text : string) : bool :=
  let text := lower input_text in
  let scope := _normalize_scope (_signal_text signals "scope") in
  let explicit_outage := search _STRONG_OUTAGE_RE text in
  let has_network_text := search _NETWORK_TERM_RE text in
  let multi_user_signal :=
    _signal_bool signals "mentions_wifi_or_network"
    && String.eqb scope "multiple_users" && has_network_text in
  let explicit_multi_outage := search _OUTAGE_MULTI_RE text in
  explicit_outage || multi_user_signal || explicit_multi_outage.

Definition infer_device (device_hint : string) (input_text : string) : string :=
  let text := lower input_text in
  if search _BITLOCKER_RE text then "Windows"
  else if search _HOTSPOT_HOME_WIFI_RE text then "Unknown"
  else if _is_lost_device_security text && negb (search _DEVICE_EXPLICIT_RE text) then "Unknown"
  else
    let hint := lower (strip device_hint) in
    if String.eqb hint "windows" then "Windows"
    else if String.eqb hint "mac" then "Mac"
    else if String.eqb hint "iphone" then "iPhone"
    else if String.eqb hint "android" then "Android"
    else if contains "windows" text then "Windows"
    else if contains "macbook" text || contains "mac" text then "Mac"
    else if contains "iphone" text || contains "ios" text then "iPhone"
    else if contains "android" text then "Android"
    else "Unknown".

Definition infer_category (signals : dict) (input_text : string) : string :=
  let text := lower input_text in
  let has_security_keywords := search _SECURITY_OVERRIDE_RE text in
  let has_lost_device_security :=
    search _LOST_DEVICE_RE text &&
    (search _CORP_ACCESS_RE text || contains "email" text || contains "access" text) in
  let has_access_keyword := search _ACCESS_OVERRIDE_RE text in
  let has_access_evidence := has_access_keyword in
  let has_access_strong := search _ACCESS_STRONG_RE text in
  let has_true_network_outage := _is_true_network_outage signals input_text in
  let has_network_access_issue :=
    search _NETWORK_PERF_RE text
    || (contains "company network" text && contains "access" text)
    || (contains "cannot connect" text && contains "network" text) in
  let has_software_issue := search _APP_NAME_RE text && search _SOFTWARE_SYMPTOM_RE text in
  let has_pdf_software_pattern := search _PRINT_TO_PDF_RE text && negb (contains "printer" text) in
  let has_hardware_request := search _HARDWARE_REQUEST_RE text in
  let has_email_context := search _EMAIL_OVERRIDE_RE text in
  let has_laptop_failure := search _LAPTOP_FAILURE_RE text in
  if has_security_keywords || has_lost_device_security then "Security"
  else if has_laptop_failure then "Laptop"
  else if has_email_context then "Email"
  else
    let is_pure_physical_request :=
      search _PHYSICAL_REPLACEMENT_RE text && negb has_access_keyword in
    if has_access_evidence
       && (has_access_strong || (negb is_pure_physical_request && negb has_network_access_issue))
    then "Access"
    else if has_hardware_request && negb has_access_keyword && negb has_email_context
    then "Hardware"
    else if has_pdf_software_pattern then "Software"
    else if _signal_bool signals "mentions_printer" || search _PRINTER_OVERRIDE_RE text
    then "Printer"
    else if has_software_issue then
      (if has_true_network_outage then "Network" else "Software")
    else if _signal_bool signals "mentions_vpn" || search _VPN_OVERRIDE_RE text then "VPN"
    else if has_true_network_outage then "Network"
    else if _signal_bool signals "mentions_wifi_or_network" && search _NETWORK_PERF_RE text
    then "Network"
    else if _signal_bool signals "mentions_laptop_issue" then "Laptop"
    else if _signal_bool signals "mentions_email" then "Email"
    else if _signal_bool signals "mentions_software_app" then "Software"
    else "Hardware".

Definition infer_priority (signals : dict) (input_text : string) : string :=
  let scope := _normalize_scope (_signal_text signals "scope") in
  let text := lower (input_text ++ " " ++ _signal_text signals "summary") in
  let category := infer_category signals input_text in
  let urgent := search _URGENCY_RE text in
  let deadline := search _DEADLINE_RE text in
  let outage_keywords := search _OUTAGE_RE text || search _STRONG_OUTAGE_RE text in
  let severe_laptop := search _LAPTOP_FAILURE_RE text in
  if String.eqb category "Security" then
    (if search _LOST_DEVICE_RE text || has_security_text text then "P1" else "P2")
  else if String.eqb category "Network" then
    let multi_user_outage_text :=
      search (word_pattern ["all users"; "everyone"; "whole floor"; "whole team"; "nobody"]) text in
    if (String.eqb scope "multiple_users" && outage_keywords)
       || (outage_keywords && multi_user_outage_text) then "P1"
    else if String.eqb scope "multiple_users" then "P2"
    else
      let corporate_external_block :=
        search _CORP_NETWORK_RE text
        && search _EXTERNAL_SERVICE_RE text
        && (search _NETWORK_TIMEOUT_DNS_PROXY_RE text || search _NETWORK_BLOCK_ACCESS_RE text) in
      if corporate_external_block then "P2"
      else if search _NETWORK_PERF_RE text
              && (contains "still connects" text || contains "connects" text) then "P3"
      else if search _NETWORK_PERF_RE text then "P3"
      else if urgent then "P2"
      else "P3"
  else if String.eqb category "Laptop" then
    (if severe_laptop then "P1"
     else if search _BLOCKING_WORK_RE text || urgent then "P2"
     else "P3")
  else if String.eqb category "VPN" then
    (if search error_code_pattern text || urgent || search _BLOCKING_WORK_RE text then "P2"
     else "P3")
  else if String.eqb category "Access" then
    (if _is_password_reset text || contains "can't access" text || contains "cannot access" text
     then "P2"
     else if search _ACCESS_URGENT_RE text || urgent then "P2"
     else "P3")
  else if String.eqb category "Email" then
    (if String.eqb scope "multiple_users" && outage_keywords
        && negb (search _EMAIL_OVERRIDE_RE text) then "P1"
     else if String.eqb scope "multiple_users" || urgent then "P2"
     else "P3")
  else if String.eqb category "Software" then
    (if contains "slack" text && contains "notification" text && contains "update" text
        && negb urgent then "P4"
     else if contains "install" text || contains "request" text || search _PRINT_TO_PDF_RE text
     then "P4"
     else if urgent then "P2"
     else "P3")
  else if mem category ["Hardware"; "Printer"] then
    (if urgent then "P2"
     else if String.eqb category "Printer" then "P3"
     else if search (word_pattern ["flicker"; "flickers"; "flickering"; "not working"; "issue";
                                   "broken"; "fails"]) text then "P3"
     else "P4")
  else if String.eqb scope "multiple_users" then "P2"
  else if urgent then "P2"
  else if String.eqb scope "single_user" then "P3"
  else "P4".

Definition infer_needs_clarification (signals : dict) (input_text : string)
    (missing_fields : option (list string)) (category : option string) : bool :=
  let category_value :=
    match category with
    | Some c => if is_empty c then infer_category signals input_text else c
    | None => infer_category signals input_text
    end in
  let missing := match missing_fields with Some l => l | None => [] end in
  match missing with
  | [] => false
  | _ =>
    if String.eqb category_value "Security" && _is_lost_device_security (lower input_text)
    then true
    else if mem category_value ["VPN"; "Network"; "Email"; "Security"]
            && _is_actionable_incident signals input_text
    then false
    else if String.eqb category_value "Access" then
      existsb (fun field =>
                 mem field ["employee_name"; "employee_email"; "team"; "access_level";
                            "role_or_permissions"; "start_date"; "username"; "manager_approval";
                            "manager_approval_or_group"; "sap_system_name"; "drive_name";
                            "hr_portal_url"; "alternate_contact"]) missing
    else if String.eqb category_value "Laptop" then
      existsb (fun field =>
                 mem field ["username"; "device_os"; "when_started"; "asset_id"; "apps_affected";
                            "on_battery_or_power"; "stop_code"; "recent_changes"]) missing
    else if String.eqb category_value "Printer" then
      existsb (fun field => mem field ["printer_id_or_model"; "location"]) missing
    else true
  end.

Definition _field_mentioned (field : string) (input_text : string) (signals : dict) : bool :=
  let text := lower input_text in
  let scope := _normalize_scope (_signal_text signals "scope") in
  if mem field ["device_os"] then search _DEVICE_WORD_RE text
  else if mem field ["username"] then search _EMAIL_RE text || search _USERNAME_RE text
  else if mem field ["employee_name"] then search _NAME_HINT_RE input_text
  else if mem field ["employee_email"; "alternate_contact"] then search _EMAIL_RE text
  else if mem field ["team"; "team_distribution_list"] then search _TEAM_RE text
  else if mem field ["access_level"; "role_or_permissions"; "role"]
  then search _ACCESS_LEVEL_RE text
  else if mem field ["manager_approval"; "manager_approval_or_group"]
  then search (word_pattern ["manager"; "approval"; "approved"; "group"]) text
  else if mem field ["start_date"] then search _DEADLINE_RE text
  else if mem field ["sap_system_name"] then contains "sap" text
  else if mem field ["drive_name"] then contains "drive" text
  else if mem field ["hr_portal_url"] then contains "hr portal" text
  else if mem field ["screenshot_or_error_code"; "error_message_or_screenshot"; "error_details"]
  then search _ERROR_HINT_RE text
  else if mem field ["printer_id_or_model"] then search _PRINTER_ID_RE input_text
  else if mem field ["location"; "location_floor"] then search _LOCATION_HINT_RE text
  else if mem field ["when_started"; "start_time"; "time_sent"; "exact_time_window"]
  then search _TIME_HINT_RE text
  else if mem field ["connection_type"]
  then search (word_pattern ["usb"; "ethernet"; "wifi"; "wi-fi"; "bluetooth"; "lan"]) text
  else if mem field ["speed_test_result"]
  then search (word_pattern ["speed test"; "mbps"; "latency"; "packet loss"]) text
  else if mem field ["vpn_client_name"]
  then search (word_pattern ["anyconnect"; "globalprotect"; "openvpn"; "pulse"; "forticlient"]) text
  else if mem field ["home_router_model"] then contains "router" text
  else if mem field ["timezone"]
  then search (word_pattern ["utc"; "gmt"; "pst"; "est"; "ist"; "timezone"]) text
  else if mem field ["zoom_version"]
  then search {| expr := seqs [RWordB; lit "zoom"; RStar RAny; RWordB;
                               alts [lit "version"; RSeq (chr "v") cls_d]];
                 ignorecase := false |} text
  else if mem field ["zoom_account_email"] then contains "zoom" text && search _EMAIL_RE text
  else if mem field ["meeting_id"]
  then search {| expr := seqs [RWordB; lit "meeting"; RStar cls_s; lit "id"; RWordB];
                 ignorecase := false |} text
  else if mem field ["slack_version"]
  then search {| expr := seqs [RWordB; lit "slack"; RStar RAny; RWordB;
                               alts [lit "version"; RSeq (chr "v") cls_d]];
                 ignorecase := false |} text
  else if mem field ["application_name"]
  then search (word_pattern ["teams"; "slack"; "zoom"; "docker"; "chrome"; "outlook"]) text
  else if mem field ["admin_approval"]
  then search {| expr := alts [seqs [RWordB; lit "admin"]; seqs [lit "approval"; RWordB]];
                 ignorecase := false |} text
  else if mem field ["windows_version"]
  then search {| expr := seqs [RWordB; lit "windows"; RStar cls_s; cls_d];
                 ignorecase := false |} text
  else if mem field ["recipient_email_domain"; "what_was_sent"]
  then search _EMAIL_RE text || contains "sent" text
  else if mem field ["device_type"; "phone_number_or_asset_id"]
  then search (word_pattern ["phone"; "iphone"; "android"; "asset"; "id"]) text
  else if mem field ["last_known_time"] then search _TIME_HINT_RE text
  else if mem field ["asset_id"]
  then search (word_pattern ["asset"; "serial"; "tag"; "hostname"; "device id"]) text
  else if mem field ["on_battery_or_power"]
  then search (word_pattern ["battery"; "power"; "charging"; "charger"]) text
  else if mem field ["apps_affected"]
  then search (word_pattern ["app"; "application"; "teams"; "zoom"; "slack"; "outlook"]) text
  else if mem field ["scope"] then mem scope ["single_user"; "multiple_users"]
  else false.

(** [CANON_FIELD_MAP.get(field, ())] *)
Fixpoint canon_targets (table : list (string * list string)) (field : string) : list string :=
  match table with
  | [] => []
  | (k, targets) :: rest => if String.eqb k field then targets else canon_targets rest field
  end.

Fixpoint first_allowed (candidates : list string) (allowed : list string) : option string :=
  match candidates with
  | [] => None
  | candidate :: rest =>
      if mem candidate allowed then Some candidate else first_allowed rest allowed
  end.

Definition _map_to_canonical (field : string) (allowed : list string) : option string :=
  if mem field allowed then Some field
  else first_allowed (canon_targets CANON_FIELD_MAP field) allowed.

Definition _resolve_allowed_missing_fields (allowed_missing_fields : option (list string))
    : list string :=
  match allowed_missing_fields with
  | None => _default_allowed_missing_fields rt
  | Some fields => fields
  end.

(** The loop of [normalize_missing_fields_to_canonical] over the
    deduplicated fields. *)
Fixpoint canonical_loop (fields : list string) (allowed : list string) (strict : bool)
    : list string :=
  match fields with
  | [] => []
  | field :: rest =>
      match _map_to_canonical field allowed with
      | Some canonical => canonical :: canonical_loop rest allowed strict
      | None =>
          if strict then canonical_loop rest allowed strict
          else field :: canonical_loop rest allowed strict
      end
  end.

Definition normalize_missing_fields_to_canonical (fields : list string)
    (allowed_missing_fields : option (list string)) (strict_missing_fields : bool)
    : list string :=
  let allowed := _resolve_allowed_missing_fields allowed_missing_fields in
  _dedupe (canonical_loop (_dedupe fields) allowed strict_missing_fields).

(** [if cond: candidates.extend(more)] *)
Definition extend_if (cond : bool) (more : list string) (candidates : list string)
    : list string :=
  if cond then (candidates ++ more)%list else candidates.

Definition is_nil {A : Type} (l : list A) : bool :=
  match l with [] => true | _ => false end.

(** The category-specific candidate lists of [infer_missing_fields]; [None]
    is the early return of the "slow" Network branch, which skips the
    evidence filter. *)
Definition missing_field_candidates (category : string) (signals : dict)
    (input_text : string) : option (list string) :=
  let text := lower input_text in
  if String.eqb category "Access" then
    let c := extend_if (_is_new_joiner_request text)
               ["employee_name"; "employee_email"; "team"; "access_level"; "start_date"] [] in
    let c := extend_if (contains "sap" text)
               ["username"; "sap_system_name"; "role_or_permissions"; "manager_approval"] c in
    let c := extend_if (contains "drive" text) ["drive_name"; "manager_approval_or_group"] c in
    let c := extend_if (contains "hr portal" text)
               ["username"; "hr_portal_url"; "screenshot_or_error_code"] c in
    let c := extend_if (_is_password_reset text) ["username"; "alternate_contact"] c in
    Some (extend_if (is_nil c) ["username"; "access_level"] c)
  else if String.eqb category "Laptop" then
    Some (if search _BITLOCKER_RE text then ["asset_id"; "username"; "is_company_managed"]
          else if _is_login_issue signals input_text then ["device_os"; "username"; "when_started"]
          else if search _LAPTOP_FAILURE_RE text then ["device_os"; "stop_code"; "recent_changes"]
          else ["device_os"; "when_started"; "apps_affected"; "on_battery_or_power"])
  else if String.eqb category "Printer" then
    Some ["printer_id_or_model"; "location"]
  else if String.eqb category "Software" then
    let c := extend_if (search _APP_NAME_RE text && search _SOFTWARE_SYMPTOM_RE text)
               ["when_started"; "error_message"] [] in
    let c := extend_if (contains "zoom" text) ["zoom_version"] c in
    let c := extend_if (contains "zoom" text && contains "removed" text)
               ["device_os"; "zoom_account_email"; "meeting_id"] c in
    let c := extend_if (contains "slack" text) ["slack_version"; "when_started"] c in
    let c := extend_if (contains "docker" text) ["admin_approval"; "windows_version"] c in
    let c := extend_if (contains "print to pdf" text || contains "pdf" text)
               ["device_os"; "application_name"; "when_started"] c in
    Some (extend_if (is_nil c && _signal_bool signals "mentions_software_app")
            ["when_started"; "error_message"] c)
  else if String.eqb category "Network" then
    if contains "slow" text then None
    else
      let c := extend_if (contains "github" text) ["location"; "is_vpn_on"; "error_details"] [] in
      Some (extend_if ((contains "wifi" text || contains "wi-fi" text)
                       && negb (contains "slow" text)) ["wifi_or_ethernet"] c)
  else if String.eqb category "VPN" then
    if search _HOTSPOT_HOME_WIFI_RE text
    then Some ["device_os"; "vpn_client_name"; "home_router_model"]
    else if negb (_is_actionable_incident signals input_text) then
      let c := ["device_os"; "vpn_client_name"; "exact_error_message"; "when_started"] in
      let c := extend_if (contains "home" text || contains "hotspot" text)
                 ["home_router_model"] c in
      Some (extend_if (contains "night" text || contains "morning" text)
              ["timezone"; "exact_time_window"] c)
    else Some []
  else if String.eqb category "Security" then
    let c := extend_if (contains "external email" text || contains "sent" text)
               ["recipient_email_domain"; "what_happened"; "time_sent"] [] in
    Some (extend_if (contains "lost" text && contains "phone" text)
            ["device_type"; "phone_number_or_asset_id"; "last_known_time"] c)
  else if String.eqb category "Email" then
    Some (if contains "calendar" text || contains "mailbox" text
          then ["calendar_name"; "team_distribution_list"; "start_time"]
          else if contains "delivery" text
                  && (contains "whole company" text || contains "company" text)
          then ["start_time"; "affected_domains"]
          else [])
  else if String.eqb category "Hardware" then
    let c := extend_if (contains "monitor" text)
               ["laptop_model"; "monitor_model"; "cable_or_port_tested"] [] in
    let c := extend_if (contains "keyboard" text)
               ["keyboard_type"; "connection_type"; "when_started"] c in
    Some (extend_if (contains "new laptop" text)
            ["employee_name"; "start_date"; "role"; "preferred_os"] c)
  else Some [].

Definition infer_missing_fields (signals : dict) (input_text : string)
    (allowed_missing_fields : option (list string)) (strict_missing_fields : bool)
    : list string :=
  let category := infer_category signals input_text in
  let text := lower input_text in
  if String.eqb category "Security" && _is_lost_device_security text then
    normalize_missing_fields_to_canonical
      ["device_type"; "phone_number_or_asset_id"; "last_known_time"]
      allowed_missing_fields strict_missing_fields
  else if mem category ["VPN"; "Network"; "Email"; "Security"]
          && _is_actionable_incident signals input_text
  then []
  else
    match missing_field_candidates category signals input_text with
    | None =>
        normalize_missing_fields_to_canonical
          ["location_floor"; "speed_test"; "start_time"]
          allowed_missing_fields strict_missing_fields
    | Some candidates =>
        let unresolved :=
          List.filter (fun candidate => negb (_field_mentioned candidate input_text signals))
                      (_dedupe candidates) in
        normalize_missing_fields_to_canonical unresolved
          allowed_missing_fields strict_missing_fields
    end.

Definition _clamp (value : string) (allowed : list string) (fallback : string)
    (warnings : list string) (warning : string) : string * list string :=
  if mem value allowed then (value, warnings)
  else (fallback, (warnings ++ [warning])%list).

Definition py_strs (xs : list string) : pyval := PList (List.map PStr xs).

Definition build_output_from_signals (signals : dict) (input_text : string)
    (allowed_missing_fields : option (list string)) (strict_missing_fields : bool)
    : dict * list string :=
  let warnings : list string := [] in
  let device := infer_device (_signal_text signals "device_hint") input_text in
  let category := infer_category signals input_text in
  let priority := infer_priority signals input_text in
  let missing_fields :=
    infer_missing_fields signals input_text allowed_missing_fields strict_missing_fields in
  let needs_clarification :=
    infer_needs_clarification signals input_text (Some missing_fields) (Some category) in
  let '(missing_fields, warnings) :=
    if negb (is_nil missing_fields) && negb needs_clarification
    then ([], (warnings ++ ["dropped_non_blocking_missing_fields"])%list)
    else (missing_fields, warnings) in
  let '(needs_clarification, warnings) :=
    if is_nil missing_fields && needs_clarification
    then (false, (warnings ++ ["forced_needs_clarification_false"])%list)
    else (needs_clarification, warnings) in
  let summary := strip (_signal_text signals "summary") in
  let '(summary, warnings) :=
    if is_empty summary
    then (take 160 (strip input_text), (warnings ++ ["defaulted_summary_from_input"])%list)
    else (summary, warnings) in
  let '(category, warnings) :=
    _clamp category ALLOWED_CATEGORIES "Software" warnings "category_out_of_set" in
  let '(priority, warnings) :=
    _clamp priority ALLOWED_PRIORITIES "P3" warnings "priority_out_of_set" in
  let '(device, warnings) :=
    _clamp device ALLOWED_DEVICES "Unknown" warnings "device_out_of_set" in
  ([("category", PStr category);
    ("priority", PStr priority);
    ("device", PStr device);
    ("needs_clarification", PBool needs_clarification);
    ("missing_fields", py_strs missing_fields);
    ("summary", PStr summary)],
   _dedupe warnings).

(** *** Signal coercion *)

Definition _coerce_signal_bool (value : pyval) : bool :=
  match value with
  | PBool b => b
  | PStr s =>
      let lowered := lower (strip s) in
      if mem lowered ["true"; "yes"; "1"] then true
      else if mem lowered ["false"; "no"; "0"] then false
      else truthy value
  | _ => truthy value
  end.

Definition _coerce_signal_choice (value : pyval) (allowed : list string) (fallback : string)
    : string :=
  let text := lower (strip (py_str (if truthy value then value else PStr ""))) in
  if mem text allowed then text else fallback.

Fixpoint coerce_items (items : list pyval) : list string :=
  match items with
  | [] => []
  | item :: rest =>
      let text := strip (py_str item) in
      if is_empty text then coerce_items rest else text :: coerce_items rest
  end.

Definition _coerce_signal_list (value : pyval) : list string :=
  match value with
  | PList items => coerce_items items
  | _ => []
  end.

Definition coerce_ticket_signals (payload : dict) : dict :=
  [("device_hint",
    PStr (_coerce_signal_choice (get payload "device_hint")
            ["windows"; "mac"; "iphone"; "android"] "unknown"));
   ("mentions_vpn", PBool (_coerce_signal_bool (get payload "mentions_vpn")));
   ("mentions_email", PBool (_coerce_signal_bool (get payload "mentions_email")));
   ("mentions_wifi_or_network",
    PBool (_coerce_signal_bool (get payload "mentions_wifi_or_network")));
   ("mentions_printer", PBool (_coerce_signal_bool (get payload "mentions_printer")));
   ("mentions_software_app", PBool (_coerce_signal_bool (get payload "mentions_software_app")));
   ("mentions_laptop_issue", PBool (_coerce_signal_bool (get payload "mentions_laptop_issue")));
   ("access_request", PBool (_coerce_signal_bool (get payload "access_request")));
   ("security_incident", PBool (_coerce_signal_bool (get payload "security_incident")));
   ("scope",
    PStr (_coerce_signal_choice (get payload "scope") ["single_user"; "multiple_users"] "unknown"));
   ("error_codes", py_strs (_coerce_signal_list (get payload "error_codes")));
   ("urgency_words", PBool (_coerce_signal_bool (get payload "urgency_words")));
   ("summary", PStr (strip (py_str (get_default payload "summary" (PStr "")))))].

(** ** eval/normalize.py *)

Definition _CATEGORY_SYNONYMS : list (string * string) :=
  [("auth", "Access"); ("authentication", "Access"); ("login", "Access");
   ("password", "Access"); ("account", "Access");
   ("wifi", "Network"); ("wi-fi", "Network"); ("internet", "Network");
   ("outlook", "Email"); ("mail", "Email"); ("calendar", "Email");
   ("zoom", "Software"); ("teams", "Software"); ("slack", "Software"); ("docker", "Software");
   ("bitlocker", "Laptop"); ("blue screen", "Laptop"); ("bsod", "Laptop")].

(** [_ensure_text_key(data, key, default, warnings)]: the text, the updated
    dictionary and the extended warnings. *)
Definition _ensure_text_key (data : dict) (key : string) (default : string)
    (warnings : list string) : string * dict * list string :=
  match get data key with
  | PNone => (default, dset data key (PStr default), (warnings ++ [("defaulted_" ++ key)%string])%list)
  | value =>
      let text := strip (py_str value) in
      if is_empty text
      then (default, dset data key (PStr default), (warnings ++ [("defaulted_" ++ key)%string])%list)
      else (text, dset data key (PStr text), warnings)
  end.

Fixpoint first_synonym (table : list (string * string)) (lowered : string) : option string :=
  match table with
  | [] => None
  | (key, mapped) :: rest =>
      if contains key lowered then Some mapped else first_synonym rest lowered
  end.

Definition _normalize_category (category : string) (input_text_lower : string)
    (warnings : list string) : string * list string :=
  let clean := strip category in
  let lowered := lower clean in
  if mem clean ALLOWED_CATEGORIES then (clean, warnings)
  else
    match first_synonym _CATEGORY_SYNONYMS lowered with
    | Some mapped => (mapped, (warnings ++ ["normalized_category_synonym"])%list)
    | None =>
        if contains "vpn" lowered
        then ("VPN", (warnings ++ ["normalized_category_synonym"])%list)
        else ("Software", (warnings ++ ["category_out_of_set"])%list)
    end.

Definition _infer_device (input_text_lower : string) : option string :=
  if contains "windows" input_text_lower then Some "Windows"
  else if contains "macbook" input_text_lower || contains "mac" input_text_lower then Some "Mac"
  else if contains "iphone" input_text_lower || contains "ios" input_text_lower then Some "iPhone"
  else if contains "android" input_text_lower then Some "Android"
  else None.

Definition _normalize_device (device_value : pyval) (input_text_lower : string)
    (warnings : list string) : string * list string :=
  let inferred := _infer_device input_text_lower in
  let raw := match device_value with PStr s => strip s | _ => "" end in
  if is_empty raw then
    match inferred with
    | Some device => (device, (warnings ++ ["defaulted_device_from_text"])%list)
    | None => ("Unknown", (warnings ++ ["defaulted_device"])%list)
    end
  else
    let lowered := lower raw in
    if contains "iphone" lowered || contains "ios" lowered then ("iPhone", warnings)
    else if contains "android" lowered then ("Android", warnings)
    else if contains "mac" lowered || contains "macbook" lowered then ("Mac", warnings)
    else if contains "windows" lowered then ("Windows", warnings)
    else
      let by_value :=
        if mem raw ALLOWED_DEVICES then (raw, warnings)
        else
          match inferred with
          | Some device => (device, (warnings ++ ["device_out_of_set_mapped_from_text"])%list)
          | None => ("Unknown", (warnings ++ ["device_out_of_set"])%list)
          end in
      match inferred with
      | Some device =>
          if String.eqb raw "Laptop" && mem device ["Windows"; "Mac"]
          then (device, (warnings ++ ["mapped_laptop_to_os_device"])%list)
          else by_value
      | None => by_value
      end.

Definition _normalize_priority (priority : string) (warnings : list string)
    : string * list string :=
  let clean := upper (strip priority) in
  if mem clean ALLOWED_PRIORITIES then (clean, warnings)
  else if mem clean ["HIGH"; "URGENT"] then ("P1", (warnings ++ ["normalized_priority"])%list)
  else if mem clean ["MEDIUM"; "NORMAL"] then ("P3", (warnings ++ ["normalized_priority"])%list)
  else if mem clean ["LOW"] then ("P4", (warnings ++ ["normalized_priority"])%list)
  else
    match last_char clean with
    | Some c =>
        let maybe := String "P" (String c "") in
        if mem (String c "") ["1"; "2"; "3"; "4"] && mem maybe ALLOWED_PRIORITIES
        then (maybe, (warnings ++ ["normalized_priority"])%list)
        else ("P3", (warnings ++ ["priority_out_of_set"])%list)
    | None => ("P3", (warnings ++ ["priority_out_of_set"])%list)
    end.

Fixpoint kept_items (items : list pyval) : list string :=
  match items with
  | [] => []
  | item :: rest =>
      let text := strip (py_str item) in
      if is_empty text then kept_items rest else text :: kept_items rest
  end.

Definition _normalize_missing_fields (value : pyval) (warnings : list string)
    : list string * list string :=
  match value with
  | PList items => (_dedupe (kept_items items), warnings)
  | _ => ([], (warnings ++ ["defaulted_missing_fields"])%list)
  end.

Definition _normalize_bool (value : pyval) : bool :=
  match value with
  | PBool b => b
  | PStr s =>
      let lowered := lower (strip s) in
      if mem lowered ["true"; "yes"; "1"] then true
      else if mem lowered ["false"; "no"; "0"] then false
      else truthy value
  | _ => truthy value
  end.

Definition normalize_output (actual : dict) (input_text : string) : dict * list string :=
  let normalized := actual in
  let warnings : list string := [] in
  let text := lower input_text in
  let '(category, normalized, warnings) :=
    _ensure_text_key normalized "category" "Software" warnings in
  let '(priority, normalized, warnings) :=
    _ensure_text_key normalized "priority" "P3" warnings in
  let '(_, normalized, warnings) :=
    _ensure_text_key normalized "summary" "" warnings in
  let '(normalized, warnings) :=
    if negb (has_key normalized "needs_clarification")
    then (dset normalized "needs_clarification" (PBool false),
          (warnings ++ ["defaulted_needs_clarification"])%list)
    else (normalized, warnings) in
  let '(normalized, warnings) :=
    if negb (has_key normalized "missing_fields")
    then (dset normalized "missing_fields" (PList []),
          (warnings ++ ["defaulted_missing_fields"])%list)
    else (normalized, warnings) in
  let '(category, warnings) := _normalize_category category text warnings in
  let normalized := dset normalized "category" (PStr category) in
  let '(priority, warnings) := _normalize_priority priority warnings in
  let normalized := dset normalized "priority" (PStr priority) in
  let '(device, warnings) := _normalize_device (get normalized "device") text warnings in
  let normalized := dset normalized "device" (PStr device) in
  let normalized :=
    dset normalized "summary"
         (PStr (strip (py_str (get_default normalized "summary" (PStr ""))))) in
  let '(missing_fields, warnings) :=
    _normalize_missing_fields (get normalized "missing_fields") warnings in
  let normalized := dset normalized "missing_fields" (py_strs missing_fields) in
  let needs_clarification := _normalize_bool (get normalized "needs_clarification") in
  let normalized := dset normalized "needs_clarification" (PBool needs_clarification) in
  let '(needs_clarification, normalized, warnings) :=
    if negb (is_nil missing_fields) && negb needs_clarification
    then (true, dset normalized "needs_clarification" (PBool true),
          (warnings ++ ["coerced_needs_clarification_true"])%list)
    else (needs_clarification, normalized, warnings) in
  let warnings :=
    if needs_clarification && is_nil missing_fields
    then (warnings ++ ["needs_clarification_without_missing_fields"])%list
    else warnings in
  (normalized, _dedupe warnings).

(** ** eval/schema.py *)

Inductive pytype : Type := TStr | TBool | TList.

Definition REQUIRED_OUTPUT_FIELDS : list (string * pytype) :=
  [("category", TStr); ("priority", TStr); ("device", TStr);
   ("needs_clarification", TBool); ("missing_fields", TList); ("summary", TStr)].

Definition isinstance (value : pyval) (t : pytype) : bool :=
  match t with
  | TStr => is_str value
  | TBool => is_bool value
  | TList => is_list value
  end.

Definition type_name (t : pytype) : string :=
  match t with TStr => "str" | TBool => "bool" | TList => "list" end.

Fixpoint field_errors (fields : list (string * pytype)) (output : dict) : list string :=
  match fields with
  | [] => []
  | (field, expected_type) :: rest =>
      match dget output field with
      | None => ("Missing key: " ++ field) :: field_errors rest output
      | Some value =>
          if isinstance value expected_type then field_errors rest output
          else ("Key '" ++ field ++ "' must be " ++ type_name expected_type)
                 :: field_errors rest output
      end
  end.

Definition validate_required_fields (output : pyval) : bool * list string :=
  match output with
  | PDict d =>
      let errors := field_errors REQUIRED_OUTPUT_FIELDS d in
      (is_nil errors, errors)
  | _ => (false, ["Output must be a JSON object"])
  end.

(** ** eval/scoring.py *)

Definition DEVICE_HINT_PATTERN := word_pattern_i ["windows"; "mac"; "iphone"; "android"].

Definition _field_correct (expected : dict) (actual : pyval) (field : string) : bool :=
  match actual with
  | PDict d => py_eq (get expected field) (get d field)
  | _ => false
  end.

Definition _hallucination_checks (actual : pyval) : bool * list string :=
  match actual with
  | PDict d =>
      let needs_clarification := get d "needs_clarification" in
      let missing_fields := get d "missing_fields" in
      let reasons : list string := [] in
      let reasons :=
        match needs_clarification, missing_fields with
        | PBool false, PList (_ :: _) => (reasons ++ ["missing_fields_without_clarification"])%list
        | _, _ => reasons
        end in
      let reasons :=
        match needs_clarification, missing_fields with
        | PBool true, PList [] => (reasons ++ ["clarification_without_missing_fields"])%list
        | _, _ => reasons
        end in
      (negb (is_nil reasons), reasons)
  | _ => (false, [])
  end.

Definition _is_device_extraction_failure (actual : pyval) (input_text : string) : bool :=
  match actual with
  | PDict d =>
      if negb (py_eq (get d "device") (PStr "Unknown")) then false
      else search DEVICE_HINT_PATTERN input_text
  | _ => false
  end.

Fixpoint unknown_fields (missing_fields : list pyval) (allowed : list string) : list string :=
  match missing_fields with
  | [] => []
  | field :: rest =>
      match field with
      | PStr s =>
          if mem s allowed then unknown_fields rest allowed
          else py_str field :: unknown_fields rest allowed
      | _ => py_str field :: unknown_fields rest allowed
      end
  end.

Definition _find_unknown_missing_fields (actual : pyval) (allowed_missing_fields : list string)
    : list string :=
  match actual with
  | PDict d =>
      match get d "missing_fields" with
      | PList missing_fields => unknown_fields missing_fields allowed_missing_fields
      | _ => []
      end
  | _ => []
  end.

(** The dictionary [score_case] returns, as a record of its keys. *)
Record ScoredCase : Type := {
  json_valid : bool;
  schema_valid : bool;
  schema_errors : list string;
  category_correct : bool;
  priority_correct : bool;
  device_correct : bool;
  needs_clarification_correct : bool;
  hallucination : bool;
  unknown_missing_fields : list string;
  warnings : list string;
  extraction_failure_device_unknown : bool;
  failure_reasons : list string;
  overall_pass : bool
}.

Definition append_if (cond : bool) (items : list string) (l : list string) : list string :=
  if cond then (l ++ items)%list else l.

Definition score_case (expected : dict) (actual : pyval) (input_text : string)
    (allowed_missing_fields : option (list string)) : ScoredCase :=
  let json_valid := is_dict actual in
  let '(schema_valid, schema_errors) :=
    if json_valid then validate_required_fields actual
    else (false, ["Output must be a JSON object"]) in
  let category_correct := _field_correct expected actual "category" in
  let priority_correct := _field_correct expected actual "priority" in
  let device_correct := _field_correct expected actual "device" in
  let needs_clarification_correct := _field_correct expected actual "needs_clarification" in
  let '(hallucination, hallucination_reasons) := _hallucination_checks actual in
  let extraction_failure_device_unknown := _is_device_extraction_failure actual input_text in
  let unknown_missing_fields :=
    _find_unknown_missing_fields actual
      (match allowed_missing_fields with Some l => l | None => [] end) in
  let warnings := append_if (negb (is_nil unknown_missing_fields)) ["unknown_missing_fields"] [] in
  let failure_reasons : list string := [] in
  let failure_reasons := append_if (negb json_valid) ["invalid_json"] failure_reasons in
  let failure_reasons := append_if (negb schema_valid) ["schema_error"] failure_reasons in
  let failure_reasons := append_if (negb category_correct) ["wrong_category"] failure_reasons in
  let failure_reasons := append_if (negb priority_correct) ["wrong_priority"] failure_reasons in
  let failure_reasons := append_if (negb device_correct) ["wrong_device"] failure_reasons in
  let failure_reasons :=
    append_if (negb needs_clarification_correct) ["wrong_needs_clarification"] failure_reasons in
  let failure_reasons :=
    append_if hallucination ("hallucination" :: hallucination_reasons) failure_reasons in
  let failure_reasons :=
    append_if extraction_failure_device_unknown ["extraction_failure_device_unknown"]
              failure_reasons in
  let overall_pass :=
    json_valid && schema_valid && category_correct && priority_correct && device_correct
    && needs_clarification_correct && negb hallucination in
  {| json_valid := json_valid;
     schema_valid := schema_valid;
     schema_errors := schema_errors;
     category_correct := category_correct;
     priority_correct := priority_correct;
     device_correct := device_correct;
     needs_clarification_correct := needs_clarification_correct;
     hallucination := hallucination;
     unknown_missing_fields := unknown_missing_fields;
     warnings := warnings;
     extraction_failure_device_unknown := extraction_failure_device_unknown;
     failure_reasons := _dedupe failure_reasons;
     overall_pass := overall_pass |}.

(** ** providers/ollama.py: extraction and repair *)

Definition open_brace : ascii := "{"%char.
Definition close_brace : ascii := "}"%char.
Definition backslash : ascii := ascii_of_nat 92.

(** [text[start:stop]] for [0 <= start]. *)
Definition slice (text : string) (start stop : nat) : string :=
  take (stop - start) (drop start text).

(** The loop of [extract_first_json_object] from index [idx] on; [rest] is
    the text still to be read. *)
Fixpoint extract_loop (text rest : string) (idx : nat) (depth start : Z)
    (in_string escaped : bool) {struct rest} : option string :=
  match rest with
  | EmptyString => None
  | String ch rest' =>
      if in_string then
        if escaped then extract_loop text rest' (S idx) depth start in_string false
        else if Ascii.eqb ch backslash then extract_loop text rest' (S idx) depth start in_string true
        else if Ascii.eqb ch dquote then extract_loop text rest' (S idx) depth start false escaped
        else extract_loop text rest' (S idx) depth start in_string escaped
      else if Ascii.eqb ch dquote then extract_loop text rest' (S idx) depth start true escaped
      else if Ascii.eqb ch open_brace then
        let start := if (depth =? 0)%Z then Z.of_nat idx else start in
        extract_loop text rest' (S idx) (depth + 1)%Z start in_string escaped
      else if Ascii.eqb ch close_brace && (0 <? depth)%Z then
        let depth := (depth - 1)%Z in
        if (depth =? 0)%Z && (0 <=? start)%Z
        then Some (slice text (Z.to_nat start) (idx + 1))
        else extract_loop text rest' (S idx) depth start in_string escaped
      else extract_loop text rest' (S idx) depth start in_string escaped
  end.

Definition extract_first_json_object (text : string) : option string :=
  extract_loop text text 0 0%Z (-1)%Z false false.

Definition parse_json_object_with_repair (text : string) : option dict * bool * string :=
  let raw := strip text in
  if is_empty raw then (None, false, "EmptyOutput")
  else
    let checked (parsed : pyval) : option dict * bool * string :=
      match parsed with
      | PDict d => (Some d, true, "")
      | _ => (None, false, "InvalidJSON")
      end in
    match json_loads rt raw with
    | Some parsed => checked parsed
    | None =>
        match extract_first_json_object raw with
        | None => (None, false, "ExtractionFailure")
        | Some candidate =>
            match json_loads rt candidate with
            | Some parsed => checked parsed
            | None => (None, false, "InvalidJSON")
            end
        end
    end.

Definition parse_json_object_from_text (text : string) : option dict * bool :=
  let '(parsed, ok, _) := parse_json_object_with_repair text in
  (parsed, ok).

(** ** reporting/summarize.py: rates, latency percentiles and gates *)

(** [float(z)] for an integer: [None] stands for [OverflowError]. *)
Definition float_of_Z (z : Z) : float :=
  SF2Prim (binary_normalize FloatOps.prec FloatOps.emax z 0 false).

Definition float_of_int (z : Z) : option float :=
  let f := float_of_Z z in
  if PrimFloat.is_infinity f then None else Some f.

(** [math.ceil(f)]: [None] stands for the error raised on an infinity or
    a NaN. *)
Definition ceil (f : float) : option Z :=
  match Prim2SF f with
  | S754_zero _ => Some 0%Z
  | S754_finite s m e =>
      let sm := if s then Z.neg m else Z.pos m in
      if (0 <=? e)%Z then Some (sm * 2 ^ e)%Z
      else Some (- ((- sm) / 2 ^ (- e)))%Z
  | _ => None
  end.

(** [isinstance(v, (int, float))]; a boolean is an [int]. *)
Definition is_number (v : pyval) : bool :=
  match v with
  | PBool _ | PInt _ | PFloat _ => true
  | _ => false
  end.

(** [float(v)] for a number. *)
Definition to_float (v : pyval) : option float :=
  match v with
  | PBool b => Some (if b then 1%float else 0%float)
  | PInt z => float_of_int z
  | PFloat f => Some f
  | _ => None
  end.

(** [[float(row["latency_ms"]) for row in rows if isinstance(row, dict)
      and isinstance(row.get("latency_ms"), (int, float))]] *)
Fixpoint latency_values (rows : list pyval) : option (list float) :=
  match rows with
  | [] => Some []
  | row :: rest =>
      match row with
      | PDict d =>
          if is_number (get d "latency_ms") then
            match to_float (get d "latency_ms"), latency_values rest with
            | Some f, Some fs => Some (f :: fs)
            | _, _ => None
            end
          else latency_values rest
      | _ => latency_values rest
      end
  end.

(** The latency samples of a run: those of the event stream, else those of
    the result records. *)
Definition latency_samples (results events : list pyval) : option (list float) :=
  match latency_values events with
  | Some [] => latency_values results
  | other => other
  end.

Fixpoint insert_sorted (x : float) (l : list float) : list float :=
  match l with
  | [] => [x]
  | y :: l' => if PrimFloat.ltb x y then x :: l else y :: insert_sorted x l'
  end.

(** [sorted(values)]: a stable sort by [<], which is what the interpreter
    returns on a list without NaN. *)
Definition sorted (values : list float) : list float :=
  List.fold_left (fun acc x => insert_sorted x acc) values [].

(** [_percentile(values, percentile)]; [None] stands for an error raised
    by [math.ceil] or by the indexing.  [percentile / 100] is the float
    quotient, exact for the integer percentiles that fit a float. *)
Definition _percentile (values : list float) (percentile : Z) : option float :=
  match values with
  | [] => Some 0%float
  | _ =>
      let sorted_values := sorted values in
      match ceil (float_of_Z percentile / 100 * float_of_Z (Z.of_nat (List.length sorted_values)))%float with
      | Some c =>
          let rank := Z.max 1 c in
          List.nth_error sorted_values (Z.to_nat (rank - 1))
      | None => None
      end
  end.

(** [_rate(rows, key)]; [None] stands for the error raised on a row that
    is not a dictionary. *)
Fixpoint count_truthy (rows : list pyval) (key : string) : option Z :=
  match rows with
  | [] => Some 0%Z
  | PDict d :: rest =>
      match count_truthy rest key with
      | Some n => Some (if truthy (get d key) then n + 1 else n)%Z
      | None => None
      end
  | _ :: _ => None
  end.

Definition _rate (rows : list pyval) (key : string) : option float :=
  match rows with
  | [] => Some 0%float
  | _ =>
      match count_truthy rows key with
      | Some good => Some (float_of_Z good / float_of_Z (Z.of_nat (List.length rows)))%float
      | None => None
      end
  end.

Fixpoint string_values (rows : list pyval) (key : string) : option (list string) :=
  match rows with
  | [] => Some []
  | PDict d :: rest =>
      match string_values rest key with
      | Some vs =>
          match get d key with
          | PStr s => Some (if is_empty s then vs else s :: vs)
          | _ => Some vs
          end
      | None => None
      end
  | _ :: _ => None
  end.

Definition _single_string_value (rows : list pyval) (key : string) : option string :=
  match string_values rows key with
  | Some vs =>
      match _dedupe vs with
      | [v] => Some v
      | [] => Some "unknown"
      | _ => Some "mixed"
      end
  | None => None
  end.

(** The entries of the summary that [evaluate_gates] reads, with the
    median latency beside the 95th percentile. *)
Record Summary : Type := {
  provider : string;
  schema_valid_rate : float;
  accuracy_category : float;
  latency_ms_p50 : float;
  latency_ms_p95 : float
}.

(** [summarize_results] on the rows of the two files, restricted to the
    entries of [Summary]; [None] stands for a raised error. *)
Definition summarize_results (results events : list pyval) : option Summary :=
  match _rate results "schema_valid", _rate results "category_correct",
        latency_samples results events, _single_string_value results "provider" with
  | Some schema_rate, Some category_accuracy, Some latencies, Some provider_name =>
      match _percentile latencies 50, _percentile latencies 95 with
      | Some p50, Some p95 =>
          Some {| provider := provider_name;
                  schema_valid_rate := schema_rate;
                  accuracy_category := category_accuracy;
                  latency_ms_p50 := p50;
                  latency_ms_p95 := p95 |}
      | _, _ => None
      end
  | _, _, _, _ => None
  end.

Record GateLimits : Type := {
  category_accuracy_min : float;
  schema_valid_rate_min : float;
  latency_p95_ms_max : float
}.

Definition DEFAULT_GATES : GateLimits :=
  {| category_accuracy_min := 0.85; schema_valid_rate_min := 1.0; latency_p95_ms_max := 2000.0 |}.

(** [limits.update(gates)], on the three keys that are read afterwards. *)
Fixpoint update_limits (limits : GateLimits) (gates : list (string * float)) : GateLimits :=
  match gates with
  | [] => limits
  | (key, value) :: rest =>
      let limits :=
        if String.eqb key "category_accuracy_min" then
          {| category_accuracy_min := value;
             schema_valid_rate_min := schema_valid_rate_min limits;
             latency_p95_ms_max := latency_p95_ms_max limits |}
        else if String.eqb key "schema_valid_rate_min" then
          {| category_accuracy_min := category_accuracy_min limits;
             schema_valid_rate_min := value;
             latency_p95_ms_max := latency_p95_ms_max limits |}
        else if String.eqb key "latency_p95_ms_max" then
          {| category_accuracy_min := category_accuracy_min limits;
             schema_valid_rate_min := schema_valid_rate_min limits;
             latency_p95_ms_max := value |}
        else limits in
      update_limits limits rest
  end.

Definition OLLAMA_LOCAL_GATES : list (string * float) := [("latency_p95_ms_max", 6000.0%float)].

Definition _resolve_gate_limits (summary : Summary) (gates : option (list (string * float)))
    : GateLimits :=
  let limits := DEFAULT_GATES in
  let limits :=
    if String.eqb (lower (provider summary)) "ollama"
    then update_limits limits OLLAMA_LOCAL_GATES else limits in
  let limits :=
    match env_latency_threshold rt with
    | Some env_latency =>
        if is_empty env_latency then limits
        else
          match float_of_string rt env_latency with
          | Some parsed =>
              if PrimFloat.ltb 0 parsed
              then update_limits limits [("latency_p95_ms_max", parsed)]
              else limits
          | None => limits
          end
    | None => limits
    end in
  match gates with
  | Some (g :: gs) => update_limits limits (g :: gs)
  | _ => limits
  end.

Definition _float_eq (a b : float) : bool :=
  PrimFloat.leb (PrimFloat.abs (a - b)) 1e-9.

(** One entry of ["checks"]; [check_threshold] is the limit that the
    entry's ["threshold"] text is printed from. *)
Record GateCheck : Type := {
  check_name : string;
  check_passed : bool;
  check_actual : float;
  check_threshold : float
}.

Record GateSummary : Type := { gates_passed : bool; checks : list GateCheck }.

Definition evaluate_gates (summary : Summary) (gates : option (list (string * float)))
    : GateSummary :=
  let limits := _resolve_gate_limits summary gates in
  let checks :=
    [ {| check_name := "category_accuracy";
         check_passed := PrimFloat.leb (category_accuracy_min limits) (accuracy_category summary);
         check_actual := accuracy_category summary;
         check_threshold := category_accuracy_min limits |};
      {| check_name := "schema_valid_rate";
         check_passed := _float_eq (schema_valid_rate summary) (schema_valid_rate_min limits);
         check_actual := schema_valid_rate summary;
         check_threshold := schema_valid_rate_min limits |};
      {| check_name := "latency_p95_ms";
         check_passed := PrimFloat.leb (latency_ms_p95 summary) (latency_p95_ms_max limits);
         check_actual := latency_ms_p95 summary;
         check_threshold := latency_p95_ms_max limits |} ] in
  {| gates_passed := List.forallb check_passed checks; checks := checks |}.

(** The entry of ["checks"] with the given name. *)
Definition find_check (name : string) (g : GateSummary) : option GateCheck :=
  List.find (fun c => String.eqb (check_name c) name) (checks g).

(** ** The spec's wording, for comparison *)


(** The ticket of the lost-phone scenario. *)
Definition lost_phone_text : string := "I lost my phone and it has company email on it.".

Definition lost_phone_fields : list string :=
  ["device_type"; "phone_number_or_asset_id"; "last_known_time"].

(** *** Reading [normalize_output] *)

(** The warnings that [normalize_output] can emit before it compares the
    clarification flag with the missing fields. *)
Definition early_warnings : list string :=
  ["defaulted_category"; "defaulted_priority"; "defaulted_summary";
   "defaulted_needs_clarification"; "defaulted_missing_fields";
   "normalized_category_synonym"; "category_out_of_set";
   "normalized_priority"; "priority_out_of_set";
   "defaulted_device_from_text"; "defaulted_device"; "mapped_laptop_to_os_device";
   "device_out_of_set_mapped_from_text"; "device_out_of_set"].

(** The missing fields of a candidate after [_normalize_missing_fields],
    and its clarification flag after [_normalize_bool]; an absent key reads
    as its default. *)
Definition candidate_missing_fields (candidate : dict) : list string :=
  fst (_normalize_missing_fields (get_default candidate "missing_fields" (PList [])) []).

Definition candidate_needs_clarification (candidate : dict) : bool :=
  _normalize_bool (get_default candidate "needs_clarification" (PBool false)).

(** The warnings that normalizing an already normalized output gives. *)
Definition renormalization_warnings (out : dict) : list string :=
  ((if is_empty (py_str (get out "summary")) then ["defaulted_summary"] else []) ++
   match get out "needs_clarification", get out "missing_fields" with
   | PBool true, PList [] => ["needs_clarification_without_missing_fields"]
   | _, _ => []
   end)%list.

(** *** Reading [extract_first_json_object] *)

(** The scanner's string mode [(in_string, escaped)] after one more
    character; it does not depend on the brace depth. *)
Definition lex_step (st : bool * bool) (ch : ascii) : bool * bool :=
  let '(in_string, escaped) := st in
  if in_string then
    if escaped then (in_string, false)
    else if Ascii.eqb ch backslash then (in_string, true)
    else if Ascii.eqb ch dquote then (false, escaped)
    else (in_string, escaped)
  else if Ascii.eqb ch dquote then (true, escaped)
  else (in_string, escaped).

Fixpoint lex_run (st : bool * bool) (s : string) : bool * bool :=
  match s with
  | EmptyString => st
  | String ch s' => lex_run (lex_step st ch) s'
  end.

(** What a character adds to the brace depth: braces count outside string
    literals only. *)
Definition brace_delta (st : bool * bool) (ch : ascii) : Z :=
  if fst st then 0%Z
  else if Ascii.eqb ch open_brace then 1%Z
  else if Ascii.eqb ch close_brace then (-1)%Z
  else 0%Z.

(** The brace depth of [s], read from mode [st]. *)
Fixpoint brace_depth (st : bool * bool) (s : string) : Z :=
  match s with
  | EmptyString => 0%Z
  | String ch s' => (brace_delta st ch + brace_depth (lex_step st ch) s')%Z
  end.

(** Some [{] of [s], read from mode [st], is outside string literals. *)
Fixpoint has_open_brace (st : bool * bool) (s : string) : bool :=
  match s with
  | EmptyString => false
  | String ch s' =>
      (negb (fst st) && Ascii.eqb ch open_brace) || has_open_brace (lex_step st ch) s'
  end.

(** [sub] is the first complete top-level object of [text]: it starts at
    the first [{] outside string literals, and its last character is the
    first one at which the brace depth is back to zero. *)
Definition first_object (text sub : string) : Prop :=
  exists pre post,
    text = pre ++ sub ++ post /\
    has_open_brace (false, false) pre = false /\
    fst (lex_run (false, false) pre) = false /\
    starts_with "{" sub = true /\
    brace_depth (lex_run (false, false) pre) sub = 0%Z /\
    forall a b, sub = a ++ b -> a <> "" -> b <> "" ->
                (0 < brace_depth (lex_run (false, false) pre) a)%Z.

(** The scan as two functions of the text still to be read: looking for
    the opening brace, and inside the object at a positive depth. *)
Fixpoint object_tail (depth : Z) (st : bool * bool) (s : string) : option string :=
  match s with
  | EmptyString => None
  | String ch s' =>
      let depth' := (depth + brace_delta st ch)%Z in
      if (depth' =? 0)%Z then Some (String ch "")
      else option_map (String ch) (object_tail depth' (lex_step st ch) s')
  end.

Fixpoint first_tail (st : bool * bool) (s : string) : option string :=
  match s with
  | EmptyString => None
  | String ch s' =>
      if negb (fst st) && Ascii.eqb ch open_brace
      then option_map (String ch) (object_tail 1 (lex_step st ch) s')
      else first_tail (lex_step st ch) s'
  end.

(** The two examples of the extraction contract. *)
Definition nested_example : string :=
  "prefix {" ++ String dquote ("a" ++ String dquote (":1," ++ String dquote ("b" ++ String dquote
  (":{" ++ String dquote ("c" ++ String dquote ":2}} suffix"))))).

Definition nested_object : string :=
  "{" ++ String dquote ("a" ++ String dquote (":1," ++ String dquote ("b" ++ String dquote
  (":{" ++ String dquote ("c" ++ String dquote ":2}}"))))).

Definition brace_in_literal : string :=
  "{" ++ String dquote ("text" ++ String dquote (":" ++ String dquote ("a } b" ++ String dquote "}"))).

(** A normalized output whose clarification flag is set although nothing
    is missing, and the ticket it answers. *)
Definition flagged_output : dict :=
  [("category", PStr "VPN"); ("priority", PStr "P1"); ("device", PStr "Windows");
   ("needs_clarification", PBool true); ("missing_fields", PList []);
   ("summary", PStr "VPN is down")].

Definition flagged_ticket : string := "VPN is down".

(** ** eval/rules.py: recognizing signal payloads *)

Definition SIGNAL_KEYS : list string :=
  ["device_hint"; "mentions_vpn"; "mentions_email"; "mentions_wifi_or_network";
   "mentions_printer"; "mentions_software_app"; "mentions_laptop_issue"; "access_request";
   "security_incident"; "scope"; "error_codes"; "urgency_words"; "summary"].

(** [SIGNAL_KEYS - {"summary"}] *)
Definition SIGNAL_INDICATOR_KEYS : list string :=
  List.filter (fun key => negb (String.eqb key "summary")) SIGNAL_KEYS.

Definition is_ticket_signals (payload : pyval) : bool :=
  match payload with
  | PDict d => List.forallb (fun key => has_key d key) SIGNAL_KEYS
  | _ => false
  end.

Definition looks_like_ticket_signals (payload : pyval) : bool :=
  match payload with
  | PDict d => List.existsb (fun key => has_key d key) SIGNAL_INDICATOR_KEYS
  | _ => false
  end.


(** ** Reading the schema and the scorer *)

(** The six typed lookups of a record that passes the schema. *)
Definition has_required_fields (d : dict) : Prop :=
  exists c p dv nc mf s,
    dget d "category" = Some (PStr c) /\
    dget d "priority" = Some (PStr p) /\
    dget d "device" = Some (PStr dv) /\
    dget d "needs_clarification" = Some (PBool nc) /\
    dget d "missing_fields" = Some (PList mf) /\
    dget d "summary" = Some (PStr s).

(** The codes that [score_case] can put among the failure reasons. *)
Definition failure_reason_codes : list string :=
  ["invalid_json"; "schema_error"; "wrong_category"; "wrong_priority"; "wrong_device";
   "wrong_needs_clarification"; "hallucination"; "missing_fields_without_clarification";
   "clarification_without_missing_fields"; "extraction_failure_device_unknown"].


(** ** Reading [normalize_output] field by field *)

(** The text that [_ensure_text_key] returns for a key: the trimmed text
    of its value, or the default when the value is [None] or blank. *)
Definition ensured_text (d : dict) (key default : string) : string :=
  match get d key with
  | PNone => default
  | value => if is_empty (strip (py_str value)) then default else strip (py_str value)
  end.

(** ** providers/dummy.py *)

(** [_coerce_expected(value, case_id)]; [None] stands for the
    [ValueError] raised on a value that is not an object and not the JSON
    text of one.  runner.py defines the same function. *)
Definition _coerce_expected (value : pyval) : option dict :=
  match value with
  | PDict d => Some d
  | PStr s =>
      match json_loads rt s with
      | Some (PDict d) => Some d
      | _ => None
      end
  | _ => None
  end.

Definition _flip_priority (priority : string) : string :=
  if String.eqb priority "P2" then "P3"
  else if String.eqb priority "P3" then "P2"
  else "P2".

(** The [actual] of [DummyProvider.generate]: a copy of the expected
    record, changed according to the two random draws; [flip_priority]
    and [flip_category] say whether the first and the second draw fell
    below [0.10].  [None] stands for the error of [_coerce_expected]. *)
Definition dummy_actual (item : dict) (flip_priority flip_category : bool) : option dict :=
  match _coerce_expected (get item "expected") with
  | Some expected =>
      let actual := expected in
      let actual :=
        if flip_priority
        then dset actual "priority"
                  (PStr (_flip_priority (py_str (get_default actual "priority" (PStr "")))))
        else actual in
      let actual :=
        if flip_category then dset actual "category" (PStr "Network") else actual in
      Some actual
  | None => None
  end.

(** ** eval/runner.py: one case of [run_eval] *)

Definition _dedupe_warnings (values : list string) : list string := dedupe_from [] values.

Definition SNAPSHOT_KEYS : list string :=
  ["device_hint"; "mentions_vpn"; "mentions_email"; "mentions_wifi_or_network";
   "mentions_printer"; "mentions_software_app"; "mentions_laptop_issue"; "access_request";
   "security_incident"; "scope"; "urgency_words"].

Fixpoint snapshot_loop (keys : list string) (signals snapshot : dict) : dict :=
  match keys with
  | [] => snapshot
  | key :: rest =>
      snapshot_loop rest signals
        (match dget signals key with
         | Some value => dset snapshot key value
         | None => snapshot
         end)
  end.

Definition _signal_snapshot (signals : dict) : dict := snapshot_loop SNAPSHOT_KEYS signals [].

(** The strings that the rows of the dataset list under
    [expected.missing_fields]; the source collects them in a set, of which
    only membership is read.  [None] stands for the error of
    [_coerce_expected]; a row that is not a dictionary cannot come out of
    [load_jsonl]. *)
Fixpoint _build_allowed_missing_fields (dataset : list dict) : option (list string) :=
  match dataset with
  | [] => Some []
  | row :: rest =>
      match _coerce_expected (get row "expected") with
      | Some expected =>
          match _build_allowed_missing_fields rest with
          | Some allowed =>
              match get expected "missing_fields" with
              | PList missing_fields =>
                  Some (List.flat_map (fun field => match field with
                                                    | PStr s => [s]
                                                    | _ => []
                                                    end) missing_fields ++ allowed)%list
              | _ => Some allowed
              end
          | None => None
          end
      | None => None
      end
  end.

(** Lines 69 to 82 of [run_eval]: what is scored in place of the
    provider's [actual], the normalization warnings, and the signal
    snapshot. *)
Definition normalize_actual (provider : string) (actual : pyval) (input_text : string)
    (allowed_missing_fields : list string) : pyval * list string * option dict :=
  match actual with
  | PDict d =>
      let '(normalized_actual, normalization_warnings, key_signals) :=
        if String.eqb provider "ollama" && looks_like_ticket_signals actual then
          let signal_payload := coerce_ticket_signals d in
          let '(out, warnings) :=
            build_output_from_signals signal_payload input_text
              (Some allowed_missing_fields) STRICT_MISSING_FIELDS_DEFAULT in
          (out, warnings, Some (_signal_snapshot signal_payload))
        else (d, [], None) in
      let '(normalized_actual, post_warnings) := normalize_output normalized_actual input_text in
      (PDict normalized_actual,
       _dedupe_warnings (normalization_warnings ++ post_warnings)%list,
       key_signals)
  | _ => (actual, [], None)
  end.

(** Lines 112 to 122 of [run_eval]: the status, error type and error
    message of the event, from those of the provider result and the
    score. *)
Definition event_status (status : string) (error_type error_msg : option string)
    (score : ScoredCase) : string * option string * option string :=
  if String.eqb status "ok" && (negb (json_valid score) || negb (schema_valid score)) then
    if negb (json_valid score)
    then ("error", Some "InvalidJSON", Some "Output is not valid JSON object")
    else if negb (schema_valid score)
    then ("error", Some "SchemaValidationError",
          Some (String.concat "; " (schema_errors score)))
    else ("error", error_type, error_msg)
  else (status, error_type, error_msg).

(** ** providers/ollama.py: token usage and [OllamaProvider.generate] *)

(** [isinstance(v, int)]; a boolean is an [int]. *)
Definition is_int (v : pyval) : bool :=
  match v with
  | PBool _ | PInt _ => true
  | _ => false
  end.

(** The integer that an [int] value adds as. *)
Definition int_value (v : pyval) : Z :=
  match v with
  | PBool true => 1%Z
  | PInt z => z
  | _ => 0%Z
  end.

Fixpoint _first_int (payload : dict) (keys : list string) : option pyval :=
  match keys with
  | [] => None
  | key :: rest =>
      let value := get payload key in
      if is_int value then Some value else _first_int payload rest
  end.

(** An optional value as the interpreter stores it. *)
Definition py_option (v : option pyval) : pyval :=
  match v with Some x => x | None => PNone end.

Definition _extract_usage (response : dict) : option dict :=
  let prompt_tokens := _first_int response ["prompt_eval_count"; "input_eval_count"] in
  let completion_tokens := _first_int response ["eval_count"; "output_eval_count"] in
  let total_tokens := _first_int response ["total_tokens"] in
  let total_tokens :=
    match total_tokens, prompt_tokens, completion_tokens with
    | None, Some p, Some c => Some (PInt (int_value p + int_value c))
    | _, _, _ => total_tokens
    end in
  match prompt_tokens, completion_tokens, total_tokens with
  | None, None, None => None
  | _, _, _ =>
      Some [("prompt_tokens", py_option prompt_tokens);
            ("completion_tokens", py_option completion_tokens);
            ("total_tokens", py_option total_tokens)]
  end.

Definition _parse_error_message (error_type : string) : string :=
  if String.eqb error_type "EmptyOutput" then "Model returned empty output"
  else if String.eqb error_type "ExtractionFailure"
  then "Could not extract a JSON object from model output"
  else "Model did not return a valid JSON object".

(** The fields of [ProviderResult] but [latency_ms], which is read from
    the clock. *)
Record ProviderResult : Type := {
  actual : option dict;
  raw_text : option string;
  usage : option dict;
  status : string;
  error_type : option string;
  error_msg : option string;
  prompt_chars : option nat;
  response_chars : option nat
}.

(** How a call of [_call_model] ends: with the text and the usage, or
    with one of the exceptions that [generate] tells apart.  A response
    shape error carries its message and the JSON text of its payload;
    [OtherError] is any other exception, with the name of its type and its
    message. *)
Inductive call_result : Type :=
| Returned (text : string) (call_usage : option dict)
| ConnectionError
| HTTPError (status_code : Z) (response_body : string)
| ResponseShapeError (message : string) (payload_json : string)
| OtherError (type_name : string) (message : string).

(** [a or b] for two optional dictionaries. *)
Definition usage_or (a b : option dict) : option dict :=
  match a with
  | Some (_ :: _) => a
  | _ => b
  end.

(** [f"HTTP {exc.status_code}: {exc.response_body}".strip()] *)
Definition http_error_body (status_code : Z) (response_body : string) : string :=
  strip ("HTTP " ++ py_str (PInt status_code) ++ ": " ++ response_body).

(** [OllamaProvider.generate(item, model)], given how the first call of
    the model and the retry end; [inr] is an exception that leaves
    [generate], with the name of its type. *)
Definition generate (item : dict) (first retry : call_result) : ProviderResult + string :=
  let ticket_text := py_str (get_default item "input_text" (PStr "")) in
  let prompt_chars := String.length ticket_text in
  match first with
  | ConnectionError => inr "RuntimeError"
  | HTTPError status_code response_body =>
      let body := http_error_body status_code response_body in
      inl {| actual := None; raw_text := Some (take 500 body); usage := None;
             status := "error"; error_type := Some "HTTPError";
             error_msg := Some (take 300 body);
             prompt_chars := Some prompt_chars; response_chars := None |}
  | ResponseShapeError message payload_json =>
      inl {| actual := None; raw_text := Some (take 500 payload_json); usage := None;
             status := "error"; error_type := Some "ResponseShapeError";
             error_msg := Some message;
             prompt_chars := Some prompt_chars; response_chars := None |}
  | OtherError type_name message =>
      inl {| actual := None; raw_text := None; usage := None;
             status := "error"; error_type := Some type_name;
             error_msg := Some message;
             prompt_chars := Some prompt_chars; response_chars := None |}
  | Returned raw_text0 usage0 =>
      let '(actual0, json_valid0, parse_error_type) :=
        parse_json_object_with_repair raw_text0 in
      if negb json_valid0 then
        let failed (raw_text1 : string) (usage1 : option dict)
                   (retry_error_type retry_error_msg : string) : ProviderResult + string :=
          inl {| actual := None; raw_text := Some (take 500 raw_text1); usage := usage1;
                 status := "error"; error_type := Some retry_error_type;
                 error_msg := Some retry_error_msg;
                 prompt_chars := Some prompt_chars;
                 response_chars := Some (String.length raw_text1) |} in
        match retry with
        | Returned retry_text retry_usage =>
            let '(retry_actual, retry_ok, retry_parse_error) :=
              parse_json_object_with_repair retry_text in
            if retry_ok then
              inl {| actual := retry_actual; raw_text := None;
                     usage := usage_or retry_usage usage0;
                     status := "ok"; error_type := None; error_msg := None;
                     prompt_chars := Some prompt_chars;
                     response_chars := Some (String.length retry_text) |}
            else
              failed retry_text (usage_or retry_usage usage0) retry_parse_error
                     (_parse_error_message retry_parse_error)
        | HTTPError status_code response_body =>
            let raw_text1 := http_error_body status_code response_body in
            failed raw_text1 usage0 "HTTPError" (take 300 raw_text1)
        | ResponseShapeError message payload_json =>
            failed payload_json usage0 "ResponseShapeError" message
        | ConnectionError => inr "_OllamaConnectionError"
        | OtherError type_name _ => inr type_name
        end
      else
        inl {| actual := actual0; raw_text := None; usage := usage0;
               status := "ok"; error_type := None; error_msg := None;
               prompt_chars := Some prompt_chars;
               response_chars := Some (String.length raw_text0) |}
  end.

(** ** eval/runner.py: the result row of a case *)

(** The dictionary that [score_case] returns, which [ScoredCase] stands
    for. *)
Definition score_dict (score : ScoredCase) : dict :=
  [("json_valid", PBool (json_valid score));
   ("schema_valid", PBool (schema_valid score));
   ("schema_errors", py_strs (schema_errors score));
   ("category_correct", PBool (category_correct score));
   ("priority_correct", PBool (priority_correct score));
   ("device_correct", PBool (device_correct score));
   ("needs_clarification_correct", PBool (needs_clarification_correct score));
   ("hallucination", PBool (hallucination score));
   ("unknown_missing_fields", py_strs (unknown_missing_fields score));
   ("warnings", py_strs (warnings score));
   ("extraction_failure_device_unknown", PBool (extraction_failure_device_unknown score));
   ("failure_reasons", py_strs (failure_reasons score));
   ("overall_pass", PBool (overall_pass score))].

Definition py_text (v : option string) : pyval :=
  match v with Some s => PStr s | None => PNone end.

(** Lines 54 to 110 of [run_eval]: the row that is appended to the
    results file for one item of the dataset, given the result of the
    provider.  [latency_ms] is the rounded latency; [None] stands for the
    error of [_coerce_expected]. *)
Definition run_case (provider model : string) (item : dict) (provider_result : ProviderResult)
    (latency_ms : pyval) (allowed_missing_fields : list string) : option dict :=
  let case_id := py_str (get_default item "id" (PStr "")) in
  let input_text := py_str (get_default item "input_text" (PStr "")) in
  match _coerce_expected (get item "expected") with
  | None => None
  | Some expected =>
      let provider_actual :=
        match actual provider_result with Some d => PDict d | None => PNone end in
      let '(normalized_actual, normalization_warnings, key_signals) :=
        normalize_actual provider provider_actual input_text allowed_missing_fields in
      let score :=
        score_case expected normalized_actual input_text (Some allowed_missing_fields) in
      let combined_warnings :=
        _dedupe_warnings (warnings score ++ normalization_warnings)%list in
      let result_row :=
        ([("id", PStr case_id);
          ("provider", PStr provider);
          ("model", PStr model);
          ("expected", PDict expected);
          ("actual", normalized_actual);
          ("usage", match usage provider_result with Some u => PDict u | None => PNone end);
          ("latency_ms", latency_ms)] ++ score_dict score)%list in
      let result_row := dset result_row "warnings" (py_strs combined_warnings) in
      let result_row :=
        match key_signals with
        | Some snapshot => dset result_row "key_signals" (PDict snapshot)
        | None => result_row
        end in
      let result_row :=
        match raw_text provider_result with
        | Some text =>
            if negb (json_valid score) && negb (is_empty text)
            then dset result_row "raw_text" (PStr (take 500 text))
            else result_row
        | None => result_row
        end in
      let result_row :=
        if String.eqb (status provider_result) "error"
        then dset (dset result_row "error_type" (py_text (error_type provider_result)))
                  "error_msg" (py_text (error_msg provider_result))
        else result_row in
      Some result_row
  end.

(** ** reporting/summarize.py: failure causes and reasons *)

Definition FAILURE_CAUSE_ORDER : list string :=
  ["InvalidJSON"; "SchemaError"; "EmptyOutput"; "ExtractionFailure"; "RuleConflict"].

Definition RULE_CONFLICT_REASONS : list string :=
  ["missing_fields_without_clarification"; "clarification_without_missing_fields"].

Definition RULE_CONFLICT_WARNINGS : list string :=
  ["needs_clarification_without_missing_fields"; "coerced_needs_clarification_true"].

Definition _is_rule_conflict (row : dict) : bool :=
  match get row "failure_reasons" with
  | PList reasons =>
      List.existsb (fun reason => mem (py_str reason) RULE_CONFLICT_REASONS) reasons
  | _ => false
  end
  || match get row "warnings" with
     | PList row_warnings =>
         List.existsb (fun warning => mem (py_str warning) RULE_CONFLICT_WARNINGS) row_warnings
     | _ => false
     end.

(** [counts[cause] += 1] *)
Definition bump (counts : list (string * Z)) (cause : string) : list (string * Z) :=
  List.map (fun entry => if String.eqb (fst entry) cause
                         then (fst entry, (snd entry + 1)%Z) else entry) counts.

(** The body of the loop of [_failure_cause_counts]. *)
Definition count_row (counts : list (string * Z)) (row : dict) : list (string * Z) :=
  let row_json_valid := truthy (get row "json_valid") in
  let row_schema_valid := truthy (get row "schema_valid") in
  let row_error_type := py_str (get_default row "error_type" (PStr "")) in
  let row_raw_text := get row "raw_text" in
  let counts := if negb row_json_valid then bump counts "InvalidJSON" else counts in
  let counts :=
    if row_json_valid && negb row_schema_valid then bump counts "SchemaError" else counts in
  let counts :=
    if String.eqb row_error_type "EmptyOutput"
       || (negb row_json_valid
           && match row_raw_text with PStr s => is_empty (strip s) | _ => false end)
    then bump counts "EmptyOutput" else counts in
  let counts :=
    if String.eqb row_error_type "ExtractionFailure"
    then bump counts "ExtractionFailure" else counts in
  let counts := if _is_rule_conflict row then bump counts "RuleConflict" else counts in
  counts.

Definition _failure_cause_counts (results : list dict) : list (string * Z) :=
  List.fold_left count_row results (List.map (fun cause => (cause, 0%Z)) FAILURE_CAUSE_ORDER).

(** [counts[cause]] *)
Definition cause_count (counts : list (string * Z)) (cause : string) : Z :=
  match List.find (fun entry => String.eqb (fst entry) cause) counts with
  | Some entry => snd entry
  | None => 0%Z
  end.

Definition _reasons_from_row (row : dict) : list string :=
  match get row "failure_reasons" with
  | PList (reason :: reasons) => List.map py_str (reason :: reasons)
  | _ =>
      let fallback : list string := [] in
      let fallback :=
        append_if (negb (truthy (get_default row "json_valid" (PBool true))))
                  ["invalid_json"] fallback in
      let fallback :=
        append_if (negb (truthy (get_default row "schema_valid" (PBool true))))
                  ["schema_error"] fallback in
      let fallback :=
        append_if (negb (truthy (get_default row "category_correct" (PBool true))))
                  ["wrong_category"] fallback in
      let fallback :=
        append_if (negb (truthy (get_default row "priority_correct" (PBool true))))
                  ["wrong_priority"] fallback in
      let fallback :=
        append_if (negb (truthy (get_default row "device_correct" (PBool true))))
                  ["wrong_device"] fallback in
      let fallback :=
        append_if (negb (truthy (get_default row "needs_clarification_correct" (PBool true))))
                  ["wrong_needs_clarification"] fallback in
      let fallback :=
        append_if (truthy (get_default row "hallucination" (PBool false)))
                  ["hallucination"] fallback in
      fallback
  end.

(** A row that [run_eval] writes to the results file. *)
Definition runner_row (row : dict) : Prop :=
  exists provider model item provider_result latency_ms allowed_missing_fields,
    run_case provider model item provider_result latency_ms allowed_missing_fields
    = Some row.

(** ** providers/ollama.py: the exceptions that [json.loads] can raise *)

(** How a call of [json.loads] ends: with a value, with
    [json.JSONDecodeError], or with another exception, named by its type
    ([ValueError] on an integer literal longer than the interpreter
    allows, [RecursionError] on deep nesting). *)
Inductive loads_outcome : Type :=
| Loaded (value : pyval)
| DecodeError
| Raised (exception : string).

(** The outcome as [json_loads] of the runtime gives it, where it is a
    value or a decode error. *)
Definition decoded (outcome : loads_outcome) : option pyval :=
  match outcome with
  | Loaded value => Some value
  | _ => None
  end.

(** [parse_json_object_with_repair] with the exceptions it does not
    catch: its two [try] blocks catch [json.JSONDecodeError] only, so any
    other exception of [json.loads] leaves the function; [inr] names it. *)
Definition parse_json_object_with_repair_exn (loads : string -> loads_outcome)
    (text : string) : (option dict * bool * string) + string :=
  let raw := strip text in
  if is_empty raw then inl (None, false, "EmptyOutput")
  else
    let checked (parsed : pyval) : (option dict * bool * string) + string :=
      match parsed with
      | PDict d => inl (Some d, true, "")
      | _ => inl (None, false, "InvalidJSON")
      end in
    match loads raw with
    | Loaded parsed => checked parsed
    | Raised exception => inr exception
    | DecodeError =>
        match extract_first_json_object raw with
        | None => inl (None, false, "ExtractionFailure")
        | Some candidate =>
            match loads candidate with
            | Loaded parsed => checked parsed
            | Raised exception => inr exception
            | DecodeError => inl (None, false, "InvalidJSON")
            end
        end
    end.

(** [OllamaProvider.generate] with the exceptions that leave it through
    [parse_json_object_with_repair]: the first parse is outside any [try],
    and the [try] around the retry catches HTTP and response shape errors
    only. *)
Definition generate_exn (loads : string -> loads_outcome) (item : dict)
    (first retry : call_result) : ProviderResult + string :=
  let ticket_text := py_str (get_default item "input_text" (PStr "")) in
  let prompt_chars := String.length ticket_text in
  match first with
  | ConnectionError => inr "RuntimeError"
  | HTTPError status_code response_body =>
      let body := http_error_body status_code response_body in
      inl {| actual := None; raw_text := Some (take 500 body); usage := None;
             status := "error"; error_type := Some "HTTPError";
             error_msg := Some (take 300 body);
             prompt_chars := Some prompt_chars; response_chars := None |}
  | ResponseShapeError message payload_json =>
      inl {| actual := None; raw_text := Some (take 500 payload_json); usage := None;
             status := "error"; error_type := Some "ResponseShapeError";
             error_msg := Some message;
             prompt_chars := Some prompt_chars; response_chars := None |}
  | OtherError type_name message =>
      inl {| actual := None; raw_text := None; usage := None;
             status := "error"; error_type := Some type_name;
             error_msg := Some message;
             prompt_chars := Some prompt_chars; response_chars := None |}
  | Returned raw_text0 usage0 =>
      match parse_json_object_with_repair_exn loads raw_text0 with
      | inr exception => inr exception
      | inl (actual0, json_valid0, parse_error_type) =>
          if negb json_valid0 then
            let failed (raw_text1 : string) (usage1 : option dict)
                       (retry_error_type retry_error_msg : string)
                : ProviderResult + string :=
              inl {| actual := None; raw_text := Some (take 500 raw_text1); usage := usage1;
                     status := "error"; error_type := Some retry_error_type;
                     error_msg := Some retry_error_msg;
                     prompt_chars := Some prompt_chars;
                     response_chars := Some (String.length raw_text1) |} in
            match retry with
            | Returned retry_text retry_usage =>
                match parse_json_object_with_repair_exn loads retry_text with
                | inr exception => inr exception
                | inl (retry_actual, retry_ok, retry_parse_error) =>
                    if retry_ok then
                      inl {| actual := retry_actual; raw_text := None;
                             usage := usage_or retry_usage usage0;
                             status := "ok"; error_type := None; error_msg := None;
                             prompt_chars := Some prompt_chars;
                             response_chars := Some (String.length retry_text) |}
                    else
                      failed retry_text (usage_or retry_usage usage0) retry_parse_error
                             (_parse_error_message retry_parse_error)
                end
            | HTTPError status_code response_body =>
                let raw_text1 := http_error_body status_code response_body in
                failed raw_text1 usage0 "HTTPError" (take 300 raw_text1)
            | ResponseShapeError message payload_json =>
                failed payload_json usage0 "ResponseShapeError" message
            | ConnectionError => inr "_OllamaConnectionError"
            | OtherError type_name _ => inr type_name
            end
          else
            inl {| actual := actual0; raw_text := None; usage := usage0;
                   status := "ok"; error_type := None; error_msg := None;
                   prompt_chars := Some prompt_chars;
                   response_chars := Some (String.length raw_text0) |}
      end
  end.

(** *** A decoder for the closed examples *)

Fixpoint all_digits (s : string) : bool :=
  match s with
  | EmptyString => true
  | String c s' => is_digit c && all_digits s'
  end.

Fixpoint digits_value (acc : Z) (s : string) : Z :=
  match s with
  | EmptyString => acc
  | String c s' => digits_value (10 * acc + Z.of_nat (code c - 48))%Z s'
  end.

(** The interpreter's default limit on the digits of an integer literal
    ([sys.int_info.default_max_str_digits]). *)
Definition INT_MAX_STR_DIGITS : nat := 4300.

(** [json.loads] on a text of decimal digits: the integer, a decode error
    on a leading zero, and [ValueError] on more digits than the limit.
    Every other text is rejected, which no example relies on. *)
Definition digits_loads (text : string) : loads_outcome :=
  match text with
  | EmptyString => DecodeError
  | String c rest =>
      if all_digits text then
        if Ascii.eqb c "0" && negb (is_empty rest) then DecodeError
        else if Nat.ltb INT_MAX_STR_DIGITS (String.length text) then Raised "ValueError"
        else Loaded (PInt (digits_value 0 text))
      else DecodeError
  end.

(** [c * n] *)
Fixpoint replicate (n : nat) (c : ascii) : string :=
  match n with
  | O => EmptyString
  | S n' => String c (replicate n' c)
  end.

(** An integer literal of 4301 digits. *)
Definition long_integer : string := replicate 4301 "1".

(** * Properties *)

(** ** Lists of strings *)

Lemma mem_In (x : string) (xs : list string) : mem x xs = true <-> In x xs.
Proof.
  induction xs as [|y ys IH]; simpl.
  - split; [discriminate | tauto].
  - rewrite orb_true_iff, IH, String.eqb_eq. split; intros [H|H]; auto.
Qed.

Lemma mem_false_In (x : string) (xs : list string) : mem x xs = false <-> ~ In x xs.
Proof.
  rewrite <- mem_In. destruct (mem x xs); split; congruence.
Qed.

Lemma dedupe_from_In (x : string) (values seen : list string) :
  In x (dedupe_from seen values) <-> In x values /\ mem x seen = false.
Proof.
  revert seen. induction values as [|v rest IH]; intros seen; simpl.
  - tauto.
  - destruct (mem v seen) eqn:Hv.
    + rewrite IH. split.
      * intros [H1 H2]. auto.
      * intros [[H1|H1] H2]; [subst; congruence | auto].
    + simpl. rewrite IH. simpl. rewrite orb_false_iff. split.
      * intros [H|[H1 [H2 H3]]]; [subst; auto | auto].
      * intros [[H1|H1] H2]; [auto|].
        destruct (String.eqb x v) eqn:E; [apply String.eqb_eq in E; auto | auto].
Qed.

Lemma dedupe_In (x : string) (values : list string) : In x (_dedupe values) <-> In x values.
Proof.
  unfold _dedupe. rewrite dedupe_from_In. simpl. tauto.
Qed.

(** A list without repeats that avoids [seen] is left as it is. *)
Lemma dedupe_from_fixed (values seen : list string) :
  NoDup values -> (forall x, In x values -> mem x seen = false) ->
  dedupe_from seen values = values.
Proof.
  revert seen. induction values as [|v rest IH]; intros seen Hnd Hseen; simpl; [reflexivity|].
  inversion Hnd as [|? ? Hnotin Hnd']; subst.
  rewrite (Hseen v (or_introl eq_refl)). f_equal. apply IH; [assumption|].
  intros x Hx. simpl. rewrite (Hseen x (or_intror Hx)), orb_false_r.
  destruct (String.eqb x v) eqn:E; [apply String.eqb_eq in E; subst; contradiction | reflexivity].
Qed.

Lemma dedupe_from_NoDup (values seen : list string) : NoDup (dedupe_from seen values).
Proof.
  revert seen. induction values as [|v rest IH]; intros seen; simpl; [constructor|].
  destruct (mem v seen) eqn:Hv; [apply IH|].
  constructor; [|apply IH].
  rewrite dedupe_from_In. simpl. rewrite String.eqb_refl. simpl. intros [_ H]. discriminate.
Qed.

Lemma dedupe_idempotent (values : list string) : _dedupe (_dedupe values) = _dedupe values.
Proof.
  unfold _dedupe at 1. apply dedupe_from_fixed; [apply dedupe_from_NoDup | reflexivity].
Qed.

(** ** Dictionaries *)

Lemma dget_dset_eq (d : dict) (k : string) (v : pyval) : dget (dset d k v) k = Some v.
Proof.
  induction d as [|[k' v'] d IH]; simpl.
  - now rewrite String.eqb_refl.
  - destruct (String.eqb k' k) eqn:E; simpl; rewrite E; [reflexivity | exact IH].
Qed.

Lemma dget_dset_neq (d : dict) (k k' : string) (v : pyval) :
  String.eqb k k' = false -> dget (dset d k v) k' = dget d k'.
Proof.
  intros Hne. induction d as [|[k0 v0] d IH]; simpl.
  - now rewrite Hne.
  - destruct (String.eqb k0 k) eqn:E; simpl.
    + apply String.eqb_eq in E. subst k0. now rewrite Hne.
    + now rewrite IH.
Qed.

Lemma dset_same (d : dict) (k : string) (v : pyval) : dget d k = Some v -> dset d k v = d.
Proof.
  induction d as [|[k0 v0] d IH]; simpl; [discriminate|].
  destruct (String.eqb k0 k) eqn:E.
  - intros H. now inversion H.
  - intros H. now rewrite IH.
Qed.

(** ** C1: the consistency law of the classification engine *)

(** C1.  Whatever the signals, the ticket text, the allowed vocabulary and
    the strict flag, the output of [build_output_from_signals] carries a
    clarification flag that is true exactly when its list of missing fields
    is not empty. *)
Theorem build_output_consistency_law
    (signals : dict) (input_text : string)
    (allowed_missing_fields : option (list string)) (strict_missing_fields : bool) :
  exists (needs_clarification : bool) (missing_fields : list string),
    let out := fst (build_output_from_signals signals input_text
                      allowed_missing_fields strict_missing_fields) in
    dget out "needs_clarification" = Some (PBool needs_clarification) /\
    dget out "missing_fields" = Some (py_strs missing_fields) /\
    needs_clarification = negb (is_nil missing_fields).
Proof.
  unfold build_output_from_signals.
  set (mf := infer_missing_fields _ _ _ _).
  set (nc := infer_needs_clarification _ _ _ _).
  set (summary := strip _).
  destruct mf as [|f fs], nc; cbn -[_clamp _dedupe take strip];
    destruct (is_empty summary);
    repeat match goal with
           | |- context [_clamp ?a ?b ?c ?d ?e] => destruct (_clamp a b c d e)
           end;
    cbn -[_dedupe];
    first [ exists false, []; repeat split; reflexivity
          | exists true, (f :: fs); repeat split; reflexivity ].
Qed.

(** ** C7: canonicalization closure *)

Lemma first_allowed_sound (candidates allowed : list string) (c : string) :
  first_allowed candidates allowed = Some c -> In c candidates /\ mem c allowed = true.
Proof.
  induction candidates as [|x rest IH]; simpl; [discriminate|].
  destruct (mem x allowed) eqn:E.
  - intros H. inversion H. subst. auto.
  - intros H. destruct (IH H). auto.
Qed.

Lemma map_to_canonical_sound (field : string) (allowed : list string) (c : string) :
  _map_to_canonical field allowed = Some c ->
  mem c allowed = true /\ (c = field \/ In c (canon_targets CANON_FIELD_MAP field)).
Proof.
  unfold _map_to_canonical. destruct (mem field allowed) eqn:E.
  - intros H. inversion H. subst. auto.
  - intros H. apply first_allowed_sound in H. tauto.
Qed.

Lemma map_to_canonical_none (field : string) (allowed : list string) :
  _map_to_canonical field allowed = None -> mem field allowed = false.
Proof.
  unfold _map_to_canonical. destruct (mem field allowed); [discriminate | reflexivity].
Qed.

Lemma canonical_loop_closed (fields allowed : list string) (strict : bool) (x : string) :
  In x (canonical_loop fields allowed strict) ->
  (mem x allowed = true /\
   exists field, In field fields /\ (x = field \/ In x (canon_targets CANON_FIELD_MAP field)))
  \/ (strict = false /\ In x fields).
Proof.
  induction fields as [|f rest IH]; simpl; [tauto|].
  destruct (_map_to_canonical f allowed) as [c|] eqn:E.
  - simpl. intros [H|H].
    + subst c. apply map_to_canonical_sound in E. left. split; [tauto|].
      exists f. tauto.
    + destruct (IH H) as [[H1 [g [H2 H3]]]|[H1 H2]]; [left; split; [assumption|exists g; tauto] | right; tauto].
  - destruct strict.
    + intros H. destruct (IH H) as [[H1 [g [H2 H3]]]|[H1 H2]]; [left; split; [assumption|exists g; tauto] | discriminate].
    + simpl. intros [H|H]; [right; auto|].
      destruct (IH H) as [[H1 [g [H2 H3]]]|[H1 H2]]; [left; split; [assumption|exists g; tauto] | right; tauto].
Qed.

(** C7.  Every field returned by [normalize_missing_fields_to_canonical]
    is in the allowed vocabulary, being an input field or a synonym-table
    target of one, or else strict mode is off and it is an input field
    unchanged; in strict mode an input field that maps to nothing does not
    appear in the result. *)
Theorem canonicalization_closure
    (fields : list string) (allowed_missing_fields : option (list string)) (strict : bool) :
  let allowed := _resolve_allowed_missing_fields allowed_missing_fields in
  let result := normalize_missing_fields_to_canonical fields allowed_missing_fields strict in
  Forall (fun x =>
            (mem x allowed = true /\
             exists field, In field fields /\
                           (x = field \/ In x (canon_targets CANON_FIELD_MAP field)))
            \/ (strict = false /\ In x fields)) result
  /\ (strict = true ->
      forall field, _map_to_canonical field allowed = None -> ~ In field result).
Proof.
  intros allowed result. subst result. unfold normalize_missing_fields_to_canonical.
  fold allowed. split.
  - apply Forall_forall. intros x Hx. apply (proj1 (dedupe_In _ _)) in Hx.
    apply canonical_loop_closed in Hx.
    destruct Hx as [[H1 [g [H2 H3]]]|[H1 H2]].
    + left. split; [assumption|]. exists g. apply (proj1 (dedupe_In _ _)) in H2. tauto.
    + right. apply (proj1 (dedupe_In _ _)) in H2. tauto.
  - intros Hs field Hnone Hin. subst strict. apply (proj1 (dedupe_In _ _)) in Hin.
    apply canonical_loop_closed in Hin.
    apply map_to_canonical_none in Hnone.
    destruct Hin as [[H1 _]|[H1 _]]; congruence.
Qed.

(** ** C9: coercion of [error_codes] *)



(** ** C4: parsing with repair *)

(** C4 as amended.  The result of [parse_json_object_with_repair] is one
    of: [EmptyOutput] on blank text; the parsed object when the trimmed
    text, or else its first extracted object, parses to an object;
    [ExtractionFailure] when the text does not parse and holds no object;
    [InvalidJSON] when the extracted text does not parse or the parsed
    value is not an object.  This holds whenever [json.loads] returns or
    raises [json.JSONDecodeError]; any other exception of [json.loads], on
    the trimmed text or on the extracted object, is not caught and leaves
    the function. *)
Theorem parse_with_repair_outcomes (loads : string -> loads_outcome) (text : string) :
  let raw := strip text in
  let result := parse_json_object_with_repair_exn loads text in
  (raw = "" /\ result = inl (None, false, "EmptyOutput"))
  \/ (raw <> "" /\ exists d, loads raw = Loaded (PDict d) /\ result = inl (Some d, true, ""))
  \/ (raw <> "" /\ loads raw = DecodeError /\
      exists candidate d,
        extract_first_json_object raw = Some candidate /\
        loads candidate = Loaded (PDict d) /\ result = inl (Some d, true, ""))
  \/ (raw <> "" /\ loads raw = DecodeError /\ extract_first_json_object raw = None /\
      result = inl (None, false, "ExtractionFailure"))
  \/ (raw <> "" /\ loads raw = DecodeError /\
      exists candidate,
        extract_first_json_object raw = Some candidate /\
        loads candidate = DecodeError /\ result = inl (None, false, "InvalidJSON"))
  \/ (raw <> "" /\
      exists value,
        is_dict value = false /\
        (loads raw = Loaded value \/
         (loads raw = DecodeError /\
          exists candidate,
            extract_first_json_object raw = Some candidate /\
            loads candidate = Loaded value)) /\
        result = inl (None, false, "InvalidJSON"))
  \/ (raw <> "" /\
      exists exception,
        (loads raw = Raised exception \/
         (loads raw = DecodeError /\
          exists candidate,
            extract_first_json_object raw = Some candidate /\
            loads candidate = Raised exception)) /\
        result = inr exception).
Proof.
  intros raw result. subst result. unfold parse_json_object_with_repair_exn. fold raw.
  destruct raw as [|c raw'] eqn:Hraw; [left; split; reflexivity|].
  right. cbn [is_empty].
  assert (Hne : String c raw' <> "") by discriminate.
  destruct (loads (String c raw')) as [value| |exception] eqn:Hdirect.
  - destruct value; try (do 4 right; left; split; [exact Hne|];
                         eexists; split; [|split; [left; reflexivity | reflexivity]];
                         reflexivity).
    left. split; [exact Hne|]. eexists. split; reflexivity.
  - right. destruct (extract_first_json_object (String c raw')) as [candidate|] eqn:Hex.
    + destruct (loads candidate) as [value| |exception] eqn:Hcand.
      * destruct value;
          try (do 3 right; left; split; [exact Hne|];
               eexists; split;
               [|split; [right; split; [reflexivity|]; exists candidate;
                         split; [reflexivity | exact Hcand]
                        | reflexivity]];
               reflexivity).
        left. split; [exact Hne|]. split; [reflexivity|].
        exists candidate. eexists. repeat split. exact Hcand.
      * right. right. left. split; [exact Hne|]. split; [reflexivity|].
        exists candidate. repeat split. exact Hcand.
      * do 4 right. split; [exact Hne|]. exists exception. split; [|reflexivity].
        right. split; [reflexivity|]. exists candidate. split; [reflexivity | exact Hcand].
    + right. left. repeat split. exact Hne.
  - do 5 right. split; [exact Hne|]. exists exception. split; [left|]; reflexivity.
Qed.

(** Where the function returns, it returns what the model without
    exceptions gives. *)
Lemma parse_exn_returns (loads : string -> loads_outcome) (text : string)
    (result : option dict * bool * string) :
  (forall s, json_loads rt s = decoded (loads s)) ->
  parse_json_object_with_repair_exn loads text = inl result ->
  parse_json_object_with_repair text = result.
Proof.
  intros Hloads. unfold parse_json_object_with_repair_exn, parse_json_object_with_repair.
  destruct (is_empty (strip text)); [intros H; injection H as <-; reflexivity|].
  rewrite (Hloads (strip text)).
  destruct (loads (strip text)) as [value| |exception]; cbn [decoded].
  - destruct value; intros H; injection H as <-; reflexivity.
  - destruct (extract_first_json_object (strip text)) as [candidate|];
      [|intros H; injection H as <-; reflexivity].
    rewrite (Hloads candidate).
    destruct (loads candidate) as [value| |exception]; cbn [decoded];
      [destruct value| |]; intros H; try discriminate H; injection H as <-; reflexivity.
  - discriminate.
Qed.

Lemma generate_exn_returns (loads : string -> loads_outcome) (item : dict)
    (first retry : call_result) (result : ProviderResult) :
  (forall s, json_loads rt s = decoded (loads s)) ->
  generate_exn loads item first retry = inl result ->
  generate item first retry = inl result.
Proof.
  intros Hloads. unfold generate_exn, generate.
  destruct first as [text0 usage0| |code body|message payload|type_name message];
    try (intros H; exact H).
  destruct (parse_json_object_with_repair_exn loads text0) as [[[actual0 ok0] kind0]|e] eqn:E0;
    [|discriminate].
  rewrite (parse_exn_returns loads text0 _ Hloads E0).
  destruct ok0; cbn [negb]; [intros H; exact H|].
  destruct retry as [text1 usage1| |code body|message payload|type_name message];
    try (intros H; exact H).
  destruct (parse_json_object_with_repair_exn loads text1) as [[[actual1 ok1] kind1]|e] eqn:E1;
    [|discriminate].
  rewrite (parse_exn_returns loads text1 _ Hloads E1). intros H; exact H.
Qed.

(** ** C10: gates on a run without latency samples *)

Lemma float_ltb_leb (x y : float) : PrimFloat.ltb x y = true -> PrimFloat.leb x y = true.
Proof.
  rewrite ltb_spec, leb_spec. unfold SFltb, SFleb.
  destruct (SFcompare (Prim2SF x) (Prim2SF y)) as [[| |]|]; congruence.
Qed.

(** C10.  [_percentile] of the empty list is [0.0] for every percentile.
    So a summary of a run whose events and results hold no numeric latency
    has [p50 = p95 = 0.0], and the [latency_p95_ms] check of
    [evaluate_gates] passes on it whenever the resolved threshold is
    positive. *)
Theorem empty_latency_passes_gate
    (results events : list pyval) (summary : Summary)
    (gates : option (list (string * float))) (percentile : Z) :
  latency_samples results events = Some [] ->
  summarize_results results events = Some summary ->
  PrimFloat.ltb 0 (latency_p95_ms_max (_resolve_gate_limits summary gates)) = true ->
  _percentile [] percentile = Some 0%float /\
  latency_ms_p50 summary = 0%float /\
  latency_ms_p95 summary = 0%float /\
  exists check,
    find_check "latency_p95_ms" (evaluate_gates summary gates) = Some check /\
    check_actual check = 0%float /\
    check_passed check = true.
Proof.
  intros Hlat Hsum Hpos.
  assert (Hp : latency_ms_p50 summary = 0%float /\ latency_ms_p95 summary = 0%float).
  { unfold summarize_results in Hsum. rewrite Hlat in Hsum.
    destruct (_rate results "schema_valid"); [|discriminate].
    destruct (_rate results "category_correct"); [|discriminate].
    destruct (_single_string_value results "provider"); [|discriminate].
    cbn in Hsum. inversion Hsum. subst summary. split; reflexivity. }
  destruct Hp as [Hp50 Hp95].
  split; [reflexivity|]. split; [exact Hp50|]. split; [exact Hp95|].
  unfold find_check, evaluate_gates. cbn.
  eexists. split; [reflexivity|]. cbn. split; [exact Hp95|].
  rewrite Hp95. apply float_ltb_leb. exact Hpos.
Qed.

(** ** C2: scoring *)

Lemma append_if_In (cond : bool) (items l : list string) (x : string) :
  In x (append_if cond items l) -> In x l \/ In x items.
Proof.
  unfold append_if. destruct cond; [|auto]. intros H. apply in_app_or in H. tauto.
Qed.

Lemma hallucination_reasons_known (actual : pyval) (x : string) :
  In x (snd (_hallucination_checks actual)) ->
  x = "missing_fields_without_clarification" \/ x = "clarification_without_missing_fields".
Proof.
  destruct actual as [| | | | | |d]; simpl; try tauto.
  destruct (get d "needs_clarification") as [|[|]| | | | |];
    destruct (get d "missing_fields") as [| | | | |[|? ?]|]; simpl; intuition.
Qed.

Lemma hallucination_flag (actual : pyval) :
  fst (_hallucination_checks actual) = true <->
  exists d, actual = PDict d /\
    ((get d "needs_clarification" = PBool false /\
      exists item items, get d "missing_fields" = PList (item :: items))
     \/ (get d "needs_clarification" = PBool true /\ get d "missing_fields" = PList [])).
Proof.
  split.
  - destruct actual as [| | | | | |d]; simpl; try discriminate.
    intros H. exists d. split; [reflexivity|].
    destruct (get d "needs_clarification") as [|[|]| | | | |];
      destruct (get d "missing_fields") as [| | | | |[|x xs]|]; simpl in H;
      try discriminate.
    + right. auto.
    + left. split; [reflexivity|]. eauto.
  - intros [d [-> [[H1 [item [items H2]]]|[H1 H2]]]]; simpl; rewrite H1, H2; reflexivity.
Qed.

Lemma unknown_fields_nonempty (items : list pyval) (allowed : list string) :
  unknown_fields items allowed <> [] <->
  exists item, In item items /\ forall s, item = PStr s -> mem s allowed = false.
Proof.
  induction items as [|item rest IH]; simpl.
  - split; [congruence | intros [? [[] _]]].
  - split.
    + intros H.
      assert (Hcase : (exists s, item = PStr s /\ mem s allowed = true) \/
                      (forall s, item = PStr s -> mem s allowed = false)).
      { destruct item as [| | | |s| |]; try (right; intros; discriminate).
        destruct (mem s allowed) eqn:E; [left; eauto | right; intros ? [= <-]; exact E]. }
      destruct Hcase as [[s [-> Hs]]|Hcase].
      * rewrite Hs in H. apply IH in H. destruct H as [x [Hx1 Hx2]]. exists x. auto.
      * exists item. auto.
    + intros [x [[<-|Hx] Hx2]].
      * destruct item as [| | | |s| |]; try discriminate.
        rewrite (Hx2 s eq_refl). discriminate.
      * assert (H : unknown_fields rest allowed <> []) by (apply IH; eauto).
        destruct item as [| | | |s| |]; try discriminate.
        destruct (mem s allowed); [exact H | discriminate].
Qed.

(** C2.  [overall_pass] holds exactly when the actual value is an object,
    it has the six required keys with their types, its category, priority,
    device and clarification flag equal the expected ones, and no
    hallucination pattern is present.  A missing-field value outside the
    allowed vocabulary gives the warning [unknown_missing_fields] and
    nothing else: this code is never among the failure reasons, and neither
    the failure reasons nor [overall_pass] depend on the vocabulary. *)
Theorem score_case_overall_pass
    (expected : dict) (actual : pyval) (input_text : string)
    (allowed_missing_fields : option (list string)) :
  let r := score_case expected actual input_text allowed_missing_fields in
  let allowed := match allowed_missing_fields with Some l => l | None => [] end in
  (overall_pass r = true <->
   exists d,
     actual = PDict d /\
     field_errors REQUIRED_OUTPUT_FIELDS d = [] /\
     py_eq (get expected "category") (get d "category") = true /\
     py_eq (get expected "priority") (get d "priority") = true /\
     py_eq (get expected "device") (get d "device") = true /\
     py_eq (get expected "needs_clarification") (get d "needs_clarification") = true /\
     hallucination r = false)
  /\ (hallucination r = true <->
      exists d, actual = PDict d /\
        ((get d "needs_clarification" = PBool false /\
          exists item items, get d "missing_fields" = PList (item :: items))
         \/ (get d "needs_clarification" = PBool true /\ get d "missing_fields" = PList [])))
  /\ (warnings r = ["unknown_missing_fields"] \/ warnings r = [])
  /\ (warnings r = ["unknown_missing_fields"] <->
      exists d items item,
        actual = PDict d /\ get d "missing_fields" = PList items /\
        In item items /\ forall s, item = PStr s -> mem s allowed = false)
  /\ ~ In "unknown_missing_fields" (failure_reasons r)
  /\ (forall other_vocabulary,
        let r' := score_case expected actual input_text other_vocabulary in
        overall_pass r' = overall_pass r /\ failure_reasons r' = failure_reasons r).
Proof.
  intros r allowed. subst r. unfold score_case.
  destruct (_hallucination_checks actual) as [h reasons] eqn:Hh.
  assert (Hflag := hallucination_flag actual). rewrite Hh in Hflag. cbn [fst] in Hflag.
  assert (Hreasons := hallucination_reasons_known actual). rewrite Hh in Hreasons.
  cbn [snd] in Hreasons.
  split; [|split; [|split; [|split; [|split]]]].
  - destruct actual as [| | | | | |d];
      try (cbn; split; [discriminate | intros [d [Hd _]]; discriminate]).
    cbn -[_field_correct REQUIRED_OUTPUT_FIELDS field_errors _dedupe].
    unfold _field_correct.
    destruct (field_errors REQUIRED_OUTPUT_FIELDS d) as [|e es] eqn:Herr;
      cbn -[_dedupe REQUIRED_OUTPUT_FIELDS field_errors].
    + rewrite !andb_true_iff, negb_true_iff. split.
      * intros [[[[H1 H2] H3] H4] H5]. exists d. rewrite Herr. tauto.
      * intros [d' [Hd H]]. inversion Hd. subst d'. tauto.
    + split; [discriminate|]. intros [d' [Hd [H _]]]. inversion Hd. subst d'.
      rewrite Herr in H. discriminate.
  - destruct (is_dict actual); destruct (validate_required_fields actual); exact Hflag.
  - destruct (is_dict actual); destruct (validate_required_fields actual); cbn;
      destruct (_find_unknown_missing_fields actual _); cbn; auto.
  - destruct (is_dict actual) eqn:Hd; destruct (validate_required_fields actual);
      cbn -[_find_unknown_missing_fields];
      (split;
       [ intros H;
         assert (Hne : _find_unknown_missing_fields actual allowed <> [])
           by (fold allowed in H; destruct (_find_unknown_missing_fields actual allowed);
               [discriminate | discriminate]);
         destruct actual as [| | | | | |d]; try (exfalso; apply Hne; reflexivity);
         unfold _find_unknown_missing_fields in Hne;
         destruct (get d "missing_fields") as [| | | | |items|] eqn:Hmf;
         try (exfalso; apply Hne; reflexivity);
         apply unknown_fields_nonempty in Hne; destruct Hne as [item [Hi1 Hi2]];
         exists d, items, item; auto
       | intros [d [items [item [-> [Hmf [Hi1 Hi2]]]]]];
         fold allowed; unfold _find_unknown_missing_fields; rewrite Hmf;
         assert (Hne : unknown_fields items allowed <> [])
           by (apply unknown_fields_nonempty; eauto);
         destruct (unknown_fields items allowed); [congruence | reflexivity] ]).
  - destruct (is_dict actual); destruct (validate_required_fields actual);
      cbn -[_dedupe append_if]; rewrite dedupe_In; intros H;
      repeat (apply append_if_In in H; destruct H as [H|H]);
      simpl in H;
      repeat match goal with
             | H : _ \/ _ |- _ => destruct H as [H|H]
             end;
      try discriminate; try contradiction;
      apply Hreasons in H; destruct H; discriminate.
  - intros other. destruct (is_dict actual); destruct (validate_required_fields actual);
      cbn -[_dedupe append_if]; split; reflexivity.
Qed.

(** ** C8: the lost-phone scenario *)

Lemma lost_phone_category (signals : dict) :
  infer_category signals lost_phone_text = "Security".
Proof. vm_compute. reflexivity. Qed.

Lemma lost_phone_device (hint : string) : infer_device hint lost_phone_text = "Unknown".
Proof. vm_compute. reflexivity. Qed.

Lemma lost_phone_priority (signals : dict) :
  infer_priority signals lost_phone_text = "P1".
Proof.
  unfold infer_priority. rewrite lost_phone_category.
  generalize (_signal_text signals "summary"). intros summary.
  vm_compute. reflexivity.
Qed.

Lemma lost_phone_is_lost_device : _is_lost_device_security (lower lost_phone_text) = true.
Proof. vm_compute. reflexivity. Qed.

Lemma lost_phone_canonical (allowed_missing_fields : option (list string)) (strict : bool) :
  strict = false \/
  Forall (fun field => mem field (_resolve_allowed_missing_fields allowed_missing_fields) = true)
         lost_phone_fields ->
  normalize_missing_fields_to_canonical lost_phone_fields allowed_missing_fields strict
  = lost_phone_fields.
Proof.
  intros H. unfold normalize_missing_fields_to_canonical.
  set (allowed := _resolve_allowed_missing_fields allowed_missing_fields) in *.
  change (_dedupe lost_phone_fields) with lost_phone_fields.
  assert (Hloop : canonical_loop lost_phone_fields allowed strict = lost_phone_fields).
  { unfold lost_phone_fields in *. cbn [canonical_loop]. unfold _map_to_canonical.
    destruct H as [->|H].
    - destruct (mem "device_type" allowed), (mem "phone_number_or_asset_id" allowed),
        (mem "last_known_time" allowed); reflexivity.
    - inversion H as [|? ? H1 H']; subst. inversion H' as [|? ? H2 H'']; subst.
      inversion H'' as [|? ? H3 _]; subst. rewrite H1, H2, H3. reflexivity. }
  rewrite Hloop. reflexivity.
Qed.

Lemma lost_phone_missing_fields (signals : dict)
    (allowed_missing_fields : option (list string)) (strict : bool) :
  infer_missing_fields signals lost_phone_text allowed_missing_fields strict
  = normalize_missing_fields_to_canonical lost_phone_fields allowed_missing_fields strict.
Proof.
  unfold infer_missing_fields.
  rewrite lost_phone_category, lost_phone_is_lost_device. reflexivity.
Qed.

Lemma lost_phone_needs_clarification (signals : dict) :
  infer_needs_clarification signals lost_phone_text (Some lost_phone_fields) (Some "Security")
  = true.
Proof.
  unfold infer_needs_clarification. cbn [is_empty lost_phone_fields].
  rewrite lost_phone_is_lost_device. reflexivity.
Qed.

Lemma lost_phone_output (signals : dict)
    (allowed_missing_fields : option (list string)) (strict : bool) :
  strict = false \/
  Forall (fun field => mem field (_resolve_allowed_missing_fields allowed_missing_fields) = true)
         lost_phone_fields ->
  let out := fst (build_output_from_signals signals lost_phone_text
                    allowed_missing_fields strict) in
  get out "category" = PStr "Security" /\
  get out "priority" = PStr "P1" /\
  get out "device" = PStr "Unknown" /\
  get out "missing_fields" = py_strs lost_phone_fields /\
  get out "needs_clarification" = PBool true.
Proof.
  intros H. unfold build_output_from_signals.
  rewrite lost_phone_category, lost_phone_priority, lost_phone_device,
    lost_phone_missing_fields, (lost_phone_canonical _ _ H), lost_phone_needs_clarification.
  cbn [is_nil lost_phone_fields negb andb].
  destruct (is_empty (strip (_signal_text signals "summary"))); cbn; repeat split.
Qed.

(** C8.  For the ticket "I lost my phone and it has company email on it."
    and the coercion of any payload, the output has category [Security],
    priority [P1], device [Unknown], the three missing fields in order and
    a true clarification flag, provided strict mode is off or the three
    names are in the allowed vocabulary. *)
Theorem lost_phone_scenario (payload : dict)
    (allowed_missing_fields : option (list string)) (strict : bool) :
  strict = false \/
  Forall (fun field => mem field (_resolve_allowed_missing_fields allowed_missing_fields) = true)
         lost_phone_fields ->
  let out := fst (build_output_from_signals (coerce_ticket_signals payload) lost_phone_text
                    allowed_missing_fields strict) in
  get out "category" = PStr "Security" /\
  get out "priority" = PStr "P1" /\
  get out "device" = PStr "Unknown" /\
  get out "missing_fields" =
    py_strs ["device_type"; "phone_number_or_asset_id"; "last_known_time"] /\
  get out "needs_clarification" = PBool true.
Proof.
  intros H. exact (lost_phone_output (coerce_ticket_signals payload) _ _ H).
Qed.

(** ** C5 and C6: output normalization *)

Lemma rstrip_idempotent (s : string) : rstrip (rstrip s) = rstrip s.
Proof.
  induction s as [|c s IH]; simpl; [reflexivity|].
  destruct (is_empty (rstrip s) && is_space c) eqn:E; simpl; [reflexivity|].
  rewrite IH, E. reflexivity.
Qed.

Lemma rstrip_head (c : ascii) (s : string) :
  is_space c = false -> rstrip (String c s) = String c (rstrip s).
Proof. intros H. simpl. rewrite H, andb_false_r. reflexivity. Qed.

Lemma lstrip_head (s : string) :
  lstrip s = "" \/ exists c t, lstrip s = String c t /\ is_space c = false.
Proof.
  induction s as [|c s IH]; simpl; [auto|].
  destruct (is_space c) eqn:E; [exact IH|]. right. eauto.
Qed.

Lemma strip_idempotent (s : string) : strip (strip s) = strip s.
Proof.
  unfold strip. destruct (lstrip_head s) as [H|[c [t [H Hc]]]]; rewrite H.
  - reflexivity.
  - rewrite (rstrip_head c t Hc). simpl lstrip. rewrite Hc.
    rewrite <- (rstrip_head c t Hc). apply rstrip_idempotent.
Qed.

Lemma ensure_text_key_eq (d : dict) (key default : string) (w : list string) :
  exists t w',
    _ensure_text_key d key default w = (t, dset d key (PStr t), w') /\
    (w' = w \/ w' = (w ++ [("defaulted_" ++ key)%string])%list) /\
    (t = default \/ (t = strip (py_str (get d key)) /\ t <> "")).
Proof.
  unfold _ensure_text_key.
  destruct (get d key) eqn:E;
    try (destruct (is_empty (strip (py_str _))) eqn:Ee;
         [ eexists; eexists; split; [reflexivity | split; [right; reflexivity | left; reflexivity]]
         | eexists; eexists; split; [reflexivity | split; [left; reflexivity | right; split; [reflexivity|]]];
           intros Hs; rewrite Hs in Ee; discriminate ]).
  eexists; eexists; split; [reflexivity | split; [right; reflexivity | left; reflexivity]].
Qed.

Lemma incl_snoc (w : list string) (x : string) (l : list string) :
  incl w l -> In x l -> incl (w ++ [x])%list l.
Proof.
  intros Hw Hx. apply incl_app; [exact Hw|]. intros y [<-|[]]. exact Hx.
Qed.

Ltac early := simpl; tauto.

Lemma normalize_category_warnings (category text : string) (w : list string) :
  incl w early_warnings -> incl (snd (_normalize_category category text w)) early_warnings.
Proof.
  intros Hw. unfold _normalize_category.
  destruct (mem (strip category) ALLOWED_CATEGORIES); [exact Hw|].
  destruct (first_synonym _ _); [apply incl_snoc; [exact Hw | early]|].
  destruct (contains "vpn" _); apply incl_snoc; solve [exact Hw | early].
Qed.

Lemma normalize_priority_warnings (priority : string) (w : list string) :
  incl w early_warnings -> incl (snd (_normalize_priority priority w)) early_warnings.
Proof.
  intros Hw. unfold _normalize_priority.
  repeat match goal with
         | |- context [if ?c then _ else _] => destruct c
         | |- context [match last_char ?s with _ => _ end] => destruct (last_char s)
         end; simpl snd; solve [exact Hw | apply incl_snoc; [exact Hw | early]].
Qed.

Lemma normalize_device_warnings (value : pyval) (text : string) (w : list string) :
  incl w early_warnings -> incl (snd (_normalize_device value text w)) early_warnings.
Proof.
  intros Hw. unfold _normalize_device.
  repeat match goal with
         | |- context [if ?c then _ else _] => destruct c
         | |- context [match _infer_device ?s with _ => _ end] => destruct (_infer_device s)
         end; simpl snd; solve [exact Hw | apply incl_snoc; [exact Hw | early]].
Qed.

Lemma normalize_missing_fields_warnings (value : pyval) (w : list string) :
  incl w early_warnings -> incl (snd (_normalize_missing_fields value w)) early_warnings.
Proof.
  intros Hw. destruct value; simpl; solve [exact Hw | apply incl_snoc; [exact Hw | early]].
Qed.

Lemma normalize_missing_fields_fst (value : pyval) (w : list string) :
  fst (_normalize_missing_fields value w) = fst (_normalize_missing_fields value []).
Proof. destruct value; reflexivity. Qed.

Ltac dsimp := repeat first [rewrite dget_dset_eq | rewrite dget_dset_neq by reflexivity].

(** C5.  [normalize_output] enforces the consistency law in one direction
    only.  When the normalized missing fields are not empty and the coerced
    flag is false, the flag is forced to true with the warning
    [coerced_needs_clarification_true].  When the coerced flag is true and
    the normalized missing fields are empty, the flag stays true, the
    warning [needs_clarification_without_missing_fields] is emitted and
    nothing is coerced; a true flag is never turned into false. *)
Theorem normalize_consistency_asymmetry (candidate : dict) (input_text : string) :
  let out := fst (normalize_output candidate input_text) in
  let w := snd (normalize_output candidate input_text) in
  let missing_fields := candidate_missing_fields candidate in
  let needs_clarification := candidate_needs_clarification candidate in
  get out "missing_fields" = py_strs missing_fields /\
  (missing_fields <> [] -> needs_clarification = false ->
   get out "needs_clarification" = PBool true /\
   In "coerced_needs_clarification_true" w) /\
  (needs_clarification = true -> missing_fields = [] ->
   get out "needs_clarification" = PBool true /\
   In "needs_clarification_without_missing_fields" w /\
   ~ In "coerced_needs_clarification_true" w) /\
  (needs_clarification = true -> get out "needs_clarification" = PBool true).
Proof.
  intros out w mf nc. subst out w. unfold normalize_output.
  destruct (ensure_text_key_eq candidate "category" "Software" []) as (c0 & w1 & E1 & Hw1 & _).
  rewrite E1.
  destruct (ensure_text_key_eq (dset candidate "category" (PStr c0)) "priority" "P3" w1)
    as (p0 & w2 & E2 & Hw2 & _).
  rewrite E2.
  destruct (ensure_text_key_eq (dset (dset candidate "category" (PStr c0)) "priority" (PStr p0))
              "summary" "" w2) as (s0 & w3 & E3 & Hw3 & _).
  rewrite E3.
  destruct (has_key _ "needs_clarification") eqn:K1; cbn [negb]; cbv beta iota;
    destruct (has_key _ "missing_fields") eqn:K2; cbn [negb]; cbv beta iota;
    (destruct (_normalize_category c0 (lower input_text) _) as [c w6] eqn:E6);
    (destruct (_normalize_priority p0 w6) as [p w7] eqn:E7);
    (destruct (_normalize_device _ (lower input_text) w7) as [dv w8] eqn:E8);
    (destruct (_normalize_missing_fields _ w8) as [mf' w9] eqn:E9).
  all: assert (H1 : incl w1 early_warnings)
    by (destruct Hw1 as [->| ->]; [apply incl_nil_l | apply incl_snoc; [apply incl_nil_l | early]]).
  all: assert (H2 : incl w2 early_warnings)
    by (destruct Hw2 as [->| ->]; [assumption | apply incl_snoc; [assumption | early]]).
  all: assert (H3 : incl w3 early_warnings)
    by (destruct Hw3 as [->| ->]; [assumption | apply incl_snoc; [assumption | early]]).
  all: match type of E6 with
       | _normalize_category ?a ?b ?w = _ =>
           assert (H6 : incl w6 early_warnings)
             by (pose proof (normalize_category_warnings a b w) as X; rewrite E6 in X;
                 apply X; repeat (apply incl_snoc; [|early]); assumption)
       end.
  all: assert (H7 : incl w7 early_warnings)
    by (pose proof (normalize_priority_warnings p0 w6 H6) as X; rewrite E7 in X; exact X).
  all: match type of E8 with
       | _normalize_device ?a ?b ?w = _ =>
           assert (H8 : incl w8 early_warnings)
             by (pose proof (normalize_device_warnings a b w H7) as X; rewrite E8 in X; exact X)
       end.
  all: match type of E9 with
       | _normalize_missing_fields ?a ?w = _ =>
           assert (H9 : incl w9 early_warnings)
             by (pose proof (normalize_missing_fields_warnings a w H8) as X; rewrite E9 in X;
                 exact X);
           assert (Hmf : mf' = fst (_normalize_missing_fields a []))
             by (rewrite <- (normalize_missing_fields_fst a w), E9; reflexivity)
       end.
  all: clear E1 E2 E3 E6 E7 E8 E9 Hw1 Hw2 Hw3 H1 H2 H3 H6 H7 H8.
  all: unfold get, get_default, has_key in *.
  all: repeat first [ rewrite dget_dset_eq in K1 | rewrite dget_dset_neq in K1 by reflexivity ].
  all: repeat first [ rewrite dget_dset_eq in K2 | rewrite dget_dset_neq in K2 by reflexivity ].
  all: repeat first [ rewrite dget_dset_eq in Hmf | rewrite dget_dset_neq in Hmf by reflexivity ].
  all: dsimp.
  all: subst mf nc; unfold candidate_missing_fields, candidate_needs_clarification, get_default.
  all: destruct (dget candidate "needs_clarification") as [vnc|]; try discriminate K1.
  all: destruct (dget candidate "missing_fields") as [vmf|]; try discriminate K2.
  all: rewrite <- Hmf; clear Hmf K1 K2.
  all: try (destruct (_normalize_bool vnc) eqn:Enc).
  all: destruct mf' as [|x xs].
  all: cbn [_normalize_bool negb is_nil andb fst snd]; cbv beta iota; cbn [fst snd]; dsimp.
  all: repeat split; try reflexivity; try congruence; intros.
  all: try congruence.
  all: try (apply dedupe_In; apply in_or_app; right; left; reflexivity).
  all: try (intros Hin; apply (proj1 (dedupe_In _ _)) in Hin; apply in_app_or in Hin;
            destruct Hin as [Hin|[Hin|[]]]; [apply H9 in Hin; simpl in Hin; intuition discriminate
                                            | discriminate]).
Qed.

Lemma is_empty_false (s : string) : is_empty s = false <-> s <> "".
Proof. destruct s; simpl; split; congruence. Qed.

Lemma ensure_text_key_clean (d : dict) (key default t : string) (w : list string) :
  dget d key = Some (PStr t) -> strip t = t -> t <> "" ->
  _ensure_text_key d key default w = (t, d, w).
Proof.
  intros Hget Hstrip Hne. unfold _ensure_text_key, get. rewrite Hget. cbn [py_str].
  rewrite Hstrip. apply is_empty_false in Hne. rewrite Hne.
  rewrite (dset_same _ _ _ Hget). reflexivity.
Qed.

Lemma ensure_summary_clean (d : dict) (s : string) (w : list string) :
  dget d "summary" = Some (PStr s) -> strip s = s ->
  _ensure_text_key d "summary" "" w
  = (s, d, if is_empty s then (w ++ ["defaulted_summary"])%list else w).
Proof.
  intros Hget Hstrip. unfold _ensure_text_key, get. rewrite Hget. cbn [py_str].
  rewrite Hstrip. destruct s as [|ch s']; cbn [is_empty];
    rewrite (dset_same _ _ _ Hget); reflexivity.
Qed.

Lemma allowed_category_clean (c : string) :
  mem c ALLOWED_CATEGORIES = true -> strip c = c /\ c <> "".
Proof.
  intros H. apply mem_In in H. simpl in H.
  repeat (destruct H as [<-|H]; [split; [reflexivity | discriminate]|]). contradiction.
Qed.

Lemma allowed_priority_clean (p : string) :
  mem p ALLOWED_PRIORITIES = true -> strip p = p /\ p <> "" /\ upper p = p.
Proof.
  intros H. apply mem_In in H. simpl in H.
  repeat (destruct H as [<-|H]; [repeat split; discriminate|]). contradiction.
Qed.

Lemma first_synonym_allowed (lowered mapped : string) :
  first_synonym _CATEGORY_SYNONYMS lowered = Some mapped ->
  mem mapped ALLOWED_CATEGORIES = true.
Proof.
  unfold _CATEGORY_SYNONYMS. cbn [first_synonym].
  repeat match goal with
         | |- context [if contains ?k lowered then _ else _] =>
             destruct (contains k lowered); [intros [= <-]; reflexivity|]
         end.
  discriminate.
Qed.

Lemma normalize_category_allowed (category text : string) (w : list string) :
  mem (fst (_normalize_category category text w)) ALLOWED_CATEGORIES = true.
Proof.
  unfold _normalize_category.
  destruct (mem (strip category) ALLOWED_CATEGORIES) eqn:E; [exact E|].
  destruct (first_synonym _ _) eqn:Es; [exact (first_synonym_allowed _ _ Es)|].
  destruct (contains "vpn" _); reflexivity.
Qed.

Lemma normalize_priority_allowed (priority : string) (w : list string) :
  mem (fst (_normalize_priority priority w)) ALLOWED_PRIORITIES = true.
Proof.
  unfold _normalize_priority.
  destruct (mem (upper (strip priority)) ALLOWED_PRIORITIES) eqn:E; [exact E|].
  destruct (mem _ ["HIGH"; "URGENT"]); [reflexivity|].
  destruct (mem _ ["MEDIUM"; "NORMAL"]); [reflexivity|].
  destruct (mem _ ["LOW"]); [reflexivity|].
  destruct (last_char _) as [c|]; [|reflexivity].
  destruct (mem (String c "") ["1"; "2"; "3"; "4"] && _) eqn:Em; [|reflexivity].
  apply andb_true_iff in Em. exact (proj2 Em).
Qed.

Lemma infer_device_allowed (text device : string) :
  _infer_device text = Some device -> mem device ALLOWED_DEVICES = true.
Proof.
  unfold _infer_device.
  repeat match goal with
         | |- context [if ?c then _ else _] => destruct c; [intros [= <-]; reflexivity|]
         end.
  discriminate.
Qed.

Lemma normalize_device_allowed (value : pyval) (text : string) (w : list string) :
  mem (fst (_normalize_device value text w)) ALLOWED_DEVICES = true.
Proof.
  unfold _normalize_device.
  destruct (_infer_device text) as [device|] eqn:Ei.
  - apply infer_device_allowed in Ei.
    repeat match goal with
           | |- context [if mem ?x ALLOWED_DEVICES then _ else _] =>
               let E := fresh "E" in destruct (mem x ALLOWED_DEVICES) eqn:E
           | |- context [if ?c then _ else _] => destruct c
           end; cbn [fst]; solve [reflexivity | assumption].
  - repeat match goal with
           | |- context [if mem ?x ALLOWED_DEVICES then _ else _] =>
               let E := fresh "E" in destruct (mem x ALLOWED_DEVICES) eqn:E
           | |- context [if ?c then _ else _] => destruct c
           end; cbn [fst]; solve [reflexivity | assumption].
Qed.

Lemma kept_items_clean (items : list pyval) :
  Forall (fun x => strip x = x /\ x <> "") (kept_items items).
Proof.
  induction items as [|item rest IH]; simpl; [constructor|].
  destruct (is_empty (strip (py_str item))) eqn:E; [exact IH|].
  constructor; [|exact IH]. split; [apply strip_idempotent | apply is_empty_false; exact E].
Qed.

Lemma kept_items_fixed (fields : list string) :
  Forall (fun x => strip x = x /\ x <> "") fields ->
  kept_items (List.map PStr fields) = fields.
Proof.
  induction 1 as [|x rest [Hs Hne] _ IH]; simpl; [reflexivity|].
  rewrite Hs. apply is_empty_false in Hne. rewrite Hne, IH. reflexivity.
Qed.

Lemma normalize_missing_fields_clean (value : pyval) (w : list string) :
  let fields := fst (_normalize_missing_fields value w) in
  Forall (fun x => strip x = x /\ x <> "") fields /\ NoDup fields.
Proof.
  destruct value; simpl; try (split; constructor).
  split; [|apply dedupe_from_NoDup].
  apply Forall_forall. intros x Hx. apply (proj1 (dedupe_In _ _)) in Hx.
  exact (proj1 (Forall_forall _ _) (kept_items_clean _) x Hx).
Qed.

Lemma normalize_device_fixed (device text : string) (w : list string) :
  mem device ALLOWED_DEVICES = true ->
  _normalize_device (PStr device) text w = (device, w).
Proof.
  intros H. apply mem_In in H. simpl in H. unfold _normalize_device.
  repeat (destruct H as [<-|H]; [try reflexivity|]); [|contradiction].
  destruct (_infer_device text); reflexivity.
Qed.

Lemma normalize_missing_fields_fixed (fields w : list string) :
  Forall (fun x => strip x = x /\ x <> "") fields -> NoDup fields ->
  _normalize_missing_fields (py_strs fields) w = (fields, w).
Proof.
  intros Hc Hn. unfold _normalize_missing_fields, py_strs.
  rewrite (kept_items_fixed fields Hc).
  unfold _dedupe. rewrite (dedupe_from_fixed fields [] Hn (fun _ _ => eq_refl)). reflexivity.
Qed.

(** An output of the normalized shape is a fixed point of
    [normalize_output]; only the two flagged conditions are reported
    again. *)
Lemma renormalize_fixed (out : dict) (text c p dv s : string) (nc : bool) (mf : list string) :
  dget out "category" = Some (PStr c) -> mem c ALLOWED_CATEGORIES = true ->
  dget out "priority" = Some (PStr p) -> mem p ALLOWED_PRIORITIES = true ->
  dget out "device" = Some (PStr dv) -> mem dv ALLOWED_DEVICES = true ->
  dget out "summary" = Some (PStr s) -> strip s = s ->
  dget out "needs_clarification" = Some (PBool nc) ->
  dget out "missing_fields" = Some (py_strs mf) ->
  Forall (fun x => strip x = x /\ x <> "") mf -> NoDup mf ->
  (mf <> [] -> nc = true) ->
  normalize_output out text = (out, renormalization_warnings out).
Proof.
  intros Hc Hca Hp Hpa Hd Hda Hs Hss Hn Hm Hmc Hmn Hlaw.
  destruct (allowed_category_clean c Hca) as [Hcs Hcne].
  destruct (allowed_priority_clean p Hpa) as [Hps [Hpne Hpu]].
  unfold normalize_output, renormalization_warnings.
  rewrite (ensure_text_key_clean out "category" "Software" c [] Hc Hcs Hcne).
  cbv beta iota.
  rewrite (ensure_text_key_clean out "priority" "P3" p [] Hp Hps Hpne).
  cbv beta iota.
  rewrite (ensure_summary_clean out s [] Hs Hss).
  cbv beta iota.
  unfold has_key. rewrite Hn. cbn [negb]. cbv beta iota.
  rewrite Hm. cbn [negb]. cbv beta iota.
  unfold _normalize_category. rewrite Hcs, Hca. cbv beta iota.
  unfold _normalize_priority. rewrite Hps, Hpu, Hpa. cbv beta iota.
  rewrite (dset_same _ _ _ Hc), (dset_same _ _ _ Hp).
  unfold get at 1. rewrite Hd. rewrite (normalize_device_fixed dv _ _ Hda). cbv beta iota.
  rewrite (dset_same _ _ _ Hd).
  unfold get_default. rewrite Hs. cbn [py_str]. rewrite Hss, (dset_same _ _ _ Hs).
  unfold get at 1. rewrite Hm. rewrite (normalize_missing_fields_fixed mf _ Hmc Hmn).
  cbv beta iota. rewrite (dset_same _ _ _ Hm).
  unfold get. rewrite Hn, Hs, Hm. cbn [_normalize_bool py_str]. rewrite (dset_same _ _ _ Hn).
  destruct mf as [|x xs].
  - destruct nc, s; reflexivity.
  - rewrite (Hlaw ltac:(discriminate)). destruct s; reflexivity.
Qed.

(** C6 as amended.  Normalizing the output of [normalize_output] again,
    for the same ticket, returns the same object.  The second pass is
    silent except for two conditions that it reports each time it sees
    them: an empty summary ([defaulted_summary]) and a true clarification
    flag with no missing fields
    ([needs_clarification_without_missing_fields]). *)
Theorem normalize_output_renormalized (candidate : dict) (input_text : string) :
  let out := fst (normalize_output candidate input_text) in
  normalize_output out input_text = (out, renormalization_warnings out).
Proof.
  intros out.
  assert (Hshape : exists c p dv s nc mf,
             dget out "category" = Some (PStr c) /\ mem c ALLOWED_CATEGORIES = true /\
             dget out "priority" = Some (PStr p) /\ mem p ALLOWED_PRIORITIES = true /\
             dget out "device" = Some (PStr dv) /\ mem dv ALLOWED_DEVICES = true /\
             dget out "summary" = Some (PStr s) /\ strip s = s /\
             dget out "needs_clarification" = Some (PBool nc) /\
             dget out "missing_fields" = Some (py_strs mf) /\
             Forall (fun x => strip x = x /\ x <> "") mf /\ NoDup mf /\
             (mf <> [] -> nc = true)).
  { subst out. unfold normalize_output.
    destruct (ensure_text_key_eq candidate "category" "Software" []) as (c0 & w1 & E1 & _).
    rewrite E1.
    destruct (ensure_text_key_eq (dset candidate "category" (PStr c0)) "priority" "P3" w1)
      as (p0 & w2 & E2 & _).
    rewrite E2.
    destruct (ensure_text_key_eq (dset (dset candidate "category" (PStr c0)) "priority" (PStr p0))
                "summary" "" w2) as (s0 & w3 & E3 & _).
    rewrite E3.
    destruct (has_key _ "needs_clarification"); cbn [negb]; cbv beta iota;
      destruct (has_key _ "missing_fields"); cbn [negb]; cbv beta iota;
      (destruct (_normalize_category c0 (lower input_text) _) as [c w6] eqn:E6);
      (destruct (_normalize_priority p0 w6) as [p w7] eqn:E7);
      (destruct (_normalize_device _ (lower input_text) w7) as [dv w8] eqn:E8);
      (destruct (_normalize_missing_fields _ w8) as [mf w9] eqn:E9).
    all: match type of E6 with
         | _normalize_category ?a ?b ?w = _ =>
             pose proof (normalize_category_allowed a b w) as Hca; rewrite E6 in Hca
         end.
    all: pose proof (normalize_priority_allowed p0 w6) as Hpa; rewrite E7 in Hpa.
    all: match type of E8 with
         | _normalize_device ?a ?b ?w = _ =>
             pose proof (normalize_device_allowed a b w) as Hda; rewrite E8 in Hda
         end.
    all: match type of E9 with
         | _normalize_missing_fields ?a ?w = _ =>
             pose proof (normalize_missing_fields_clean a w) as Hmf; rewrite E9 in Hmf
         end.
    all: cbn [fst] in Hca, Hpa, Hda, Hmf; destruct Hmf as [Hmc Hmn].
    all: clear E1 E2 E3 E6 E7 E8 E9.
    all: match goal with
         | |- context [strip ?x] => set (s := strip x)
         end.
    all: match goal with
         | |- context [_normalize_bool ?x] => set (nc := _normalize_bool x)
         end.
    all: destruct mf as [|x xs]; destruct nc; cbn [negb is_nil andb fst]; cbv beta iota;
      cbn [fst].
    all: exists c, p, dv, s; eexists; eexists.
    all: unfold get; dsimp.
    all: repeat split; try reflexivity; try assumption; try (subst s; apply strip_idempotent).
    all: intros Hne; exfalso; apply Hne; reflexivity. }
  destruct Hshape as (c & p & dv & s & nc & mf & Hc & Hca & Hp & Hpa & Hd & Hda & Hs & Hss
                      & Hn & Hm & Hmc & Hmn & Hlaw).
  exact (renormalize_fixed out input_text c p dv s nc mf
           Hc Hca Hp Hpa Hd Hda Hs Hss Hn Hm Hmc Hmn Hlaw).
Qed.

(** ** C3: extraction of the first JSON object *)

Lemma append_assoc (a b c : string) : (a ++ b) ++ c = a ++ b ++ c.
Proof. induction a as [|ch a IH]; simpl; [reflexivity | now rewrite IH]. Qed.

Lemma append_length (a b : string) : String.length (a ++ b) = String.length a + String.length b.
Proof. induction a as [|ch a IH]; simpl; [reflexivity | now rewrite IH]. Qed.

Lemma drop_append (a b : string) : drop (String.length a) (a ++ b) = b.
Proof. induction a as [|ch a IH]; simpl; [destruct b; reflexivity | exact IH]. Qed.

Lemma take_append (a b : string) : take (String.length a) (a ++ b) = a.
Proof. induction a as [|ch a IH]; simpl; [destruct b; reflexivity | now rewrite IH]. Qed.

Lemma slice_middle (pre mid post : string) :
  slice (pre ++ mid ++ post) (String.length pre) (String.length pre + String.length mid) = mid.
Proof.
  unfold slice. rewrite drop_append.
  replace (String.length pre + String.length mid - String.length pre)
    with (String.length mid) by lia.
  apply take_append.
Qed.

Lemma extract_loop_in_object (rest pre part : string) (depth : Z) (in_string escaped : bool) :
  (0 < depth)%Z ->
  extract_loop (pre ++ part ++ rest) rest (String.length pre + String.length part) depth
               (Z.of_nat (String.length pre)) in_string escaped
  = option_map (fun t => part ++ t) (object_tail depth (in_string, escaped) rest).
Proof.
  revert part depth in_string escaped.
  induction rest as [|ch rest IH]; intros part depth in_string escaped Hd; [reflexivity|].
  assert (Hnext : forall depth' in_string' escaped',
             (0 < depth')%Z ->
             extract_loop (pre ++ part ++ String ch rest) rest
                          (S (String.length pre + String.length part)) depth'
                          (Z.of_nat (String.length pre)) in_string' escaped'
             = option_map (fun t => part ++ t)
                          (option_map (String ch)
                                      (object_tail depth' (in_string', escaped') rest))).
  { intros depth' in_string' escaped' Hd'.
    replace (pre ++ part ++ String ch rest) with (pre ++ (part ++ String ch "") ++ rest)
      by (rewrite append_assoc; reflexivity).
    replace (S (String.length pre + String.length part))
      with (String.length pre + String.length (part ++ String ch ""))
      by (rewrite append_length; simpl; lia).
    rewrite (IH (part ++ String ch "") depth' in_string' escaped' Hd').
    destruct (object_tail depth' (in_string', escaped') rest); simpl;
      [rewrite append_assoc; reflexivity | reflexivity]. }
  cbn [extract_loop object_tail]. unfold brace_delta, lex_step. cbn [fst].
  destruct in_string.
  - replace (depth + 0 =? 0)%Z with false by (symmetry; apply Z.eqb_neq; lia).
    replace (depth + 0)%Z with depth by lia.
    destruct escaped; [apply Hnext; exact Hd|].
    destruct (Ascii.eqb ch backslash); [apply Hnext; exact Hd|].
    destruct (Ascii.eqb ch dquote); apply Hnext; exact Hd.
  - destruct (Ascii.eqb ch dquote) eqn:Eq.
    + apply Ascii.eqb_eq in Eq. subst ch. cbn [Ascii.eqb]. cbn.
      replace (depth + 0 =? 0)%Z with false by (symmetry; apply Z.eqb_neq; lia).
      replace (depth + 0)%Z with depth by lia.
      apply Hnext. exact Hd.
    + destruct (Ascii.eqb ch open_brace) eqn:Eo.
      * replace (depth =? 0)%Z with false by (symmetry; apply Z.eqb_neq; lia).
        replace (depth + 1 =? 0)%Z with false by (symmetry; apply Z.eqb_neq; lia).
        apply Hnext. lia.
      * destruct (Ascii.eqb ch close_brace) eqn:Ec; cbn [andb].
        -- replace (0 <? depth)%Z with true by (symmetry; apply Z.ltb_lt; lia).
           replace (depth + -1)%Z with (depth - 1)%Z by lia.
           destruct (depth - 1 =? 0)%Z eqn:Ez; cbn [andb].
           ++ replace (0 <=? Z.of_nat (String.length pre))%Z with true
                by (symmetry; apply Z.leb_le; lia).
              rewrite Nat2Z.id. cbn [option_map]. f_equal.
              replace (String.length pre + String.length part + 1)
                with (String.length pre + String.length (part ++ String ch ""))
                by (rewrite append_length; simpl; lia).
              replace (pre ++ part ++ String ch rest) with (pre ++ (part ++ String ch "") ++ rest)
                by (rewrite append_assoc; reflexivity).
              apply slice_middle.
           ++ apply Hnext. apply Z.eqb_neq in Ez. lia.
        -- replace (depth + 0 =? 0)%Z with false by (symmetry; apply Z.eqb_neq; lia).
           replace (depth + 0)%Z with depth by lia.
           apply Hnext. exact Hd.
Qed.
Lemma extract_loop_before (rest done : string) (start : Z) (in_string escaped : bool) :
  extract_loop (done ++ rest) rest (String.length done) 0 start in_string escaped
  = first_tail (in_string, escaped) rest.
Proof.
  revert done start in_string escaped.
  induction rest as [|ch rest IH]; intros done start in_string escaped; [reflexivity|].
  assert (Hnext : forall start' in_string' escaped',
             extract_loop (done ++ String ch rest) rest (S (String.length done)) 0 start'
                          in_string' escaped'
             = first_tail (in_string', escaped') rest).
  { intros start' in_string' escaped'.
    replace (done ++ String ch rest) with ((done ++ String ch "") ++ rest)
      by (rewrite append_assoc; reflexivity).
    replace (S (String.length done)) with (String.length (done ++ String ch ""))
      by (rewrite append_length; simpl; lia).
    apply IH. }
  cbn [extract_loop first_tail]. unfold lex_step. cbn [fst negb andb].
  destruct in_string; cbn [negb andb].
  - destruct escaped; [apply Hnext|].
    destruct (Ascii.eqb ch backslash); [apply Hnext|].
    destruct (Ascii.eqb ch dquote); apply Hnext.
  - destruct (Ascii.eqb ch dquote) eqn:Eq.
    + apply Ascii.eqb_eq in Eq. subst ch. cbn. apply Hnext.
    + destruct (Ascii.eqb ch open_brace) eqn:Eo.
      * cbn [Z.eqb Z.add].
        pose proof (extract_loop_in_object rest done (String ch "") 1 false escaped) as H.
        replace (String.length done + String.length (String ch "")) with (S (String.length done))
          in H by (simpl; lia).
        change (done ++ String ch "" ++ rest) with (done ++ String ch rest) in H.
        rewrite H by lia.
        destruct (object_tail 1 (false, escaped) rest); reflexivity.
      * cbn [Z.ltb Z.compare andb]. rewrite andb_false_r. apply Hnext.
Qed.

Lemma extract_first_tail (text : string) :
  extract_first_json_object text = first_tail (false, false) text.
Proof. exact (extract_loop_before text "" (-1)%Z false false). Qed.
Lemma brace_delta_range (st : bool * bool) (ch : ascii) :
  (-1 <= brace_delta st ch <= 1)%Z.
Proof.
  unfold brace_delta. destruct (fst st); [lia|].
  destruct (Ascii.eqb ch open_brace); [lia|]. destruct (Ascii.eqb ch close_brace); lia.
Qed.

Lemma append_nil_inv (a b : string) : a ++ b = "" -> a = "" /\ b = "".
Proof. destruct a; simpl; [auto | discriminate]. Qed.

Lemma object_tail_spec (s : string) (depth : Z) (st : bool * bool) (t : string) :
  (0 < depth)%Z ->
  object_tail depth st s = Some t <->
  exists post,
    s = t ++ post /\
    (depth + brace_depth st t = 0)%Z /\
    forall a b, t = a ++ b -> b <> "" -> (0 < depth + brace_depth st a)%Z.
Proof.
  revert depth st t. induction s as [|ch s IH]; intros depth st t Hd.
  - split; [discriminate|]. intros [post [Hs [Hz _]]].
    symmetry in Hs. apply append_nil_inv in Hs. destruct Hs as [-> _]. simpl in Hz. lia.
  - cbn [object_tail]. pose proof (brace_delta_range st ch) as Hr.
    destruct (depth + brace_delta st ch =? 0)%Z eqn:Ez.
    + apply Z.eqb_eq in Ez. split.
      * intros [= <-]. exists s. split; [reflexivity|]. split; [simpl; lia|].
        intros a b Hab Hb. destruct a as [|c a]; [simpl; lia|].
        simpl in Hab. injection Hab as Hc Hrest. symmetry in Hrest.
        apply append_nil_inv in Hrest. destruct Hrest as [_ ->]. contradiction.
      * intros [post [Hs [Hz Hpre]]].
        destruct t as [|c t]; [simpl in Hz; lia|].
        simpl in Hs. injection Hs as Hc Hrest. subst c.
        destruct t as [|c' t']; [reflexivity|].
        specialize (Hpre (String ch "") (String c' t') eq_refl ltac:(discriminate)).
        simpl in Hpre. lia.
    + apply Z.eqb_neq in Ez.
      assert (Hd' : (0 < depth + brace_delta st ch)%Z) by lia.
      split.
      * intros H.
        destruct (object_tail (depth + brace_delta st ch) (lex_step st ch) s) as [t'|] eqn:Et;
          [|discriminate].
        simpl in H. inversion H as [Ht]. clear H.
        apply (IH _ _ _ Hd') in Et. destruct Et as [post [Hs [Hz Hpre]]].
        exists post. split; [simpl; now rewrite Hs|]. split; [simpl; lia|].
        intros a b Hab Hb. destruct a as [|c a]; [simpl; lia|].
        simpl in Hab. injection Hab as Hc Hrest. subst c.
        specialize (Hpre a b Hrest Hb). simpl. lia.
      * intros [post [Hs [Hz Hpre]]].
        destruct t as [|c t]; [simpl in Hz; lia|].
        simpl in Hs. injection Hs as Hc Hrest. subst c.
        simpl in Hz.
        assert (Ht : object_tail (depth + brace_delta st ch) (lex_step st ch) s = Some t).
        { apply (IH _ _ _ Hd'). exists post. split; [exact Hrest|]. split; [lia|].
          intros a b Hab Hb.
          specialize (Hpre (String ch a) b ltac:(simpl; now rewrite Hab) Hb).
          simpl in Hpre. lia. }
        rewrite Ht. reflexivity.
Qed.

Lemma first_tail_spec (s : string) (st : bool * bool) (sub : string) :
  first_tail st s = Some sub <->
  exists pre post,
    s = pre ++ sub ++ post /\
    has_open_brace st pre = false /\
    fst (lex_run st pre) = false /\
    starts_with "{" sub = true /\
    brace_depth (lex_run st pre) sub = 0%Z /\
    forall a b, sub = a ++ b -> a <> "" -> b <> "" -> (0 < brace_depth (lex_run st pre) a)%Z.
Proof.
  revert st sub. induction s as [|ch s IH]; intros st sub.
  - split; [discriminate|]. intros [pre [post [Hs [_ [_ [Hstart _]]]]]].
    symmetry in Hs. apply append_nil_inv in Hs. destruct Hs as [_ Hs].
    apply append_nil_inv in Hs. destruct Hs as [-> _]. discriminate.
  - cbn [first_tail].
    destruct (negb (fst st) && Ascii.eqb ch open_brace) eqn:Eopen.
    + apply andb_true_iff in Eopen. destruct Eopen as [Hout Hch].
      apply negb_true_iff in Hout. apply Ascii.eqb_eq in Hch. subst ch.
      assert (Hdelta : brace_delta st open_brace = 1%Z)
        by (unfold brace_delta; rewrite Hout; reflexivity).
      split.
      * intros H.
        destruct (object_tail 1 (lex_step st open_brace) s) as [t|] eqn:Et; [|discriminate].
        simpl in H. inversion H as [Ht]. clear H.
        apply object_tail_spec in Et; [|lia]. destruct Et as [post [Hs [Hz Hpre]]].
        exists "", post. cbn [lex_run has_open_brace append].
        split; [now rewrite Hs|]. split; [reflexivity|]. split; [exact Hout|].
        split; [reflexivity|]. split; [cbn [brace_depth]; lia|].
        intros a b Hab Ha Hb. destruct a as [|c a]; [contradiction|].
        simpl in Hab. injection Hab as Hc Hrest. subst c.
        specialize (Hpre a b Hrest Hb). cbn [brace_depth]. lia.
      * intros [pre [post [Hs [Hno [Hlex [Hstart [Hz Hpre]]]]]]].
        destruct pre as [|c pre].
        -- cbn [append lex_run] in *.
           destruct sub as [|c sub]; [discriminate|].
           simpl in Hs. injection Hs as Hc Hrest. subst c.
           cbn [brace_depth] in Hz.
           assert (Ht : object_tail 1 (lex_step st open_brace) s = Some sub).
           { apply object_tail_spec; [lia|]. exists post. split; [exact Hrest|].
             split; [lia|]. intros a b Hab Hb.
             specialize (Hpre (String open_brace a) b ltac:(simpl; now rewrite Hab)
                              ltac:(discriminate) Hb).
             cbn [brace_depth] in Hpre. lia. }
           rewrite Ht. reflexivity.
        -- simpl in Hs. injection Hs as Hc Hrest. subst c.
           cbn [has_open_brace] in Hno. rewrite Hout in Hno. cbn in Hno.
           discriminate.
    + split.
      * intros H. apply IH in H.
        destruct H as [pre [post [Hs [Hno [Hlex [Hstart [Hz Hpre]]]]]]].
        exists (String ch pre), post. cbn [append lex_run has_open_brace].
        rewrite Eopen. split; [now rewrite Hs|]. auto.
      * intros [pre [post [Hs [Hno [Hlex [Hstart [Hz Hpre]]]]]]].
        destruct pre as [|c pre].
        -- cbn [append lex_run] in *.
           destruct sub as [|c sub]; [discriminate|].
           simpl in Hs. injection Hs as Hc Hrest. subst c.
           cbn [starts_with] in Hstart. apply andb_true_iff in Hstart.
           destruct Hstart as [Hch _]. apply Ascii.eqb_eq in Hch. subst ch.
           rewrite Hlex in Eopen. discriminate.
        -- simpl in Hs. injection Hs as Hc Hrest. subst c.
           cbn [has_open_brace lex_run] in *. rewrite Eopen in Hno. cbn [orb] in Hno.
           apply IH. exists pre, post. repeat split; assumption.
Qed.

(** C3.  [extract_first_json_object] returns exactly the first complete
    top-level object: the text from the first [{] outside string literals
    up to the [}] that brings the brace depth back to zero, braces inside
    string literals (with backslash escapes) not being counted; it returns
    none exactly when the text has no such object.  The nested example is
    returned whole, and a [}] inside a string literal does not end the
    object. *)
Theorem extract_first_json_object_spec (text : string) :
  (forall sub, extract_first_json_object text = Some sub <-> first_object text sub)
  /\ (extract_first_json_object text = None <-> ~ exists sub, first_object text sub)
  /\ extract_first_json_object nested_example = Some nested_object
  /\ extract_first_json_object brace_in_literal = Some brace_in_literal.
Proof.
  assert (Hspec : forall sub,
             extract_first_json_object text = Some sub <-> first_object text sub).
  { intros sub. rewrite extract_first_tail. apply first_tail_spec. }
  split; [exact Hspec|]. split; [|split; reflexivity].
  split.
  - intros Hnone [sub Hsub]. apply Hspec in Hsub. congruence.
  - intros Hno. destruct (extract_first_json_object text) as [sub|] eqn:E; [|reflexivity].
    exfalso. apply Hno. exists sub. apply Hspec. reflexivity.
Qed.

(** * Further properties *)

(** ** Classification engine *)

Lemma infer_category_allowed (signals : dict) (input_text : string) :
  mem (infer_category signals input_text) ALLOWED_CATEGORIES = true.
Proof.
  unfold infer_category. cbv zeta.
  repeat match goal with
         | |- context [if ?c then _ else _] => destruct c
         end; reflexivity.
Qed.

Lemma infer_device_in_vocabulary (device_hint input_text : string) :
  mem (infer_device device_hint input_text) ALLOWED_DEVICES = true.
Proof.
  unfold infer_device. cbv zeta.
  repeat match goal with
         | |- context [if ?c then _ else _] => destruct c
         end; reflexivity.
Qed.

Lemma infer_priority_allowed (signals : dict) (input_text : string) :
  mem (infer_priority signals input_text) ALLOWED_PRIORITIES = true.
Proof.
  unfold infer_priority. cbv zeta.
  repeat match goal with
         | |- context [if ?c then _ else _] => destruct c
         end; reflexivity.
Qed.

(** X1.  Whatever the signals and the ticket text, [infer_category]
    returns one of the nine allowed categories, [infer_priority] one of
    [P1]..[P4] and [infer_device] one of the five allowed devices. *)
Theorem inference_stays_in_vocabulary (signals : dict) (device_hint input_text : string) :
  mem (infer_category signals input_text) ALLOWED_CATEGORIES = true /\
  mem (infer_priority signals input_text) ALLOWED_PRIORITIES = true /\
  mem (infer_device device_hint input_text) ALLOWED_DEVICES = true.
Proof.
  split; [apply infer_category_allowed|].
  split; [apply infer_priority_allowed | apply infer_device_in_vocabulary].
Qed.

Lemma clamp_allowed (value : string) (allowed : list string) (fallback : string)
    (w : list string) (warning : string) :
  mem value allowed = true -> _clamp value allowed fallback w warning = (value, w).
Proof. intros H. unfold _clamp. rewrite H. reflexivity. Qed.

(** X2.  The output of [build_output_from_signals] carries the inferred
    category, priority and device unchanged (the fallbacks of [_clamp] are
    never used), and the inferred missing fields when they call for a
    clarification, none otherwise.  Its warnings are drawn from
    [dropped_non_blocking_missing_fields] and
    [defaulted_summary_from_input]: [forced_needs_clarification_false] and
    the three out-of-set warnings are never emitted. *)
Theorem build_output_fields_and_warnings
    (signals : dict) (input_text : string)
    (allowed_missing_fields : option (list string)) (strict_missing_fields : bool) :
  let r := build_output_from_signals signals input_text
             allowed_missing_fields strict_missing_fields in
  let category := infer_category signals input_text in
  let missing_fields :=
    infer_missing_fields signals input_text allowed_missing_fields strict_missing_fields in
  let needs_clarification :=
    infer_needs_clarification signals input_text (Some missing_fields) (Some category) in
  get (fst r) "category" = PStr category /\
  get (fst r) "priority" = PStr (infer_priority signals input_text) /\
  get (fst r) "device" = PStr (infer_device (_signal_text signals "device_hint") input_text) /\
  get (fst r) "missing_fields" = py_strs (if needs_clarification then missing_fields else []) /\
  get (fst r) "needs_clarification" = PBool needs_clarification /\
  incl (snd r) ["dropped_non_blocking_missing_fields"; "defaulted_summary_from_input"].
Proof.
  intros r category mf nc. subst r. unfold build_output_from_signals.
  fold category. fold mf. fold nc.
  assert (Hnil : mf = [] -> nc = false).
  { intros H. subst nc. rewrite H. unfold infer_needs_clarification.
    destruct (is_empty category); reflexivity. }
  destruct mf as [|f fs] eqn:Emf.
  - rewrite (Hnil eq_refl). cbn [is_nil negb andb].
    destruct (is_empty (strip (_signal_text signals "summary")));
      rewrite (clamp_allowed _ _ _ _ _ (infer_category_allowed signals input_text)),
        (clamp_allowed _ _ _ _ _ (infer_priority_allowed signals input_text)),
        (clamp_allowed _ _ _ _ _ (infer_device_in_vocabulary _ input_text));
      cbn; repeat split; try reflexivity;
      intros x Hx; simpl in Hx; simpl; tauto.
  - clear Hnil. destruct nc; cbn [is_nil negb andb];
      destruct (is_empty (strip (_signal_text signals "summary")));
      rewrite (clamp_allowed _ _ _ _ _ (infer_category_allowed signals input_text)),
        (clamp_allowed _ _ _ _ _ (infer_priority_allowed signals input_text)),
        (clamp_allowed _ _ _ _ _ (infer_device_in_vocabulary _ input_text));
      cbn; repeat split; try reflexivity;
      intros x Hx; simpl in Hx; simpl; tauto.
Qed.

(** X3.  Every output of [build_output_from_signals] passes
    [validate_required_fields] without an error, and
    [_hallucination_checks] finds neither contradiction pattern in it. *)
Theorem build_output_is_schema_valid
    (signals : dict) (input_text : string)
    (allowed_missing_fields : option (list string)) (strict_missing_fields : bool) :
  let out := fst (build_output_from_signals signals input_text
                    allowed_missing_fields strict_missing_fields) in
  validate_required_fields (PDict out) = (true, []) /\
  _hallucination_checks (PDict out) = (false, []).
Proof.
  intros out. subst out. unfold build_output_from_signals.
  set (mf := infer_missing_fields _ _ _ _).
  set (nc := infer_needs_clarification _ _ _ _).
  destruct mf as [|f fs]; destruct nc; cbn [is_nil negb andb];
    destruct (is_empty (strip (_signal_text signals "summary")));
    repeat match goal with
           | |- context [_clamp ?a ?b ?c ?d ?e] => destruct (_clamp a b c d e)
           end;
    split; reflexivity.
Qed.

Lemma canonical_NoDup (fields : list string) (allowed : option (list string)) (strict : bool) :
  NoDup (normalize_missing_fields_to_canonical fields allowed strict).
Proof. unfold normalize_missing_fields_to_canonical, _dedupe. apply dedupe_from_NoDup. Qed.

Lemma canonical_loop_members (fields allowed : list string) (strict : bool) (x : string) :
  In x (canonical_loop fields allowed strict) ->
  mem x allowed = true \/ (strict = false /\ _map_to_canonical x allowed = None).
Proof.
  induction fields as [|f rest IH]; simpl; [tauto|].
  destruct (_map_to_canonical f allowed) as [c|] eqn:E.
  - simpl. intros [<-|H]; [|auto]. left. apply (map_to_canonical_sound _ _ _ E).
  - destruct strict; [exact IH|]. simpl. intros [<-|H]; auto.
Qed.

Lemma canonical_strict_allowed (fields : list string) (allowed : option (list string)) :
  Forall (fun x => mem x (_resolve_allowed_missing_fields allowed) = true)
         (normalize_missing_fields_to_canonical fields allowed true).
Proof.
  apply Forall_forall. intros x Hx. unfold normalize_missing_fields_to_canonical in Hx.
  apply (proj1 (dedupe_In _ _)) in Hx. apply canonical_loop_members in Hx.
  destruct Hx as [H|[H _]]; [exact H | discriminate].
Qed.

(** X4.  The list that [infer_missing_fields] returns has no repeated
    field; in strict mode each of its fields is in the resolved allowed
    vocabulary, so an empty vocabulary leaves nothing. *)
Theorem infer_missing_fields_closed
    (signals : dict) (input_text : string)
    (allowed_missing_fields : option (list string)) (strict : bool) :
  let result := infer_missing_fields signals input_text allowed_missing_fields strict in
  let allowed := _resolve_allowed_missing_fields allowed_missing_fields in
  NoDup result /\
  (strict = true -> Forall (fun x => mem x allowed = true) result) /\
  (strict = true -> allowed = [] -> result = []).
Proof.
  intros result allowed.
  assert (Hshape : result = [] \/
                   exists fields,
                     result = normalize_missing_fields_to_canonical fields
                                allowed_missing_fields strict).
  { subst result. unfold infer_missing_fields.
    destruct (_ && _); [right; eauto|].
    destruct (_ && _); [left; reflexivity|].
    destruct (missing_field_candidates _ _ _); right; eauto. }
  assert (Hstrict : strict = true -> Forall (fun x => mem x allowed = true) result).
  { intros ->. destruct Hshape as [->|[fields ->]]; [constructor|].
    apply canonical_strict_allowed. }
  split; [|split; [exact Hstrict|]].
  - destruct Hshape as [->|[fields ->]]; [constructor | apply canonical_NoDup].
  - intros Hs Hempty. specialize (Hstrict Hs). rewrite Hempty in Hstrict.
    destruct result as [|x xs]; [reflexivity|]. inversion Hstrict; discriminate.
Qed.

Lemma canonical_loop_fixed (fields allowed : list string) (strict : bool) :
  (forall x, In x fields ->
             mem x allowed = true \/ (strict = false /\ _map_to_canonical x allowed = None)) ->
  canonical_loop fields allowed strict = fields.
Proof.
  induction fields as [|f rest IH]; intros H; simpl; [reflexivity|].
  rewrite IH by (intros x Hx; apply H; right; exact Hx).
  destruct (H f (or_introl eq_refl)) as [Hf|[Hs Hf]].
  - unfold _map_to_canonical. rewrite Hf. reflexivity.
  - rewrite Hf, Hs. reflexivity.
Qed.

(** X5.  Canonicalization is idempotent: applying
    [normalize_missing_fields_to_canonical] to its own result, with the
    same vocabulary and mode, returns that result. *)
Theorem canonicalization_idempotent
    (fields : list string) (allowed_missing_fields : option (list string)) (strict : bool) :
  let result := normalize_missing_fields_to_canonical fields allowed_missing_fields strict in
  normalize_missing_fields_to_canonical result allowed_missing_fields strict = result.
Proof.
  intros result.
  assert (Hnd : NoDup result) by apply canonical_NoDup.
  assert (Hmem : forall x, In x result ->
                   mem x (_resolve_allowed_missing_fields allowed_missing_fields) = true \/
                   (strict = false /\
                    _map_to_canonical x (_resolve_allowed_missing_fields allowed_missing_fields)
                    = None)).
  { intros x Hx. subst result. unfold normalize_missing_fields_to_canonical in Hx.
    apply (proj1 (dedupe_In _ _)) in Hx. exact (canonical_loop_members _ _ _ _ Hx). }
  assert (Hdd : _dedupe result = result)
    by (unfold _dedupe; apply dedupe_from_fixed; [exact Hnd | reflexivity]).
  unfold normalize_missing_fields_to_canonical at 1.
  rewrite Hdd, (canonical_loop_fixed _ _ _ Hmem). exact Hdd.
Qed.

(** ** Signal coercion *)

Lemma coerce_choice_in (value : pyval) (allowed : list string) (fallback : string) :
  mem (_coerce_signal_choice value allowed fallback) (fallback :: allowed) = true.
Proof.
  unfold _coerce_signal_choice.
  destruct (mem (lower (strip (py_str (if truthy value then value else PStr "")))) allowed)
    eqn:E; simpl.
  - rewrite E. apply orb_true_r.
  - rewrite String.eqb_refl. reflexivity.
Qed.

Lemma coerce_device_hint_fixed (value : pyval) :
  let allowed := ["windows"; "mac"; "iphone"; "android"] in
  _coerce_signal_choice (PStr (_coerce_signal_choice value allowed "unknown")) allowed "unknown"
  = _coerce_signal_choice value allowed "unknown".
Proof.
  intros allowed.
  pose proof (coerce_choice_in value allowed "unknown") as H.
  apply mem_In in H. simpl in H.
  repeat (destruct H as [<-|H]; [reflexivity|]). contradiction.
Qed.

Lemma coerce_scope_fixed (value : pyval) :
  let allowed := ["single_user"; "multiple_users"] in
  _coerce_signal_choice (PStr (_coerce_signal_choice value allowed "unknown")) allowed "unknown"
  = _coerce_signal_choice value allowed "unknown".
Proof.
  intros allowed.
  pose proof (coerce_choice_in value allowed "unknown") as H.
  apply mem_In in H. simpl in H.
  repeat (destruct H as [<-|H]; [reflexivity|]). contradiction.
Qed.

Lemma coerce_items_clean (items : list pyval) :
  Forall (fun x => strip x = x /\ x <> "") (coerce_items items).
Proof.
  induction items as [|item rest IH]; simpl; [constructor|].
  destruct (is_empty (strip (py_str item))) eqn:E; [exact IH|].
  constructor; [|exact IH]. split; [apply strip_idempotent | apply is_empty_false; exact E].
Qed.

Lemma coerce_items_fixed (codes : list string) :
  Forall (fun x => strip x = x /\ x <> "") codes ->
  coerce_items (List.map PStr codes) = codes.
Proof.
  induction 1 as [|x rest [Hs Hne] _ IH]; simpl; [reflexivity|].
  rewrite Hs. apply is_empty_false in Hne. rewrite Hne, IH. reflexivity.
Qed.

Lemma coerce_list_clean (value : pyval) :
  Forall (fun x => strip x = x /\ x <> "") (_coerce_signal_list value).
Proof. destruct value; simpl; try constructor. apply coerce_items_clean. Qed.

(** X6.  [coerce_ticket_signals] is idempotent: coercing an already
    coerced payload returns it unchanged. *)
Theorem coerce_ticket_signals_idempotent (payload : dict) :
  coerce_ticket_signals (coerce_ticket_signals payload) = coerce_ticket_signals payload.
Proof.
  unfold coerce_ticket_signals at 1.
  unfold coerce_ticket_signals at 1 2 3 4 5 6 7 8 9 10 11 12 13.
  cbn [get get_default dget String.eqb Ascii.eqb Bool.eqb].
  cbn [_coerce_signal_bool _coerce_signal_list py_strs py_str].
  rewrite (coerce_device_hint_fixed (get payload "device_hint")).
  rewrite (coerce_scope_fixed (get payload "scope")).
  rewrite (coerce_items_fixed _ (coerce_list_clean _)).
  rewrite strip_idempotent.
  reflexivity.
Qed.

(** X7.  After coercion every signal has a value from its domain: the
    device hint is one of [windows], [mac], [iphone], [android],
    [unknown]; the scope is [single_user], [multiple_users] or [unknown];
    the eight flags are booleans; the error codes are non-empty stripped
    strings; the summary is a stripped string.  The coerced payload has all
    thirteen signal keys, so both recognizers accept it. *)
Theorem coerced_signals_in_domain (payload : dict) :
  let signals := coerce_ticket_signals payload in
  is_ticket_signals (PDict signals) = true /\
  looks_like_ticket_signals (PDict signals) = true /\
  (exists hint, get signals "device_hint" = PStr hint /\
                mem hint ["windows"; "mac"; "iphone"; "android"; "unknown"] = true) /\
  (exists scope, get signals "scope" = PStr scope /\
                 mem scope ["single_user"; "multiple_users"; "unknown"] = true) /\
  Forall (fun key => exists flag, get signals key = PBool flag)
         ["mentions_vpn"; "mentions_email"; "mentions_wifi_or_network"; "mentions_printer";
          "mentions_software_app"; "mentions_laptop_issue"; "access_request";
          "security_incident"; "urgency_words"] /\
  (exists codes, get signals "error_codes" = py_strs codes /\
                 Forall (fun x => strip x = x /\ x <> "") codes) /\
  (exists summary, get signals "summary" = PStr summary /\ strip summary = summary).
Proof.
  intros signals. subst signals.
  split; [reflexivity|]. split; [reflexivity|].
  split.
  { eexists. split; [reflexivity|].
    pose proof (coerce_choice_in (get payload "device_hint")
                  ["windows"; "mac"; "iphone"; "android"] "unknown") as H.
    apply mem_In in H. apply mem_In. simpl in H. simpl. tauto. }
  split.
  { eexists. split; [reflexivity|].
    pose proof (coerce_choice_in (get payload "scope")
                  ["single_user"; "multiple_users"] "unknown") as H.
    apply mem_In in H. apply mem_In. simpl in H. simpl. tauto. }
  split.
  { repeat constructor; eexists; reflexivity. }
  split.
  { eexists. split; [reflexivity | apply coerce_list_clean]. }
  eexists. split; [reflexivity | apply strip_idempotent].
Qed.

(** X8.  A payload with all thirteen signal keys also looks like a signal
    payload; a dictionary none of whose keys is an indicator key (its only
    signal key, if any, is [summary]) does not; a value that is not a
    dictionary is rejected by both recognizers. *)
Theorem signal_recognizers_agree (payload : pyval) :
  (is_ticket_signals payload = true -> looks_like_ticket_signals payload = true) /\
  (forall d, payload = PDict d ->
             (forall key, In key SIGNAL_INDICATOR_KEYS -> has_key d key = false) ->
             looks_like_ticket_signals payload = false) /\
  (is_dict payload = false ->
   is_ticket_signals payload = false /\ looks_like_ticket_signals payload = false).
Proof.
  split; [|split].
  - destruct payload as [| | | | | |d]; try discriminate.
    cbn [is_ticket_signals looks_like_ticket_signals].
    unfold SIGNAL_KEYS. cbn [forallb]. intros H. apply andb_true_iff in H.
    destruct H as [H _]. cbn. rewrite H. reflexivity.
  - intros d -> H. cbn [looks_like_ticket_signals].
    destruct (existsb (fun key => has_key d key) SIGNAL_INDICATOR_KEYS) eqn:E; [|reflexivity].
    apply existsb_exists in E. destruct E as [key [Hin Hkey]].
    rewrite (H key Hin) in Hkey. discriminate.
  - destruct payload; try discriminate; intros _; split; reflexivity.
Qed.

(** ** Output normalization *)

(** The destructuring of [normalize_output] into its steps. *)
Ltac normalize_steps candidate input_text :=
  unfold normalize_output;
  let c0 := fresh "c0" in let w1 := fresh "w1" in let E1 := fresh "E1" in
  destruct (ensure_text_key_eq candidate "category" "Software" []) as (c0 & w1 & E1 & _);
  rewrite E1;
  let p0 := fresh "p0" in let w2 := fresh "w2" in let E2 := fresh "E2" in
  destruct (ensure_text_key_eq (dset candidate "category" (PStr c0)) "priority" "P3" w1)
    as (p0 & w2 & E2 & _);
  rewrite E2;
  let s0 := fresh "s0" in let w3 := fresh "w3" in let E3 := fresh "E3" in
  destruct (ensure_text_key_eq (dset (dset candidate "category" (PStr c0)) "priority" (PStr p0))
              "summary" "" w2) as (s0 & w3 & E3 & _);
  rewrite E3;
  clear E1 E2 E3;
  destruct (has_key _ "needs_clarification"); cbn [negb]; cbv beta iota;
  destruct (has_key _ "missing_fields"); cbn [negb]; cbv beta iota;
  let c := fresh "c" in let w6 := fresh "w6" in let E6 := fresh "E6" in
  (destruct (_normalize_category c0 (lower input_text) _) as [c w6] eqn:E6);
  let p := fresh "p" in let w7 := fresh "w7" in let E7 := fresh "E7" in
  (destruct (_normalize_priority p0 w6) as [p w7] eqn:E7);
  let dv := fresh "dv" in let w8 := fresh "w8" in let E8 := fresh "E8" in
  (destruct (_normalize_device _ (lower input_text) w7) as [dv w8] eqn:E8);
  let mf := fresh "mf" in let w9 := fresh "w9" in let E9 := fresh "E9" in
  (destruct (_normalize_missing_fields _ w8) as [mf w9] eqn:E9).

Lemma normalize_output_shape (candidate : dict) (input_text : string) :
  let out := fst (normalize_output candidate input_text) in
  exists c p dv s nc mf,
    dget out "category" = Some (PStr c) /\ mem c ALLOWED_CATEGORIES = true /\
    dget out "priority" = Some (PStr p) /\ mem p ALLOWED_PRIORITIES = true /\
    dget out "device" = Some (PStr dv) /\ mem dv ALLOWED_DEVICES = true /\
    dget out "summary" = Some (PStr s) /\ strip s = s /\
    dget out "needs_clarification" = Some (PBool nc) /\
    dget out "missing_fields" = Some (py_strs mf) /\
    Forall (fun x => strip x = x /\ x <> "") mf /\ NoDup mf /\
    (mf <> [] -> nc = true).
Proof.
  intros out. subst out. normalize_steps candidate input_text.
  all: match type of E6 with
       | _normalize_category ?a ?b ?w = _ =>
           pose proof (normalize_category_allowed a b w) as Hca; rewrite E6 in Hca
       end.
  all: match type of E7 with
       | _normalize_priority ?a ?w = _ =>
           pose proof (normalize_priority_allowed a w) as Hpa; rewrite E7 in Hpa
       end.
  all: match type of E8 with
       | _normalize_device ?a ?b ?w = _ =>
           pose proof (normalize_device_allowed a b w) as Hda; rewrite E8 in Hda
       end.
  all: match type of E9 with
       | _normalize_missing_fields ?a ?w = _ =>
           pose proof (normalize_missing_fields_clean a w) as Hmf; rewrite E9 in Hmf
       end.
  all: cbn [fst] in Hca, Hpa, Hda, Hmf; destruct Hmf as [Hmc Hmn].
  all: clear E6 E7 E8 E9.
  all: match goal with
       | |- context [strip ?x] => set (s := strip x)
       end.
  all: match goal with
       | |- context [_normalize_bool ?x] => set (nc := _normalize_bool x)
       end.
  all: destruct mf as [|x xs]; destruct nc; cbn [negb is_nil andb fst]; cbv beta iota;
    cbn [fst].
  all: exists c, p, dv, s; eexists; eexists.
  all: unfold get; dsimp.
  all: repeat split; try reflexivity; try assumption; try (subst s; apply strip_idempotent).
  all: intros Hne; exfalso; apply Hne; reflexivity.
Qed.

(** X9.  Whatever the candidate dictionary, the output of
    [normalize_output] passes [validate_required_fields] without an error,
    its category, priority and device are in the allowed vocabularies, and
    it never pairs a false clarification flag with missing fields. *)
Theorem normalize_output_is_schema_valid (candidate : dict) (input_text : string) :
  let out := fst (normalize_output candidate input_text) in
  validate_required_fields (PDict out) = (true, []) /\
  (exists c, get out "category" = PStr c /\ mem c ALLOWED_CATEGORIES = true) /\
  (exists p, get out "priority" = PStr p /\ mem p ALLOWED_PRIORITIES = true) /\
  (exists dv, get out "device" = PStr dv /\ mem dv ALLOWED_DEVICES = true) /\
  ~ In "missing_fields_without_clarification" (snd (_hallucination_checks (PDict out))).
Proof.
  intros out.
  destruct (normalize_output_shape candidate input_text)
    as (c & p & dv & s & nc & mf & Hc & Hca & Hp & Hpa & Hd & Hda & Hs & Hss
        & Hn & Hm & Hmc & Hmn & Hlaw).
  fold out in Hc, Hp, Hd, Hs, Hn, Hm.
  split.
  { unfold validate_required_fields, REQUIRED_OUTPUT_FIELDS. cbn [field_errors].
    rewrite Hc, Hp, Hd, Hs, Hn, Hm. reflexivity. }
  unfold get. rewrite Hc, Hp, Hd.
  split; [eauto|]. split; [eauto|]. split; [eauto|].
  cbn [_hallucination_checks]. unfold get. rewrite Hn, Hm.
  destruct mf as [|x xs].
  - destruct nc; simpl; intuition discriminate.
  - rewrite (Hlaw ltac:(discriminate)). simpl. tauto.
Qed.

(** X10.  [normalize_output] leaves every key other than the six output
    keys as it found it: such a key has the same value in the output as in
    the candidate, and is absent from the output when the candidate lacks
    it. *)
Theorem normalize_output_keeps_other_keys
    (candidate : dict) (input_text : string) (key : string) :
  ~ In key ["category"; "priority"; "device"; "summary"; "needs_clarification";
            "missing_fields"] ->
  dget (fst (normalize_output candidate input_text)) key = dget candidate key.
Proof.
  intros Hkey.
  assert (K1 : String.eqb "category" key = false)
    by (apply String.eqb_neq; intros <-; apply Hkey; simpl; tauto).
  assert (K2 : String.eqb "priority" key = false)
    by (apply String.eqb_neq; intros <-; apply Hkey; simpl; tauto).
  assert (K3 : String.eqb "device" key = false)
    by (apply String.eqb_neq; intros <-; apply Hkey; simpl; tauto).
  assert (K4 : String.eqb "summary" key = false)
    by (apply String.eqb_neq; intros <-; apply Hkey; simpl; tauto).
  assert (K5 : String.eqb "needs_clarification" key = false)
    by (apply String.eqb_neq; intros <-; apply Hkey; simpl; tauto).
  assert (K6 : String.eqb "missing_fields" key = false)
    by (apply String.eqb_neq; intros <-; apply Hkey; simpl; tauto).
  normalize_steps candidate input_text.
  all: clear E6 E7 E8 E9.
  all: match goal with
       | |- context [_normalize_bool ?x] => destruct (_normalize_bool x)
       end.
  all: destruct mf as [|x xs]; cbn [negb is_nil andb fst]; cbv beta iota; cbn [fst].
  all: repeat (rewrite dget_dset_neq by assumption).
  all: reflexivity.
Qed.

(** ** Schema validation and scoring *)

Lemma dedupe_nil (values : list string) : _dedupe values = [] <-> values = [].
Proof.
  split; [|intros ->; reflexivity].
  destruct values as [|x xs]; [reflexivity|]. intros H.
  assert (Hin : In x (_dedupe (x :: xs))) by (apply dedupe_In; left; reflexivity).
  rewrite H in Hin. destruct Hin.
Qed.

Lemma field_errors_length (fields : list (string * pytype)) (d : dict) :
  List.length (field_errors fields d) <= List.length fields.
Proof.
  induction fields as [|[field t] rest IH]; simpl; [lia|].
  destruct (dget d field) as [value|]; [destruct (isinstance value t)|]; simpl; lia.
Qed.

Lemma field_errors_nil (d : dict) :
  field_errors REQUIRED_OUTPUT_FIELDS d = [] <-> has_required_fields d.
Proof.
  unfold has_required_fields, REQUIRED_OUTPUT_FIELDS. cbn [field_errors]. split.
  - intros H.
    destruct (dget d "category") as [[| | | |c| |]|]; try discriminate H.
    destruct (dget d "priority") as [[| | | |p| |]|]; try discriminate H.
    destruct (dget d "device") as [[| | | |dv| |]|]; try discriminate H.
    destruct (dget d "needs_clarification") as [[|nc| | | | |]|]; try discriminate H.
    destruct (dget d "missing_fields") as [[| | | | |mf|]|]; try discriminate H.
    destruct (dget d "summary") as [[| | | |s| |]|]; try discriminate H.
    exists c, p, dv, nc, mf, s. repeat split; reflexivity.
  - intros (c & p & dv & nc & mf & s & -> & -> & -> & -> & -> & ->). reflexivity.
Qed.

(** X11.  [validate_required_fields] accepts exactly the objects that
    hold a string under [category], [priority], [device] and [summary], a
    boolean under [needs_clarification] and a list under [missing_fields];
    extra keys and the contents of the strings and of the list play no
    part.  Its flag is true exactly when its error list is empty, a value
    that is not an object gets the single error
    [Output must be a JSON object], and an object gets at most one error
    per required key. *)
Theorem validate_required_fields_characterized (output : pyval) :
  (validate_required_fields output = (true, []) <->
   exists d, output = PDict d /\ has_required_fields d)
  /\ (fst (validate_required_fields output) = true <->
      snd (validate_required_fields output) = [])
  /\ (is_dict output = false ->
      validate_required_fields output = (false, ["Output must be a JSON object"]))
  /\ 1 <= List.length (snd (validate_required_fields output))
          + (if fst (validate_required_fields output) then 1 else 0) <= 6.
Proof.
  split; [|split; [|split]].
  - split.
    + destruct output as [| | | | | |d]; try discriminate. unfold validate_required_fields.
      intros H. exists d. split; [reflexivity|]. apply field_errors_nil.
      injection H as _ H. exact H.
    + intros (d & -> & H). apply field_errors_nil in H. unfold validate_required_fields.
      rewrite H. reflexivity.
  - destruct output as [| | | | | |d]; try (simpl; split; discriminate).
    unfold validate_required_fields. cbn [fst snd].
    destruct (field_errors REQUIRED_OUTPUT_FIELDS d); simpl; split; congruence.
  - destruct output; try discriminate; reflexivity.
  - destruct output as [| | | | | |d]; try (simpl; lia).
    pose proof (field_errors_length REQUIRED_OUTPUT_FIELDS d) as Hlen.
    unfold validate_required_fields. cbn [fst snd].
    destruct (field_errors REQUIRED_OUTPUT_FIELDS d); simpl in *; lia.
Qed.

(** X12.  The failure reasons of [score_case] hold no duplicate and only
    the ten known codes; the list is empty exactly when the case passes
    and the device was not left [Unknown] against a device word in the
    ticket.  So a passing case can still carry one failure reason,
    [extraction_failure_device_unknown], and no other. *)
Theorem score_case_failure_reasons
    (expected : dict) (actual : pyval) (input_text : string)
    (allowed_missing_fields : option (list string)) :
  let r := score_case expected actual input_text allowed_missing_fields in
  NoDup (failure_reasons r)
  /\ incl (failure_reasons r) failure_reason_codes
  /\ (failure_reasons r = [] <->
      overall_pass r = true /\ extraction_failure_device_unknown r = false)
  /\ (overall_pass r = true ->
      incl (failure_reasons r) ["extraction_failure_device_unknown"]).
Proof.
  unfold score_case.
  destruct (if is_dict actual then validate_required_fields actual
            else (false, ["Output must be a JSON object"])) as [sv se].
  pose proof (hallucination_reasons_known actual) as Hknown.
  destruct (_hallucination_checks actual) as [h hr]. simpl in Hknown.
  cbv zeta. cbn [failure_reasons overall_pass extraction_failure_device_unknown].
  split; [apply dedupe_from_NoDup|].
  split; [|split].
  - intros x Hx. apply (proj1 (dedupe_In _ _)) in Hx.
    repeat (apply append_if_In in Hx; destruct Hx as [Hx|Hx]).
    + destruct Hx.
    + simpl in Hx. unfold failure_reason_codes. simpl. tauto.
    + simpl in Hx. unfold failure_reason_codes. simpl. tauto.
    + simpl in Hx. unfold failure_reason_codes. simpl. tauto.
    + simpl in Hx. unfold failure_reason_codes. simpl. tauto.
    + simpl in Hx. unfold failure_reason_codes. simpl. tauto.
    + simpl in Hx. unfold failure_reason_codes. simpl. tauto.
    + destruct Hx as [<-|Hx]; [unfold failure_reason_codes; simpl; tauto|].
      apply Hknown in Hx. unfold failure_reason_codes.
      destruct Hx as [-> | ->]; simpl; tauto.
    + simpl in Hx. unfold failure_reason_codes. simpl. tauto.
  - rewrite dedupe_nil.
    destruct (is_dict actual), sv, (_field_correct expected actual "category"),
      (_field_correct expected actual "priority"), (_field_correct expected actual "device"),
      (_field_correct expected actual "needs_clarification"), h,
      (_is_device_extraction_failure actual input_text);
      cbn; split; try discriminate; try tauto; try (intros [? ?]; discriminate).
  - intros Hpass x Hx. apply (proj1 (dedupe_In _ _)) in Hx.
    destruct (is_dict actual), sv, (_field_correct expected actual "category"),
      (_field_correct expected actual "priority"), (_field_correct expected actual "device"),
      (_field_correct expected actual "needs_clarification"), h;
      try discriminate Hpass.
    destruct (_is_device_extraction_failure actual input_text); cbn in Hx;
      [exact Hx | destruct Hx].
Qed.

(** X13.  A value that is not an object scores as a failure on every
    count: it is invalid as JSON and as a record, all four field
    comparisons fail, and the failure reasons are the six codes for those,
    in this order.  Nothing else is reported: no hallucination, no device
    extraction failure, no unknown missing field and no warning. *)
Theorem score_case_non_object
    (expected : dict) (actual : pyval) (input_text : string)
    (allowed_missing_fields : option (list string)) :
  is_dict actual = false ->
  score_case expected actual input_text allowed_missing_fields =
  {| json_valid := false;
     schema_valid := false;
     schema_errors := ["Output must be a JSON object"];
     category_correct := false;
     priority_correct := false;
     device_correct := false;
     needs_clarification_correct := false;
     hallucination := false;
     unknown_missing_fields := [];
     warnings := [];
     extraction_failure_device_unknown := false;
     failure_reasons := ["invalid_json"; "schema_error"; "wrong_category"; "wrong_priority";
                         "wrong_device"; "wrong_needs_clarification"];
     overall_pass := false |}.
Proof.
  destruct actual; try discriminate; intros _; reflexivity.
Qed.

(** X14.  Scoring a record that passes the schema against itself finds
    the four compared fields correct, so the case passes exactly when the
    record shows no hallucination pattern, and the only failure reasons it
    can carry are the hallucination codes and
    [extraction_failure_device_unknown]. *)
Theorem score_case_against_itself
    (d : dict) (input_text : string) (allowed_missing_fields : option (list string)) :
  validate_required_fields (PDict d) = (true, []) ->
  let r := score_case d (PDict d) input_text allowed_missing_fields in
  json_valid r = true /\ schema_valid r = true /\ schema_errors r = [] /\
  category_correct r = true /\ priority_correct r = true /\ device_correct r = true /\
  needs_clarification_correct r = true /\
  overall_pass r = negb (hallucination r) /\
  incl (failure_reasons r)
       ["hallucination"; "missing_fields_without_clarification";
        "clarification_without_missing_fields"; "extraction_failure_device_unknown"].
Proof.
  intros Hvalid.
  assert (Hshape : has_required_fields d).
  { apply field_errors_nil. unfold validate_required_fields in Hvalid.
    injection Hvalid as _ H. exact H. }
  destruct Hshape as (c & p & dv & nc & mf & s & Hc & Hp & Hdv & Hnc & Hmf & Hs).
  pose proof (hallucination_reasons_known (PDict d)) as Hknown.
  unfold score_case. cbn [is_dict]. rewrite Hvalid.
  unfold _field_correct, get. rewrite Hc, Hp, Hdv, Hnc.
  cbn [py_eq]. rewrite !String.eqb_refl, Bool.eqb_reflx.
  destruct (_hallucination_checks (PDict d)) as [h hr]. simpl in Hknown.
  cbv zeta. cbn -[_dedupe _is_device_extraction_failure].
  repeat split.
  intros x Hx. apply (proj1 (dedupe_In _ _)) in Hx.
  unfold append_if in Hx.
  destruct h, (_is_device_extraction_failure (PDict d) input_text); simpl in Hx.
  - destruct Hx as [<-|Hx]; [simpl; tauto|]. apply in_app_or in Hx.
    destruct Hx as [Hx|Hx];
      [apply Hknown in Hx; destruct Hx as [-> | ->]; simpl; tauto|simpl in Hx; simpl; tauto].
  - destruct Hx as [<-|Hx]; [simpl; tauto|].
    apply Hknown in Hx; destruct Hx as [-> | ->]; simpl; tauto.
  - simpl. tauto.
  - destruct Hx.
Qed.

(** X15.  Whatever object the provider returned, the record that
    [normalize_output] makes of it is valid JSON and passes the schema when
    it is scored: [invalid_json], [schema_error] and
    [missing_fields_without_clarification] are never among its failure
    reasons, for any expected record and any ticket. *)
Theorem score_case_of_normalized_output
    (expected candidate : dict) (input_text : string)
    (allowed_missing_fields : option (list string)) :
  let out := fst (normalize_output candidate input_text) in
  let r := score_case expected (PDict out) input_text allowed_missing_fields in
  json_valid r = true /\ schema_valid r = true /\ schema_errors r = [] /\
  ~ In "invalid_json" (failure_reasons r) /\
  ~ In "schema_error" (failure_reasons r) /\
  ~ In "missing_fields_without_clarification" (failure_reasons r).
Proof.
  intros out r.
  destruct (normalize_output_shape candidate input_text)
    as (c & p & dv & s & nc & mf & Hc & _ & Hp & _ & Hdv & _ & Hs & _ & Hnc & Hmf & _ & _ & Hlaw).
  fold out in Hc, Hp, Hdv, Hs, Hnc, Hmf.
  assert (Hvalid : validate_required_fields (PDict out) = (true, [])).
  { unfold validate_required_fields, REQUIRED_OUTPUT_FIELDS. cbn [field_errors].
    rewrite Hc, Hp, Hdv, Hs, Hnc, Hmf. destruct mf; reflexivity. }
  assert (Hhall : ~ In "missing_fields_without_clarification"
                       (snd (_hallucination_checks (PDict out)))).
  { unfold _hallucination_checks, get. rewrite Hnc, Hmf.
    destruct mf as [|x xs]; [destruct nc; simpl; intuition discriminate|].
    rewrite (Hlaw ltac:(discriminate)). simpl. tauto. }
  pose proof (hallucination_reasons_known (PDict out)) as hallucination_reasons_known_hr.
  subst r. unfold score_case. cbn [is_dict]. rewrite Hvalid.
  destruct (_hallucination_checks (PDict out)) as [h hr].
  simpl in Hhall, hallucination_reasons_known_hr.
  cbv zeta. cbn [json_valid schema_valid schema_errors failure_reasons].
  split; [reflexivity|]. split; [reflexivity|]. split; [reflexivity|].
  cbn [negb append_if].
  split; [|split]; intros Hx; apply (proj1 (dedupe_In _ _)) in Hx;
    repeat (apply append_if_In in Hx; destruct Hx as [Hx|Hx]);
    simpl in Hx;
    repeat match type of Hx with
           | _ \/ _ => destruct Hx as [Hx|Hx]
           | False => destruct Hx
           | _ = _ => discriminate Hx
           end.
  - apply hallucination_reasons_known_hr in Hx. destruct Hx; discriminate.
  - apply hallucination_reasons_known_hr in Hx. destruct Hx; discriminate.
  - exact (Hhall Hx).
Qed.

(** ** Extraction and repair *)

Lemma lex_step_mode (st : bool * bool) (ch : ascii) :
  (fst st = false -> snd st = false) ->
  fst (lex_step st ch) = false -> snd (lex_step st ch) = false.
Proof.
  destruct st as [[|] [|]]; simpl; intros H; try (specialize (H eq_refl); discriminate);
    repeat match goal with |- context [if ?c then _ else _] => destruct c end;
    simpl; congruence.
Qed.

Lemma object_tail_fixed (s : string) (depth : Z) (st : bool * bool) (r : string) :
  object_tail depth st s = Some r -> object_tail depth st r = Some r.
Proof.
  revert depth st r. induction s as [|ch s IH]; intros depth st r; simpl; [discriminate|].
  destruct (depth + brace_delta st ch =? 0)%Z eqn:E.
  - intros H. injection H as <-. simpl. rewrite E. reflexivity.
  - destruct (object_tail (depth + brace_delta st ch) (lex_step st ch) s) as [r'|] eqn:Er;
      [|discriminate].
    intros H. injection H as <-. simpl. rewrite E, (IH _ _ _ Er). reflexivity.
Qed.

Lemma object_tail_last (s : string) (depth : Z) (st : bool * bool) (r : string) :
  (0 < depth)%Z -> object_tail depth st s = Some r ->
  last_char r = Some close_brace /\ 1 <= String.length r.
Proof.
  revert depth st r. induction s as [|ch s IH]; intros depth st r Hd; simpl; [discriminate|].
  pose proof (brace_delta_range st ch) as Hrange.
  destruct (depth + brace_delta st ch =? 0)%Z eqn:E.
  - intros H. injection H as <-. apply Z.eqb_eq in E. simpl. split; [|lia].
    unfold brace_delta in E. destruct (fst st); [lia|].
    destruct (Ascii.eqb ch open_brace); [lia|].
    destruct (Ascii.eqb ch close_brace) eqn:Ec; [|lia].
    apply Ascii.eqb_eq in Ec. congruence.
  - apply Z.eqb_neq in E.
    destruct (object_tail (depth + brace_delta st ch) (lex_step st ch) s) as [r'|] eqn:Er;
      [|discriminate].
    intros H. injection H as <-.
    assert (Hd' : (0 < depth + brace_delta st ch)%Z) by lia.
    destruct (IH _ _ _ Hd' Er) as [Hlast Hlen].
    destruct r' as [|c r']; [simpl in Hlen; lia|].
    split; [exact Hlast | simpl; lia].
Qed.

Lemma first_tail_object (s : string) (st : bool * bool) (sub : string) :
  (fst st = false -> snd st = false) ->
  first_tail st s = Some sub ->
  exists r s', sub = String open_brace r /\
               object_tail 1 (lex_step (false, false) open_brace) s' = Some r.
Proof.
  revert st. induction s as [|ch s IH]; intros st Hst; simpl; [discriminate|].
  destruct (negb (fst st) && Ascii.eqb ch open_brace) eqn:E.
  - apply andb_prop in E. destruct E as [Ef Ec]. apply negb_true_iff in Ef.
    apply Ascii.eqb_eq in Ec. subst ch.
    destruct st as [f e]. simpl in Ef, Hst. subst f. rewrite (Hst eq_refl).
    destruct (object_tail 1 (lex_step (false, false) open_brace) s) as [r|] eqn:Er;
      [|discriminate].
    intros H. injection H as <-. exists r, s. split; [reflexivity | exact Er].
  - apply IH. apply lex_step_mode. exact Hst.
Qed.

Lemma contains_char_cons (a c : ascii) (s : string) :
  contains (String a "") (String c s) = Ascii.eqb a c || contains (String a "") s.
Proof. simpl. rewrite andb_true_r. reflexivity. Qed.

Lemma contains_char_lstrip (a : ascii) (s : string) :
  contains (String a "") s = false -> contains (String a "") (lstrip s) = false.
Proof.
  induction s as [|c s IH]; [auto|]. intros H. cbn [lstrip].
  destruct (is_space c); [|exact H].
  rewrite contains_char_cons in H. apply orb_false_iff in H. apply IH, H.
Qed.

Lemma contains_char_rstrip (a : ascii) (s : string) :
  contains (String a "") s = false -> contains (String a "") (rstrip s) = false.
Proof.
  induction s as [|c s IH]; [auto|]. intros H. cbn [rstrip].
  rewrite contains_char_cons in H. apply orb_false_iff in H. destruct H as [Hc Hs].
  destruct (is_empty (rstrip s) && is_space c); [reflexivity|].
  rewrite contains_char_cons, Hc, (IH Hs). reflexivity.
Qed.

Lemma object_tail_no_close (s : string) (depth : Z) (st : bool * bool) :
  (0 < depth)%Z -> contains "}" s = false -> object_tail depth st s = None.
Proof.
  revert depth st. induction s as [|ch s IH]; intros depth st Hd H; [reflexivity|].
  rewrite contains_char_cons in H. apply orb_false_iff in H. destruct H as [Hc Hs].
  assert (Hdelta : (0 <= brace_delta st ch)%Z).
  { unfold brace_delta. destruct (fst st); [lia|].
    destruct (Ascii.eqb ch open_brace); [lia|].
    rewrite Ascii.eqb_sym in Hc. unfold close_brace. rewrite Hc. lia. }
  simpl. destruct (depth + brace_delta st ch =? 0)%Z eqn:E; [apply Z.eqb_eq in E; lia|].
  rewrite IH by (lia || assumption). reflexivity.
Qed.

Lemma first_tail_no_brace (s : string) (st : bool * bool) :
  contains "{" s = false \/ contains "}" s = false -> first_tail st s = None.
Proof.
  revert st. induction s as [|ch s IH]; intros st H; [reflexivity|].
  rewrite !contains_char_cons in H. simpl.
  destruct (negb (fst st) && Ascii.eqb ch open_brace) eqn:E.
  - apply andb_prop in E. destruct E as [_ Ec]. rewrite Ascii.eqb_sym in Ec.
    unfold open_brace in Ec. destruct H as [H|H].
    + rewrite Ec in H. discriminate.
    + apply orb_false_iff in H. destruct H as [_ Hs].
      rewrite object_tail_no_close by (lia || assumption). reflexivity.
  - apply IH. destruct H as [H|H]; apply orb_false_iff in H; tauto.
Qed.

(** X16.  The object that [extract_first_json_object] returns begins
    with an opening brace, ends with a closing brace, is at least two
    characters long, and is its own first object: extracting from it
    returns it unchanged. *)
Theorem extracted_object_is_fixed (text sub : string) :
  extract_first_json_object text = Some sub ->
  extract_first_json_object sub = Some sub /\
  starts_with "{" sub = true /\
  last_char sub = Some close_brace /\
  2 <= String.length sub.
Proof.
  rewrite !extract_first_tail. intros H.
  destruct (first_tail_object text (false, false) sub ltac:(auto) H) as (r & s' & -> & Hr).
  destruct (object_tail_last _ _ _ _ Z.lt_0_1 Hr) as [Hlast Hlen].
  split; [|split; [reflexivity|split]].
  - cbn [first_tail fst negb andb]. unfold open_brace at 1. cbn [Ascii.eqb Bool.eqb].
    fold open_brace. rewrite (object_tail_fixed _ _ _ _ Hr). reflexivity.
  - destruct r as [|c r]; [simpl in Hlen; lia | exact Hlast].
  - simpl. lia.
Qed.

(** X17.  A text without an opening brace, or without a closing brace,
    holds no object: [extract_first_json_object] returns none on it.  When
    such a text is not blank and does not parse as JSON,
    [parse_json_object_with_repair] reports [ExtractionFailure]. *)
Theorem no_brace_no_object (text : string) :
  contains "{" text = false \/ contains "}" text = false ->
  extract_first_json_object text = None /\
  (strip text <> "" -> json_loads rt (strip text) = None ->
   parse_json_object_with_repair text = (None, false, "ExtractionFailure")).
Proof.
  intros H. split.
  - rewrite extract_first_tail. apply first_tail_no_brace. exact H.
  - intros Hraw Hloads. unfold parse_json_object_with_repair.
    apply is_empty_false in Hraw. rewrite Hraw, Hloads.
    rewrite extract_first_tail, first_tail_no_brace; [reflexivity|].
    unfold strip.
    destruct H as [H|H]; [left|right]; apply contains_char_rstrip, contains_char_lstrip, H.
Qed.

(** X18.  The three results of [parse_json_object_with_repair] agree:
    the flag is true exactly when an object is returned and exactly when
    the error kind is empty, and the kind is otherwise one of
    [EmptyOutput], [ExtractionFailure] and [InvalidJSON].  The result
    depends on the text only through its trimmed form, and
    [parse_json_object_from_text] returns the first two of the three. *)
Theorem parse_result_consistent (text : string) :
  let result := parse_json_object_with_repair text in
  let parsed := fst (fst result) in
  let ok := snd (fst result) in
  let kind := snd result in
  (ok = true <-> exists d, parsed = Some d) /\
  (ok = true <-> kind = "") /\
  (ok = false -> In kind ["EmptyOutput"; "ExtractionFailure"; "InvalidJSON"]) /\
  parse_json_object_with_repair (strip text) = result /\
  parse_json_object_from_text text = (parsed, ok).
Proof.
  cbv zeta.
  assert (Hstrip : parse_json_object_with_repair (strip text)
                   = parse_json_object_with_repair text).
  { unfold parse_json_object_with_repair. rewrite strip_idempotent. reflexivity. }
  assert (Hfrom : parse_json_object_from_text text
                  = (fst (fst (parse_json_object_with_repair text)),
                     snd (fst (parse_json_object_with_repair text)))).
  { unfold parse_json_object_from_text.
    destruct (parse_json_object_with_repair text) as [[p o] k]. reflexivity. }
  split; [|split; [|split; [|split; [exact Hstrip | exact Hfrom]]]];
    clear Hstrip Hfrom; unfold parse_json_object_with_repair;
    destruct (is_empty (strip text));
    try destruct (json_loads rt (strip text)) as [[| | | | | |d]|];
    try destruct (extract_first_json_object (strip text)) as [candidate|];
    try destruct (json_loads rt candidate) as [[| | | | | |d']|];
    simpl; try (split; [discriminate | intros [? ?]; discriminate]);
    try (split; discriminate); try (split; eauto); try tauto; try discriminate.
Qed.

(** ** What normalization keeps *)

Lemma normalize_category_fst (category text : string) (w w' : list string) :
  fst (_normalize_category category text w) = fst (_normalize_category category text w').
Proof.
  unfold _normalize_category.
  repeat match goal with
         | |- context [if ?c then _ else _] => destruct c
         | |- context [match ?c with Some _ => _ | None => _ end] => destruct c
         end; reflexivity.
Qed.

Lemma normalize_priority_fst (priority : string) (w w' : list string) :
  fst (_normalize_priority priority w) = fst (_normalize_priority priority w').
Proof.
  unfold _normalize_priority.
  repeat match goal with
         | |- context [if ?c then _ else _] => destruct c
         | |- context [match ?c with Some _ => _ | None => _ end] => destruct c
         end; reflexivity.
Qed.

Lemma normalize_device_fst (value : pyval) (text : string) (w w' : list string) :
  fst (_normalize_device value text w) = fst (_normalize_device value text w').
Proof.
  unfold _normalize_device.
  repeat match goal with
         | |- context [if ?c then _ else _] => destruct c
         | |- context [match ?c with Some _ => _ | None => _ end] => destruct c
         end; reflexivity.
Qed.

(** The text that [_ensure_text_key] reads under a key. *)
Lemma ensure_text_key_fst (d : dict) (key default : string) (w : list string) :
  exists w',
    _ensure_text_key d key default w
    = (ensured_text d key default, dset d key (PStr (ensured_text d key default)), w').
Proof.
  unfold _ensure_text_key, ensured_text.
  destruct (get d key); try (eexists; reflexivity);
    destruct (is_empty (strip _)); eexists; reflexivity.
Qed.

(** The three labels of the normalized output are functions of the
    candidate's own labels and of the ticket text. *)
Lemma normalize_output_labels (candidate : dict) (input_text : string) :
  let out := fst (normalize_output candidate input_text) in
  dget out "category"
  = Some (PStr (fst (_normalize_category (ensured_text candidate "category" "Software")
                                         (lower input_text) []))) /\
  dget out "priority"
  = Some (PStr (fst (_normalize_priority (ensured_text candidate "priority" "P3") []))) /\
  dget out "device"
  = Some (PStr (fst (_normalize_device (get candidate "device") (lower input_text) []))).
Proof.
  cbv zeta. unfold normalize_output.
  destruct (ensure_text_key_fst candidate "category" "Software" []) as (w1 & E1).
  rewrite E1. set (c0 := ensured_text candidate "category" "Software").
  destruct (ensure_text_key_fst (dset candidate "category" (PStr c0)) "priority" "P3" w1)
    as (w2 & E2).
  rewrite E2.
  assert (Hp0 : ensured_text (dset candidate "category" (PStr c0)) "priority" "P3"
                = ensured_text candidate "priority" "P3").
  { unfold ensured_text, get. rewrite dget_dset_neq by reflexivity. reflexivity. }
  rewrite Hp0. set (p0 := ensured_text candidate "priority" "P3").
  destruct (ensure_text_key_fst (dset (dset candidate "category" (PStr c0)) "priority" (PStr p0))
              "summary" "" w2) as (w3 & E3).
  rewrite E3. clear E1 E2 E3 Hp0.
  set (s0 := ensured_text _ "summary" "").
  destruct (has_key _ "needs_clarification"); cbn [negb]; cbv beta iota;
    destruct (has_key _ "missing_fields"); cbn [negb]; cbv beta iota.
  all: match goal with
       | |- context [_normalize_category ?c ?t ?w] =>
           rewrite (surjective_pairing (_normalize_category c t w));
           rewrite (normalize_category_fst c t w [])
       end.
  all: match goal with
       | |- context [_normalize_priority ?p ?w] =>
           rewrite (surjective_pairing (_normalize_priority p w));
           rewrite (normalize_priority_fst p w [])
       end.
  all: match goal with
       | |- context [_normalize_device ?v ?t ?w] =>
           rewrite (surjective_pairing (_normalize_device v t w));
           rewrite (normalize_device_fst v t w []);
           replace v with (get candidate "device") by (unfold get; dsimp; reflexivity)
       end.
  all: match goal with
       | |- context [_normalize_missing_fields ?v ?w] =>
           destruct (_normalize_missing_fields v w) as [mf w9]
       end.
  all: match goal with
       | |- context [_normalize_bool ?x] => destruct (_normalize_bool x)
       end.
  all: destruct mf as [|x xs]; cbn [negb is_nil andb fst]; cbv beta iota; cbn [fst].
  all: dsimp; repeat split; reflexivity.
Qed.

(** X19.  [normalize_output] keeps a label that is already valid: a
    category, priority or device of the candidate that is a string of the
    allowed vocabulary is the category, priority or device of the output,
    whatever the ticket text says and whatever the other fields hold.  In
    particular a device given as [Unknown] stays [Unknown] even when the
    text names a device. *)
Theorem normalize_output_keeps_valid_labels
    (candidate : dict) (input_text : string) (label : string) :
  let out := fst (normalize_output candidate input_text) in
  (dget candidate "category" = Some (PStr label) -> mem label ALLOWED_CATEGORIES = true ->
   dget out "category" = Some (PStr label)) /\
  (dget candidate "priority" = Some (PStr label) -> mem label ALLOWED_PRIORITIES = true ->
   dget out "priority" = Some (PStr label)) /\
  (dget candidate "device" = Some (PStr label) -> mem label ALLOWED_DEVICES = true ->
   dget out "device" = Some (PStr label)).
Proof.
  destruct (normalize_output_labels candidate input_text) as (Hc & Hp & Hdv).
  cbv zeta. rewrite Hc, Hp, Hdv. split; [|split]; intros Hget Hmem.
  - destruct (allowed_category_clean _ Hmem) as [Hs Hne].
    unfold ensured_text, get. rewrite Hget. cbn [py_str]. rewrite Hs.
    apply is_empty_false in Hne. rewrite Hne.
    replace (match PStr label with PNone => "Software" | _ => label end) with label
      by reflexivity.
    unfold _normalize_category. rewrite Hs, Hmem. reflexivity.
  - destruct (allowed_priority_clean _ Hmem) as (Hs & Hne & Hu).
    unfold ensured_text, get. rewrite Hget. cbn [py_str]. rewrite Hs.
    apply is_empty_false in Hne. rewrite Hne.
    replace (match PStr label with PNone => "P3" | _ => label end) with label by reflexivity.
    unfold _normalize_priority. rewrite Hs, Hu, Hmem. reflexivity.
  - unfold get. rewrite Hget. rewrite (normalize_device_fixed _ _ _ Hmem). reflexivity.
Qed.

Lemma ensure_text_key_warnings (d : dict) (key default : string) (w : list string) :
  In ("defaulted_" ++ key) early_warnings -> incl w early_warnings ->
  incl (snd (_ensure_text_key d key default w)) early_warnings.
Proof.
  intros Hkey Hw. unfold _ensure_text_key.
  destruct (get d key); try (apply incl_snoc; assumption);
    destruct (is_empty (strip _)); solve [exact Hw | apply incl_snoc; assumption].
Qed.

(** X20.  The warnings of [normalize_output] hold no duplicate and come
    from a fixed vocabulary of sixteen codes: the fourteen defaulting and
    mapping codes and the two consistency codes.  The two consistency
    codes exclude each other: an output whose flag was coerced to true is
    never also reported as lacking missing fields. *)
Theorem normalize_output_warnings (candidate : dict) (input_text : string) :
  let w := snd (normalize_output candidate input_text) in
  NoDup w /\
  incl w (early_warnings ++ ["coerced_needs_clarification_true";
                             "needs_clarification_without_missing_fields"])%list /\
  ~ (In "coerced_needs_clarification_true" w /\
     In "needs_clarification_without_missing_fields" w).
Proof.
  cbv zeta. unfold normalize_output.
  pose proof (ensure_text_key_warnings candidate "category" "Software" []
                ltac:(early) ltac:(intros x [])) as H1.
  destruct (_ensure_text_key candidate "category" "Software" []) as [[c0 n1] w1].
  pose proof (ensure_text_key_warnings n1 "priority" "P3" w1 ltac:(early) H1) as H2.
  destruct (_ensure_text_key n1 "priority" "P3" w1) as [[p0 n2] w2].
  pose proof (ensure_text_key_warnings n2 "summary" "" w2 ltac:(early) H2) as H3.
  destruct (_ensure_text_key n2 "summary" "" w2) as [[s0 n3] w3].
  cbn [snd] in H1, H2, H3. clear H1 H2.
  set (r4 := if negb (has_key n3 "needs_clarification") then _ else _).
  assert (H4 : incl (snd r4) early_warnings).
  { subst r4. destruct (negb _); [apply incl_snoc; [exact H3 | early] | exact H3]. }
  destruct r4 as [n4 w4]. cbn [snd] in H4. clear H3.
  set (r5 := if negb (has_key n4 "missing_fields") then _ else _).
  assert (H5 : incl (snd r5) early_warnings).
  { subst r5. destruct (negb _); [apply incl_snoc; [exact H4 | early] | exact H4]. }
  destruct r5 as [n5 w5]. cbn [snd] in H5. clear H4.
  pose proof (normalize_category_warnings c0 (lower input_text) w5 H5) as H6.
  destruct (_normalize_category c0 (lower input_text) w5) as [c w6]. cbn [snd] in H6.
  pose proof (normalize_priority_warnings p0 w6 H6) as H7.
  destruct (_normalize_priority p0 w6) as [p w7]. cbn [snd] in H7.
  match goal with
  | |- context [_normalize_device ?v ?t w7] =>
      pose proof (normalize_device_warnings v t w7 H7) as H8;
      destruct (_normalize_device v t w7) as [dv w8]
  end.
  cbn [snd] in H8.
  match goal with
  | |- context [_normalize_missing_fields ?v w8] =>
      pose proof (normalize_missing_fields_warnings v w8 H8) as H9;
      destruct (_normalize_missing_fields v w8) as [mf w9]
  end.
  cbn [snd] in H9. clear H5 H6 H7 H8.
  match goal with
  | |- context [_normalize_bool ?x] => destruct (_normalize_bool x)
  end.
  all: destruct mf as [|x xs]; cbn [negb is_nil andb snd]; cbv beta iota; cbn [snd].
  all: (split; [apply dedupe_from_NoDup|]).
  all: assert (Hno : forall y, In y w9 ->
                       y <> "coerced_needs_clarification_true" /\
                       y <> "needs_clarification_without_missing_fields")
         by (intros y Hy; apply H9 in Hy; simpl in Hy;
             repeat (destruct Hy as [<-|Hy]; [split; discriminate|]); destruct Hy).
  all: split;
    [ intros y Hy; apply (proj1 (dedupe_In _ _)) in Hy;
      repeat match type of Hy with
             | In _ (_ ++ _)%list => apply in_app_or in Hy; destruct Hy as [Hy|Hy]
             end;
      apply in_or_app; solve [left; apply H9; exact Hy | right; simpl in Hy; simpl; tauto]
    | intros [Ha Hb];
      apply (proj1 (dedupe_In _ _)) in Ha; apply (proj1 (dedupe_In _ _)) in Hb;
      repeat match type of Ha with
             | In _ (_ ++ _)%list => apply in_app_or in Ha; destruct Ha as [Ha|Ha]
             end;
      repeat match type of Hb with
             | In _ (_ ++ _)%list => apply in_app_or in Hb; destruct Hb as [Hb|Hb]
             end;
      try (destruct (Hno _ Ha) as [? ?]; congruence);
      try (destruct (Hno _ Hb) as [? ?]; congruence);
      simpl in Ha, Hb; intuition discriminate ].
Qed.

(** ** The dummy provider and the runner *)

Lemma flip_priority_changes (priority : string) :
  String.eqb priority (_flip_priority priority) = false /\
  (_flip_priority priority = "P2" \/ _flip_priority priority = "P3").
Proof.
  unfold _flip_priority.
  destruct (String.eqb priority "P2") eqn:E2.
  - apply String.eqb_eq in E2. subst. split; [reflexivity | right; reflexivity].
  - destruct (String.eqb priority "P3") eqn:E3.
    + apply String.eqb_eq in E3. subst. split; [reflexivity | left; reflexivity].
    + split; [exact E2 | left; reflexivity].
Qed.

Lemma normalize_keeps_priority (candidate : dict) (input_text label : string) :
  dget candidate "priority" = Some (PStr label) -> mem label ALLOWED_PRIORITIES = true ->
  dget (fst (normalize_output candidate input_text)) "priority" = Some (PStr label).
Proof.
  intros Hget Hmem.
  destruct (normalize_output_labels candidate input_text) as (_ & Hp & _).
  cbv zeta in Hp. rewrite Hp.
  destruct (allowed_priority_clean _ Hmem) as (Hs & Hne & Hu).
  unfold ensured_text, get. rewrite Hget. cbn [py_str]. rewrite Hs.
  apply is_empty_false in Hne. rewrite Hne.
  unfold _normalize_priority. rewrite Hs, Hu, Hmem. reflexivity.
Qed.

(** X21.  [_flip_priority] never returns its argument and always returns
    [P2] or [P3].  So when the dummy provider flips the priority, the
    record that the runner normalizes and scores carries the flipped
    priority and is scored as a wrong priority, whatever the expected
    record holds under [priority], and whether or not the category was
    changed as well. *)
Theorem dummy_priority_flip_is_scored
    (item expected actual : dict) (flip_category : bool) (input_text : string)
    (allowed_missing_fields : option (list string)) :
  _coerce_expected (get item "expected") = Some expected ->
  dummy_actual item true flip_category = Some actual ->
  let flipped := _flip_priority (py_str (get_default expected "priority" (PStr ""))) in
  let normalized := fst (normalize_output actual input_text) in
  let score := score_case expected (PDict normalized) input_text allowed_missing_fields in
  get expected "priority" <> PStr flipped /\
  In flipped ["P2"; "P3"] /\
  get normalized "priority" = PStr flipped /\
  priority_correct score = false /\
  overall_pass score = false /\
  In "wrong_priority" (failure_reasons score).
Proof.
  intros Hexp Hact. cbv zeta.
  unfold dummy_actual in Hact. rewrite Hexp in Hact. injection Hact as Hact.
  destruct (flip_priority_changes (py_str (get_default expected "priority" (PStr ""))))
    as [Hne Hin].
  assert (Hdiff : get expected "priority"
                  <> PStr (_flip_priority (py_str (get_default expected "priority" (PStr ""))))).
  { intros Heq. unfold get_default, get in *.
    destruct (dget expected "priority") as [v|]; [|discriminate].
    destruct v as [| | | |s| |]; try discriminate Heq.
    cbn [py_str] in Hne, Heq. apply String.eqb_neq in Hne. apply Hne.
    injection Heq as Heq. exact Heq. }
  remember (_flip_priority (py_str (get_default expected "priority" (PStr "")))) as flipped
    eqn:Hfl.
  clear Hfl Hne.
  set (normalized := fst (normalize_output actual input_text)).
  assert (Hmem : mem flipped ALLOWED_PRIORITIES = true)
    by (destruct Hin as [-> | ->]; reflexivity).
  assert (Hget : dget actual "priority" = Some (PStr flipped)).
  { subst actual. destruct flip_category; dsimp; reflexivity. }
  pose proof (normalize_keeps_priority actual input_text flipped Hget Hmem) as Hnorm.
  fold normalized in Hnorm.
  assert (Hwrong : _field_correct expected (PDict normalized) "priority" = false).
  { unfold _field_correct. unfold get at 2. rewrite Hnorm.
    destruct (get expected "priority") as [| | | |s| |] eqn:E; try reflexivity.
    cbn [py_eq]. apply String.eqb_neq. intros ->. apply Hdiff. reflexivity. }
  split; [exact Hdiff|]. split; [destruct Hin as [-> | ->]; simpl; tauto|].
  split; [unfold get; rewrite Hnorm; reflexivity|].
  unfold score_case.
  destruct (if is_dict (PDict normalized) then _ else _) as [sv se].
  destruct (_hallucination_checks (PDict normalized)) as [h hr].
  cbv zeta. cbn [priority_correct overall_pass failure_reasons]. rewrite Hwrong.
  split; [reflexivity|]. split.
  - cbn [is_dict].
    repeat match goal with
           | |- context [_field_correct ?a ?b ?c] => destruct (_field_correct a b c)
           end; destruct sv, h; reflexivity.
  - apply dedupe_In. cbn [negb]. unfold append_if.
    repeat match goal with |- context [if ?c then _ else _] => destruct c end;
      repeat (apply in_or_app; first [right; simpl; tauto | left]).
Qed.

Lemma ensured_text_stripped (d : dict) (key : string) :
  strip (ensured_text d key "") = ensured_text d key "".
Proof.
  unfold ensured_text.
  destruct (get d key); try reflexivity;
    destruct (is_empty (strip _)); solve [reflexivity | apply strip_idempotent].
Qed.

(** The summary, the missing fields and the clarification flag of the
    normalized output, as functions of the candidate. *)
Lemma normalize_output_rest (candidate : dict) (input_text : string) :
  let out := fst (normalize_output candidate input_text) in
  dget out "summary" = Some (PStr (ensured_text candidate "summary" "")) /\
  dget out "missing_fields" = Some (py_strs (candidate_missing_fields candidate)) /\
  dget out "needs_clarification"
  = Some (PBool (candidate_needs_clarification candidate
                 || negb (is_nil (candidate_missing_fields candidate)))).
Proof.
  cbv zeta. unfold normalize_output, candidate_missing_fields, candidate_needs_clarification.
  destruct (ensure_text_key_fst candidate "category" "Software" []) as (w1 & E1).
  rewrite E1. set (c0 := ensured_text candidate "category" "Software").
  destruct (ensure_text_key_fst (dset candidate "category" (PStr c0)) "priority" "P3" w1)
    as (w2 & E2).
  rewrite E2. set (p0 := ensured_text _ "priority" "P3").
  destruct (ensure_text_key_fst (dset (dset candidate "category" (PStr c0)) "priority" (PStr p0))
              "summary" "" w2) as (w3 & E3).
  rewrite E3. clear E1 E2 E3.
  assert (Hs0 : ensured_text (dset (dset candidate "category" (PStr c0)) "priority" (PStr p0))
                  "summary" ""
                = ensured_text candidate "summary" "").
  { unfold ensured_text, get. dsimp. reflexivity. }
  rewrite Hs0. pose proof (ensured_text_stripped candidate "summary") as Hstrip.
  set (s0 := ensured_text candidate "summary" "") in *.
  unfold has_key, get_default. dsimp.
  destruct (dget candidate "needs_clarification") as [ncv|] eqn:En;
    destruct (dget candidate "missing_fields") as [mfv|] eqn:Em;
    cbn [negb]; cbv beta iota; dsimp; try rewrite En; try rewrite Em;
    cbn [negb]; cbv beta iota.
  all: repeat match goal with
       | |- context [_normalize_category ?c ?t ?w] => destruct (_normalize_category c t w)
       | |- context [_normalize_priority ?p ?w] => destruct (_normalize_priority p w)
       | |- context [_normalize_device ?v ?t ?w] => destruct (_normalize_device v t w)
       end.
  all: unfold get; dsimp; try rewrite En; try rewrite Em; cbv beta iota.
  all: match goal with
       | |- context [_normalize_missing_fields ?v ?w] =>
           rewrite (surjective_pairing (_normalize_missing_fields v w));
           rewrite (normalize_missing_fields_fst v w)
       end.
  all: cbv beta iota; cbn [fst snd]; unfold get; dsimp; try rewrite En; try rewrite Em;
    cbv beta iota.
  all: match goal with
       | |- context [fst (_normalize_missing_fields ?v [])] =>
           destruct (fst (_normalize_missing_fields v [])) as [|x xs]
       end.
  all: match goal with
       | |- context [_normalize_bool ?x] => destruct (_normalize_bool x)
       end.
  all: cbn [negb is_nil andb orb fst py_str]; cbv beta iota; cbn [fst]; dsimp.
  all: rewrite Hstrip; repeat split; reflexivity.
Qed.

Lemma normalize_keeps_category (candidate : dict) (input_text label : string) :
  dget candidate "category" = Some (PStr label) -> mem label ALLOWED_CATEGORIES = true ->
  dget (fst (normalize_output candidate input_text)) "category" = Some (PStr label).
Proof.
  intros Hget Hmem.
  destruct (normalize_output_labels candidate input_text) as (Hc & _ & _).
  cbv zeta in Hc. rewrite Hc.
  destruct (allowed_category_clean _ Hmem) as [Hs Hne].
  unfold ensured_text, get. rewrite Hget. cbn [py_str]. rewrite Hs.
  apply is_empty_false in Hne. rewrite Hne.
  unfold _normalize_category. rewrite Hs, Hmem. reflexivity.
Qed.

Lemma normalize_keeps_device (candidate : dict) (input_text label : string) :
  dget candidate "device" = Some (PStr label) -> mem label ALLOWED_DEVICES = true ->
  dget (fst (normalize_output candidate input_text)) "device" = Some (PStr label).
Proof.
  intros Hget Hmem.
  destruct (normalize_output_labels candidate input_text) as (_ & _ & Hdv).
  cbv zeta in Hdv. rewrite Hdv.
  unfold get. rewrite Hget. rewrite (normalize_device_fixed _ _ _ Hmem). reflexivity.
Qed.

(** The record that [build_output_from_signals] returns. *)
Lemma build_output_record
    (signals : dict) (input_text : string)
    (allowed_missing_fields : option (list string)) (strict_missing_fields : bool) :
  let category := infer_category signals input_text in
  let missing_fields :=
    infer_missing_fields signals input_text allowed_missing_fields strict_missing_fields in
  let needs_clarification :=
    infer_needs_clarification signals input_text (Some missing_fields) (Some category) in
  let summary := strip (_signal_text signals "summary") in
  fst (build_output_from_signals signals input_text allowed_missing_fields
         strict_missing_fields)
  = [("category", PStr category);
     ("priority", PStr (infer_priority signals input_text));
     ("device", PStr (infer_device (_signal_text signals "device_hint") input_text));
     ("needs_clarification", PBool needs_clarification);
     ("missing_fields", py_strs (if needs_clarification then missing_fields else []));
     ("summary", PStr (if is_empty summary then take 160 (strip input_text) else summary))]
  /\ (missing_fields = [] -> needs_clarification = false).
Proof.
  intros category mf nc summary. unfold build_output_from_signals.
  fold category. fold mf. fold nc. fold summary.
  assert (Hnil : mf = [] -> nc = false).
  { intros H. subst nc. rewrite H. unfold infer_needs_clarification.
    destruct (is_empty category); reflexivity. }
  split; [|exact Hnil].
  destruct mf as [|f fs] eqn:Emf.
  - rewrite (Hnil eq_refl). cbn [is_nil negb andb].
    destruct (is_empty summary);
      rewrite (clamp_allowed _ _ _ _ _ (infer_category_allowed signals input_text)),
        (clamp_allowed _ _ _ _ _ (infer_priority_allowed signals input_text)),
        (clamp_allowed _ _ _ _ _ (infer_device_in_vocabulary _ input_text));
      reflexivity.
  - clear Hnil. destruct nc; cbn [is_nil negb andb]; destruct (is_empty summary);
      rewrite (clamp_allowed _ _ _ _ _ (infer_category_allowed signals input_text)),
        (clamp_allowed _ _ _ _ _ (infer_priority_allowed signals input_text)),
        (clamp_allowed _ _ _ _ _ (infer_device_in_vocabulary _ input_text));
      reflexivity.
Qed.

Lemma infer_missing_fields_shape
    (signals : dict) (input_text : string)
    (allowed_missing_fields : option (list string)) (strict_missing_fields : bool) :
  infer_missing_fields signals input_text allowed_missing_fields strict_missing_fields = []
  \/ exists fields,
       infer_missing_fields signals input_text allowed_missing_fields strict_missing_fields
       = normalize_missing_fields_to_canonical fields allowed_missing_fields
           strict_missing_fields.
Proof.
  unfold infer_missing_fields.
  destruct (String.eqb _ "Security" && _); [right; eauto|].
  destruct (mem _ _ && _); [left; reflexivity|].
  destruct (missing_field_candidates _ _ _); right; eauto.
Qed.

(** X22.  Normalizing the record that the decision engine built changes
    nothing but the summary, which is trimmed once more: category,
    priority, device and the clarification flag come out as they went in.
    In strict mode, when the allowed field names are themselves trimmed
    and not empty, the missing-field list is unchanged as well. *)
Theorem engine_output_through_normalization
    (signals : dict) (input_text : string)
    (allowed_missing_fields : option (list string)) (strict_missing_fields : bool) :
  let out := fst (build_output_from_signals signals input_text allowed_missing_fields
                    strict_missing_fields) in
  let out' := fst (normalize_output out input_text) in
  dget out' "category" = dget out "category" /\
  dget out' "priority" = dget out "priority" /\
  dget out' "device" = dget out "device" /\
  dget out' "needs_clarification" = dget out "needs_clarification" /\
  dget out' "summary" = Some (PStr (strip (py_str (get out "summary")))) /\
  (strict_missing_fields = true ->
   Forall (fun x => strip x = x /\ x <> "")
          (_resolve_allowed_missing_fields allowed_missing_fields) ->
   dget out' "missing_fields" = dget out "missing_fields").
Proof.
  destruct (build_output_record signals input_text allowed_missing_fields
              strict_missing_fields) as [Hrec Hnil].
  cbv zeta in Hrec, Hnil. cbv zeta.
  set (out := fst (build_output_from_signals _ _ _ _)) in *.
  set (mf := infer_missing_fields _ _ _ _) in *.
  set (nc := infer_needs_clarification _ _ _ _) in *.
  set (summary := if is_empty _ then _ else _) in *.
  assert (Hc : dget out "category" = Some (PStr (infer_category signals input_text)))
    by (rewrite Hrec; reflexivity).
  assert (Hp : dget out "priority" = Some (PStr (infer_priority signals input_text)))
    by (rewrite Hrec; reflexivity).
  assert (Hd : dget out "device"
               = Some (PStr (infer_device (_signal_text signals "device_hint") input_text)))
    by (rewrite Hrec; reflexivity).
  assert (Hn : dget out "needs_clarification" = Some (PBool nc)) by (rewrite Hrec; reflexivity).
  assert (Hm : dget out "missing_fields" = Some (py_strs (if nc then mf else [])))
    by (rewrite Hrec; reflexivity).
  assert (Hs : dget out "summary" = Some (PStr summary)) by (rewrite Hrec; reflexivity).
  destruct (normalize_output_rest out input_text) as (Hs' & Hm' & Hn').
  cbv zeta in Hs', Hm', Hn'.
  assert (Hcand : candidate_missing_fields out
                  = _dedupe (kept_items (List.map PStr (if nc then mf else [])))).
  { unfold candidate_missing_fields, get_default. rewrite Hm. reflexivity. }
  split; [rewrite Hc; apply normalize_keeps_category;
          [exact Hc | apply infer_category_allowed]|].
  split; [rewrite Hp; apply normalize_keeps_priority;
          [exact Hp | apply infer_priority_allowed]|].
  split; [rewrite Hd; apply normalize_keeps_device;
          [exact Hd | apply infer_device_in_vocabulary]|].
  split; [|split].
  - rewrite Hn', Hn, Hcand. unfold candidate_needs_clarification, get_default. rewrite Hn.
    destruct nc; reflexivity.
  - rewrite Hs'. unfold ensured_text, get. rewrite Hs. cbn [py_str].
    destruct (is_empty (strip summary)) eqn:E; [|reflexivity].
    destruct (strip summary); [reflexivity | discriminate].
  - intros Hstrict Hclean. rewrite Hm', Hm, Hcand.
    destruct nc; [|reflexivity].
    assert (Hmf : Forall (fun x => strip x = x /\ x <> "") mf /\ NoDup mf).
    { destruct (infer_missing_fields_shape signals input_text allowed_missing_fields
                  strict_missing_fields) as [H|[fields H]]; fold mf in H; rewrite H.
      - split; constructor.
      - split; [|apply canonical_NoDup].
        rewrite Hstrict. apply Forall_forall. intros x Hx.
        pose proof (canonical_strict_allowed fields allowed_missing_fields) as Hall.
        apply (proj1 (Forall_forall _ _) Hall) in Hx. apply mem_In in Hx.
        exact (proj1 (Forall_forall _ _) Hclean x Hx). }
    destruct Hmf as [Hc1 Hn1].
    rewrite (kept_items_fixed mf Hc1).
    unfold _dedupe. rewrite (dedupe_from_fixed mf [] Hn1 (fun _ _ => eq_refl)). reflexivity.
Qed.

Lemma normalized_output_valid (candidate : dict) (input_text : string) :
  validate_required_fields (PDict (fst (normalize_output candidate input_text))) = (true, []).
Proof.
  destruct (normalize_output_shape candidate input_text)
    as (c & p & dv & s & nc & mf & Hc & _ & Hp & _ & Hdv & _ & Hs & _ & Hnc & Hmf & _).
  cbv zeta in Hc, Hp, Hdv, Hs, Hnc, Hmf.
  unfold validate_required_fields, REQUIRED_OUTPUT_FIELDS. cbn [field_errors].
  rewrite Hc, Hp, Hdv, Hs, Hnc, Hmf. reflexivity.
Qed.

Lemma snapshot_loop_lookup (keys : list string) (signals snapshot : dict) (key : string) :
  dget (snapshot_loop keys signals snapshot) key
  = if mem key keys
    then match dget signals key with
         | Some value => Some value
         | None => dget snapshot key
         end
    else dget snapshot key.
Proof.
  revert snapshot. induction keys as [|k rest IH]; intros snapshot; [reflexivity|].
  cbn [snapshot_loop mem]. rewrite IH.
  destruct (String.eqb key k) eqn:E.
  - apply String.eqb_eq in E. subst k. cbn [orb].
    destruct (dget signals key) as [value|] eqn:Es.
    + destruct (mem key rest); [reflexivity | apply dget_dset_eq].
    + destruct (mem key rest); reflexivity.
  - cbn [orb]. assert (Hneq : String.eqb k key = false)
      by (rewrite String.eqb_sym; exact E).
    destruct (dget signals k) as [value|]; [|reflexivity].
    rewrite (dget_dset_neq _ _ _ _ Hneq). reflexivity.
Qed.

(** X23.  One case of [run_eval].  When the provider returned an object,
    the value that is scored is an object that passes the schema, so the
    score is valid on both counts and the event keeps the status [ok];
    when it returned anything else, that value is scored as it is, no
    normalization warning is produced, and an [ok] status becomes the
    error [InvalidJSON].  The error type [SchemaValidationError] is never
    produced by the runner.  The normalization warnings hold no
    duplicate, and a signal snapshot is recorded exactly for the [ollama]
    provider on a payload that looks like signals; it then holds the
    coerced value of each of its eleven keys and nothing else. *)
Theorem run_case_scores_valid_records
    (provider : string) (expected : dict) (actual : pyval) (input_text : string)
    (allowed_missing_fields : list string) :
  let r := normalize_actual provider actual input_text allowed_missing_fields in
  let normalized_actual := fst (fst r) in
  let normalization_warnings := snd (fst r) in
  let key_signals := snd r in
  let score :=
    score_case expected normalized_actual input_text (Some allowed_missing_fields) in
  (is_dict actual = true ->
   json_valid score = true /\ schema_valid score = true /\
   event_status "ok" None None score = ("ok", None, None)) /\
  (is_dict actual = false ->
   normalized_actual = actual /\ normalization_warnings = [] /\
   event_status "ok" None None score
   = ("error", Some "InvalidJSON", Some "Output is not valid JSON object")) /\
  (forall status error_type error_msg,
      error_type <> Some "SchemaValidationError" ->
      snd (fst (event_status status error_type error_msg score))
      <> Some "SchemaValidationError") /\
  NoDup normalization_warnings /\
  (key_signals = None <->
   String.eqb provider "ollama" && looks_like_ticket_signals actual = false) /\
  (forall d snapshot key,
      actual = PDict d -> key_signals = Some snapshot ->
      dget snapshot key
      = if mem key SNAPSHOT_KEYS then dget (coerce_ticket_signals d) key else None).
Proof.
  cbv zeta.
  assert (Hvalid : is_dict actual = true ->
            exists candidate w ks,
              normalize_actual provider actual input_text allowed_missing_fields
              = (PDict (fst (normalize_output candidate input_text)), _dedupe_warnings w, ks)).
  { destruct actual as [| | | | | |d]; try discriminate. intros _.
    unfold normalize_actual.
    destruct (String.eqb provider "ollama" && looks_like_ticket_signals (PDict d)).
    - destruct (build_output_from_signals _ _ _ _) as [out w].
      rewrite (surjective_pairing (normalize_output out input_text)).
      eexists; eexists; eexists; reflexivity.
    - rewrite (surjective_pairing (normalize_output d input_text)).
      eexists; eexists; eexists; reflexivity. }
  assert (Hscore : forall candidate,
            let score := score_case expected
                           (PDict (fst (normalize_output candidate input_text)))
                           input_text (Some allowed_missing_fields) in
            json_valid score = true /\ schema_valid score = true).
  { intros candidate. unfold score_case. cbn [is_dict].
    rewrite (normalized_output_valid candidate input_text).
    destruct (_hallucination_checks _). split; reflexivity. }
  split; [|split; [|split; [|split; [|split]]]].
  - intros Hd. destruct (Hvalid Hd) as (candidate & w & ks & ->). cbn [fst snd].
    destruct (Hscore candidate) as [Hj Hs]. cbv zeta in Hj, Hs.
    split; [exact Hj|]. split; [exact Hs|].
    unfold event_status. rewrite Hj, Hs. reflexivity.
  - intros Hd. destruct actual; try discriminate; repeat split; reflexivity.
  - intros status error_type error_msg Hne.
    destruct (is_dict actual) eqn:Hd.
    + destruct (Hvalid eq_refl) as (candidate & w & ks & ->). cbn [fst snd].
      destruct (Hscore candidate) as [Hj Hs]. cbv zeta in Hj, Hs.
      unfold event_status. rewrite Hj, Hs. cbn [negb orb]. rewrite andb_false_r. exact Hne.
    + destruct actual; try discriminate; unfold event_status; cbn;
        destruct (String.eqb status "ok"); cbn; solve [exact Hne | discriminate].
  - destruct (is_dict actual) eqn:Hd.
    + destruct (Hvalid eq_refl) as (candidate & w & ks & ->). cbn [fst snd].
      apply dedupe_from_NoDup.
    + destruct actual; try discriminate; constructor.
  - destruct actual as [| | | | | |d]; try (cbn; rewrite andb_false_r; tauto).
    unfold normalize_actual.
    destruct (String.eqb provider "ollama" && looks_like_ticket_signals (PDict d)).
    + destruct (build_output_from_signals _ _ _ _) as [out w].
      destruct (normalize_output out input_text). cbn. split; discriminate.
    + destruct (normalize_output d input_text). cbn. tauto.
  - intros d snapshot key -> Hks. unfold normalize_actual in Hks.
    destruct (String.eqb provider "ollama" && looks_like_ticket_signals (PDict d)).
    + destruct (build_output_from_signals _ _ _ _) as [out w].
      destruct (normalize_output out input_text). cbv beta iota in Hks. cbn [snd] in Hks.
      injection Hks as <-.
      unfold _signal_snapshot. rewrite snapshot_loop_lookup.
      destruct (mem key SNAPSHOT_KEYS); [|reflexivity].
      destruct (dget (coerce_ticket_signals d) key); reflexivity.
    + destruct (normalize_output d input_text). cbn in Hks. discriminate.
Qed.

Lemma unknown_fields_strings (fields : list pyval) (allowed : list string) :
  Forall (fun field => is_str field = true) fields ->
  (forall s, In (PStr s) fields -> mem s allowed = true) ->
  unknown_fields fields allowed = [].
Proof.
  induction fields as [|field rest IH]; intros Hstr Hin; [reflexivity|].
  inversion Hstr as [|? ? Hf Hrest]; subst.
  destruct field as [| | | |s| |]; try discriminate Hf.
  cbn [unknown_fields]. rewrite (Hin s (or_introl eq_refl)).
  apply IH; [exact Hrest | intros s' Hs'; apply Hin; right; exact Hs'].
Qed.

Lemma in_string_items (s : string) (fields : list pyval) :
  In s (List.flat_map (fun field => match field with PStr s => [s] | _ => [] end) fields)
  <-> In (PStr s) fields.
Proof.
  rewrite in_flat_map. split.
  - intros (field & Hin & Hs). destruct field as [| | | |s0| |]; simpl in Hs; try contradiction.
    destruct Hs as [<-|[]]. exact Hin.
  - intros Hin. exists (PStr s). split; [exact Hin | left; reflexivity].
Qed.

(** X24.  The vocabulary that the runner builds with
    [_build_allowed_missing_fields] is exactly the set of strings that
    the expected records of the dataset list as missing fields: each of
    them is in it, and each of its members comes from a row.  So scoring
    an expected record whose missing fields are all strings against this
    vocabulary finds no unknown missing field. *)
Theorem allowed_missing_fields_cover_dataset (dataset : list dict) (allowed : list string) :
  _build_allowed_missing_fields dataset = Some allowed ->
  (forall row, In row dataset ->
     exists expected,
       _coerce_expected (get row "expected") = Some expected /\
       (forall fields s,
           get expected "missing_fields" = PList fields -> In (PStr s) fields ->
           mem s allowed = true) /\
       (forall fields,
           get expected "missing_fields" = PList fields ->
           Forall (fun field => is_str field = true) fields ->
           _find_unknown_missing_fields (PDict expected) allowed = [])) /\
  (forall s, In s allowed ->
     exists row expected fields,
       In row dataset /\
       _coerce_expected (get row "expected") = Some expected /\
       get expected "missing_fields" = PList fields /\
       In (PStr s) fields).
Proof.
  revert allowed. induction dataset as [|row0 rest IH]; intros allowed Hbuild.
  - injection Hbuild as <-. split; [intros row []|intros s []].
  - cbn [_build_allowed_missing_fields] in Hbuild.
    destruct (_coerce_expected (get row0 "expected")) as [expected0|] eqn:E0; [|discriminate].
    destruct (_build_allowed_missing_fields rest) as [allowed0|]; [|discriminate].
    destruct (IH allowed0 eq_refl) as [IH1 IH2].
    assert (Hsub : forall s, In s allowed0 -> In s allowed).
    { intros s Hs. destruct (get expected0 "missing_fields");
        injection Hbuild as <-; try exact Hs. apply in_or_app. right. exact Hs. }
    assert (Hcover : forall row, In row (row0 :: rest) ->
              exists expected,
                _coerce_expected (get row "expected") = Some expected /\
                forall fields s,
                  get expected "missing_fields" = PList fields -> In (PStr s) fields ->
                  mem s allowed = true).
    { intros row [<-|Hrow].
      - exists expected0. split; [exact E0|]. intros fields s Hf Hs.
        rewrite Hf in Hbuild. injection Hbuild as <-. apply mem_In, in_or_app. left.
        apply in_string_items. exact Hs.
      - destruct (IH1 row Hrow) as (expected & He & Hin & _).
        exists expected. split; [exact He|]. intros fields s Hf Hs.
        apply mem_In, Hsub, mem_In. exact (Hin fields s Hf Hs). }
    split.
    + intros row Hrow. destruct (Hcover row Hrow) as (expected & He & Hin).
      exists expected. split; [exact He|]. split; [exact Hin|].
      intros fields Hf Hstr. unfold _find_unknown_missing_fields. rewrite Hf.
      apply unknown_fields_strings; [exact Hstr | intros s Hs; exact (Hin fields s Hf Hs)].
    + intros s Hs.
      assert (Hcases : In s allowed0 \/
                exists fields, get expected0 "missing_fields" = PList fields /\
                               In (PStr s) fields).
      { destruct (get expected0 "missing_fields") as [| | | | |fields|];
          injection Hbuild as <-; try (left; exact Hs).
        apply in_app_or in Hs. destruct Hs as [Hs|Hs]; [right | left; exact Hs].
        exists fields. split; [reflexivity | apply in_string_items; exact Hs]. }
      destruct Hcases as [H0|(fields & Hf & Hin)].
      * destruct (IH2 s H0) as (row & expected & fields & Hrow & He & Hf & Hin).
        exists row, expected, fields. repeat split; try assumption. right. exact Hrow.
      * exists row0, expected0, fields. repeat split; try assumption. left. reflexivity.
Qed.

(** ** Percentiles and gates *)

Lemma insert_sorted_In (x y : float) (l : list float) :
  In x (insert_sorted y l) <-> x = y \/ In x l.
Proof.
  induction l as [|z l IH]; simpl; [intuition|].
  destruct (PrimFloat.ltb y z); simpl; [intuition|]. rewrite IH. intuition.
Qed.

Lemma insert_sorted_length (y : float) (l : list float) :
  List.length (insert_sorted y l) = S (List.length l).
Proof.
  induction l as [|z l IH]; simpl; [reflexivity|].
  destruct (PrimFloat.ltb y z); simpl; [reflexivity | rewrite IH; reflexivity].
Qed.

Lemma fold_insert_In (x : float) (values acc : list float) :
  In x (List.fold_left (fun acc x => insert_sorted x acc) values acc)
  <-> In x values \/ In x acc.
Proof.
  revert acc. induction values as [|v values IH]; intros acc; simpl; [intuition|].
  rewrite IH, insert_sorted_In. intuition.
Qed.

Lemma fold_insert_length (values acc : list float) :
  List.length (List.fold_left (fun acc x => insert_sorted x acc) values acc)
  = List.length values + List.length acc.
Proof.
  revert acc. induction values as [|v values IH]; intros acc; simpl; [reflexivity|].
  rewrite IH, insert_sorted_length. lia.
Qed.

(** X25.  [sorted] keeps the samples: the sorted list has the length and
    the members of the list it was given.  So a percentile of a list that
    is not empty is one of its samples, never an interpolated value. *)
Theorem percentile_is_a_sample (values : list float) (percentile : Z) (v : float) :
  values <> [] ->
  _percentile values percentile = Some v ->
  In v values /\
  List.length (sorted values) = List.length values /\
  (forall x, In x (sorted values) <-> In x values).
Proof.
  intros Hne Hp.
  assert (Hin : forall x, In x (sorted values) <-> In x values).
  { intros x. unfold sorted. rewrite fold_insert_In. simpl. tauto. }
  assert (Hlen : List.length (sorted values) = List.length values).
  { unfold sorted. rewrite fold_insert_length. simpl. lia. }
  split; [|split; [exact Hlen | exact Hin]].
  unfold _percentile in Hp. destruct values as [|v0 rest]; [contradiction|].
  destruct (ceil _) as [c|]; [|discriminate].
  apply nth_error_In in Hp. apply Hin. exact Hp.
Qed.

Lemma update_limits_app (limits : GateLimits) (g1 g2 : list (string * float)) :
  update_limits limits (g1 ++ g2)%list = update_limits (update_limits limits g1) g2.
Proof.
  revert limits. induction g1 as [|[key value] g1 IH]; intros limits; [reflexivity|].
  cbn [update_limits app]. apply IH.
Qed.

Lemma update_limits_latency_only (limits : GateLimits) (value : float) :
  category_accuracy_min (update_limits limits [("latency_p95_ms_max", value)])
  = category_accuracy_min limits /\
  schema_valid_rate_min (update_limits limits [("latency_p95_ms_max", value)])
  = schema_valid_rate_min limits /\
  latency_p95_ms_max (update_limits limits [("latency_p95_ms_max", value)]) = value.
Proof. repeat split; reflexivity. Qed.

(** The limits before the caller's gates are applied: the defaults, with
    the latency limit replaced by a positive one for the local provider or
    from the environment. *)
Lemma resolve_gate_limits_base (summary : Summary) :
  let limits := _resolve_gate_limits summary None in
  category_accuracy_min limits = 0.85%float /\
  schema_valid_rate_min limits = 1.0%float /\
  PrimFloat.ltb 0 (latency_p95_ms_max limits) = true.
Proof.
  cbv zeta. unfold _resolve_gate_limits.
  destruct (String.eqb (lower (provider summary)) "ollama");
    destruct (env_latency_threshold rt) as [env_latency|];
    try (repeat split; reflexivity);
    destruct (is_empty env_latency); try (repeat split; reflexivity);
    destruct (float_of_string rt env_latency) as [parsed|]; try (repeat split; reflexivity);
    destruct (PrimFloat.ltb 0 parsed) eqn:E; try (repeat split; reflexivity);
    repeat split; try reflexivity; exact E.
Qed.

(** X26.  Without gates from the caller, the provider and the
    environment can change the latency limit only: the category accuracy
    limit is [0.85], the schema rate limit is [1.0], and the latency limit
    is positive.  So the latency check of a summary whose 95th percentile
    is [0.0] passes.  A latency limit given by the caller replaces the
    one of the provider and of the environment. *)
Theorem gate_limits_resolved
    (summary : Summary) (gates : list (string * float)) (value : float) :
  let limits := _resolve_gate_limits summary None in
  category_accuracy_min limits = 0.85%float /\
  schema_valid_rate_min limits = 1.0%float /\
  PrimFloat.ltb 0 (latency_p95_ms_max limits) = true /\
  (latency_ms_p95 summary = 0%float ->
   exists check,
     find_check "latency_p95_ms" (evaluate_gates summary None) = Some check /\
     check_passed check = true) /\
  latency_p95_ms_max
    (_resolve_gate_limits summary (Some (gates ++ [("latency_p95_ms_max", value)])%list))
  = value.
Proof.
  destruct (resolve_gate_limits_base summary) as (Hc & Hs & Hl). cbv zeta in Hc, Hs, Hl.
  cbv zeta. split; [exact Hc|]. split; [exact Hs|]. split; [exact Hl|]. split.
  - intros Hp95. unfold find_check, evaluate_gates. cbn.
    eexists. split; [reflexivity|]. cbn. rewrite Hp95. apply float_ltb_leb. exact Hl.
  - unfold _resolve_gate_limits.
    set (base := match env_latency_threshold rt with Some _ => _ | None => _ end).
    destruct (gates ++ [("latency_p95_ms_max", value)])%list as [|g gs] eqn:E.
    + destruct gates; discriminate.
    + rewrite <- E. rewrite update_limits_app.
      apply (update_limits_latency_only (update_limits base gates) value).
Qed.

(** ** The local provider *)

Lemma first_int_none (payload : dict) (keys : list string) :
  _first_int payload keys = None <->
  forall key, In key keys -> is_int (get payload key) = false.
Proof.
  induction keys as [|k rest IH]; simpl; [split; [intros _ key [] | reflexivity]|].
  destruct (is_int (get payload k)) eqn:E.
  - split; [discriminate|]. intros H. rewrite (H k (or_introl eq_refl)) in E. discriminate.
  - rewrite IH. split.
    + intros H key [<-|Hin]; [exact E | exact (H key Hin)].
    + intros H key Hin. apply H. right. exact Hin.
Qed.

Lemma first_int_is_int (payload : dict) (keys : list string) (v : pyval) :
  _first_int payload keys = Some v -> is_int v = true.
Proof.
  induction keys as [|k rest IH]; simpl; [discriminate|].
  destruct (is_int (get payload k)) eqn:E; [|exact IH].
  intros H. injection H as <-. exact E.
Qed.

(** X27.  [_extract_usage] returns none exactly when the response holds
    no integer under any of its five count keys, a boolean counting as an
    integer.  Otherwise it returns the three token entries, each an
    integer or [None]; a total reported by the response is kept as it is,
    and a missing total is the sum of the prompt and completion counts
    when both are present, so the total is [None] only when one of the
    two counts is. *)
Theorem extract_usage_cases (response : dict) :
  (_extract_usage response = None <->
   forall key,
     In key ["prompt_eval_count"; "input_eval_count"; "eval_count"; "output_eval_count";
             "total_tokens"] ->
     is_int (get response key) = false) /\
  (forall usage,
      _extract_usage response = Some usage ->
      List.map fst usage = ["prompt_tokens"; "completion_tokens"; "total_tokens"] /\
      Forall (fun entry => snd entry = PNone \/ is_int (snd entry) = true) usage /\
      (is_int (get response "total_tokens") = true ->
       get usage "total_tokens" = get response "total_tokens") /\
      (is_int (get response "total_tokens") = false ->
       get usage "prompt_tokens" <> PNone -> get usage "completion_tokens" <> PNone ->
       get usage "total_tokens"
       = PInt (int_value (get usage "prompt_tokens")
               + int_value (get usage "completion_tokens"))) /\
      (get usage "total_tokens" = PNone ->
       get usage "prompt_tokens" = PNone \/ get usage "completion_tokens" = PNone)).
Proof.
  pose proof (first_int_is_int response ["prompt_eval_count"; "input_eval_count"]) as Ip.
  pose proof (first_int_is_int response ["eval_count"; "output_eval_count"]) as Ic.
  pose proof (first_int_is_int response ["total_tokens"]) as It.
  assert (Et : _first_int response ["total_tokens"]
               = if is_int (get response "total_tokens")
                 then Some (get response "total_tokens") else None) by reflexivity.
  assert (H5 : (forall key,
                   In key ["prompt_eval_count"; "input_eval_count"; "eval_count";
                           "output_eval_count"; "total_tokens"] ->
                   is_int (get response key) = false) <->
               _first_int response ["prompt_eval_count"; "input_eval_count"] = None /\
               _first_int response ["eval_count"; "output_eval_count"] = None /\
               _first_int response ["total_tokens"] = None).
  { rewrite !first_int_none. split.
    - intros H. repeat split; intros key Hk; apply H; simpl in *; tauto.
    - intros (H1 & H2 & H3) key Hk. simpl in Hk.
      destruct Hk as [<-|[<-|[<-|[<-|[<-|[]]]]]];
        first [apply H1; simpl; tauto | apply H2; simpl; tauto | apply H3; simpl; tauto]. }
  rewrite H5. clear H5. unfold _extract_usage.
  destruct (_first_int response ["prompt_eval_count"; "input_eval_count"]) as [p|];
    destruct (_first_int response ["eval_count"; "output_eval_count"]) as [c|];
    destruct (_first_int response ["total_tokens"]) as [t|];
    try specialize (Ip _ eq_refl); try specialize (Ic _ eq_refl);
    try specialize (It _ eq_refl).
  all: split; [split; [try discriminate; intros _; repeat split
                      | try reflexivity; intros (H1 & H2 & H3); discriminate]|].
  all: intros usage Hu; try discriminate Hu; injection Hu as <-.
  all: cbn [List.map fst py_option].
  all: split; [reflexivity|].
  all: split; [repeat first [apply Forall_cons | apply Forall_nil]; cbn [snd];
               solve [left; reflexivity | right; assumption | right; reflexivity]|].
  all: set (g := get response "total_tokens") in *; clearbody g.
  all: unfold get; cbn [dget String.eqb Ascii.eqb Bool.eqb andb py_option].
  all: destruct (is_int g) eqn:Eg; try discriminate Et; try (injection Et as ->).
  all: split; [intros H; first [reflexivity | discriminate H]|].
  all: split; [intros Hf Hp Hc;
               first [discriminate Hf | reflexivity | exfalso; apply Hp; reflexivity
                     | exfalso; apply Hc; reflexivity]|].
  all: intros H; first [left; reflexivity | right; reflexivity | discriminate H
                       | rewrite H in It; discriminate It
                       | rewrite H in Eg; discriminate Eg].
Qed.

Lemma take_length (n : nat) (s : string) : String.length (take n s) <= n.
Proof.
  revert s. induction n as [|n IH]; intros s; [reflexivity|].
  destruct s as [|ch s]; simpl; [lia|]. specialize (IH s). lia.
Qed.

Lemma parse_flag (text : string) (parsed : option dict) (ok : bool) (kind : string) :
  parse_json_object_with_repair text = (parsed, ok, kind) ->
  (ok = true -> (exists d, parsed = Some d) /\ kind = "") /\
  (ok = false -> parsed = None /\ kind <> "").
Proof.
  unfold parse_json_object_with_repair.
  destruct (is_empty (strip text));
    try destruct (json_loads rt (strip text)) as [[| | | | | |d]|];
    try destruct (extract_first_json_object (strip text)) as [candidate|];
    try destruct (json_loads rt candidate) as [[| | | | | |d']|];
    intros H; injection H as <- <- <-.
  all: split; intros H; try discriminate H.
  all: split; first [eexists; reflexivity | reflexivity | discriminate].
Qed.

(** X28.  A result of [OllamaProvider.generate] has the status [ok] or
    [error].  It is [ok] exactly when it carries an object; then it has no
    error type, no error message and no raw text, and the object is what
    [parse_json_object_with_repair] made of the text of the first call or
    of the retry.  An [error] result carries no object and has an error
    type and message.  The raw text of a result is at most 500 characters
    long, and the prompt size is the length of the ticket text. *)
Theorem generate_result_invariants
    (item : dict) (first retry : call_result) (result : ProviderResult) :
  generate item first retry = inl result ->
  (status result = "ok" \/ status result = "error") /\
  (status result = "ok" <-> exists d, actual result = Some d) /\
  (status result = "ok" ->
   error_type result = None /\ error_msg result = None /\ raw_text result = None /\
   exists text call_usage,
     (first = Returned text call_usage \/ retry = Returned text call_usage) /\
     parse_json_object_with_repair text = (actual result, true, "")) /\
  (status result = "error" ->
   actual result = None /\
   exists kind message, error_type result = Some kind /\ error_msg result = Some message) /\
  (forall text, raw_text result = Some text -> String.length text <= 500) /\
  prompt_chars result
  = Some (String.length (py_str (get_default item "input_text" (PStr "")))).
Proof.
  unfold generate.
  set (take500 := take 500).
  assert (Hlen : forall s, String.length (take500 s) <= 500) by (intros s; apply take_length).
  set (take300 := take 300).
  clearbody take500 take300.
  destruct first as [text0 usage0| |code body|message payload|type_name message];
    try discriminate.
  - pose proof (parse_flag text0) as Hp0.
    destruct (parse_json_object_with_repair text0) as [[actual0 ok0] kind0] eqn:E0.
    specialize (Hp0 _ _ _ eq_refl). destruct Hp0 as [Hok0 Hno0].
    destruct ok0; cbn [negb]; cbv beta iota.
    + destruct (Hok0 eq_refl) as [[d ->] ->]. intros H. injection H as <-.
      split; [left; reflexivity|]. split; [split; [intros _; eexists; reflexivity | reflexivity]|].
      split; [intros _; repeat split; exists text0, usage0;
              split; [left; reflexivity | exact E0]|].
      split; [discriminate|]. split; [discriminate | reflexivity].
    + destruct retry as [text1 usage1| |code body|message payload|type_name message];
        try discriminate.
      * pose proof (parse_flag text1) as Hp1.
        destruct (parse_json_object_with_repair text1) as [[actual1 ok1] kind1] eqn:E1.
        specialize (Hp1 _ _ _ eq_refl). destruct Hp1 as [Hok1 Hno1].
        destruct ok1.
        -- destruct (Hok1 eq_refl) as [[d ->] ->]. intros H. injection H as <-.
           split; [left; reflexivity|]. split; [split; [intros _; eexists; reflexivity | reflexivity]|].
           split; [intros _; repeat split; exists text1, usage1;
                   split; [right; reflexivity | exact E1]|].
           split; [discriminate|]. split; [discriminate | reflexivity].
        -- intros H. injection H as <-.
           split; [right; reflexivity|].
           split; [split; [discriminate | intros [d Hd]; discriminate]|].
           split; [discriminate|].
           split; [intros _; split; [reflexivity | eexists; eexists; split; reflexivity]|].
           split; [|reflexivity]. intros text Ht. injection Ht as <-. apply Hlen.
      * intros H. injection H as <-.
        split; [right; reflexivity|].
        split; [split; [discriminate | intros [d Hd]; discriminate]|].
        split; [discriminate|].
        split; [intros _; split; [reflexivity | eexists; eexists; split; reflexivity]|].
        split; [|reflexivity]. intros text Ht. injection Ht as <-. apply Hlen.
      * intros H. injection H as <-.
        split; [right; reflexivity|].
        split; [split; [discriminate | intros [d Hd]; discriminate]|].
        split; [discriminate|].
        split; [intros _; split; [reflexivity | eexists; eexists; split; reflexivity]|].
        split; [|reflexivity]. intros text Ht. injection Ht as <-. apply Hlen.
  - intros H. injection H as <-.
    split; [right; reflexivity|].
    split; [split; [discriminate | intros [d Hd]; discriminate]|].
    split; [discriminate|].
    split; [intros _; split; [reflexivity | eexists; eexists; split; reflexivity]|].
    split; [|reflexivity]. intros text Ht. injection Ht as <-. apply Hlen.
  - intros H. injection H as <-.
    split; [right; reflexivity|].
    split; [split; [discriminate | intros [d Hd]; discriminate]|].
    split; [discriminate|].
    split; [intros _; split; [reflexivity | eexists; eexists; split; reflexivity]|].
    split; [|reflexivity]. intros text Ht. injection Ht as <-. apply Hlen.
  - intros H. injection H as <-.
    split; [right; reflexivity|].
    split; [split; [discriminate | intros [d Hd]; discriminate]|].
    split; [discriminate|].
    split; [intros _; split; [reflexivity | eexists; eexists; split; reflexivity]|].
    split; [|reflexivity]. intros text Ht. discriminate Ht.
Qed.


(** ** The report on the rows of the runner *)

Lemma failure_reasons_nil
    (expected : dict) (actual : pyval) (input_text : string)
    (allowed_missing_fields : option (list string)) :
  let r := score_case expected actual input_text allowed_missing_fields in
  failure_reasons r = [] ->
  json_valid r = true /\ schema_valid r = true /\ category_correct r = true /\
  priority_correct r = true /\ device_correct r = true /\
  needs_clarification_correct r = true /\ hallucination r = false.
Proof.
  unfold score_case.
  destruct (if is_dict actual then validate_required_fields actual
            else (false, ["Output must be a JSON object"])) as [sv se].
  destruct (_hallucination_checks actual) as [h hr].
  cbv zeta. cbn [failure_reasons json_valid schema_valid category_correct priority_correct
                 device_correct needs_clarification_correct hallucination].
  rewrite dedupe_nil.
  destruct (is_dict actual), sv, (_field_correct expected actual "category"),
    (_field_correct expected actual "priority"), (_field_correct expected actual "device"),
    (_field_correct expected actual "needs_clarification"), h,
    (_is_device_extraction_failure actual input_text);
    cbn; intros H; try discriminate H; repeat split.
Qed.

Lemma score_hallucination_reasons
    (expected : dict) (actual : pyval) (input_text : string)
    (allowed_missing_fields : option (list string)) :
  let r := score_case expected actual input_text allowed_missing_fields in
  List.existsb (fun reason => mem reason RULE_CONFLICT_REASONS) (failure_reasons r)
  = hallucination r.
Proof.
  unfold score_case.
  destruct (if is_dict actual then validate_required_fields actual
            else (false, ["Output must be a JSON object"])) as [sv se].
  pose proof (hallucination_reasons_known actual) as Hknown.
  assert (Hne : fst (_hallucination_checks actual) = true ->
                exists x, In x (snd (_hallucination_checks actual))).
  { destruct actual as [| | | | | |d]; simpl; try discriminate.
    destruct (get d "needs_clarification") as [|[|]| | | | |];
      destruct (get d "missing_fields") as [| | | | |[|x xs]|]; simpl;
      try discriminate; intros _; eexists; left; reflexivity. }
  destruct (_hallucination_checks actual) as [h hr]. cbn [fst snd] in Hknown, Hne.
  cbv zeta. cbn [failure_reasons hallucination].
  destruct h.
  - destruct (Hne eq_refl) as [x Hx]. apply existsb_exists. exists x. split.
    + apply dedupe_In. unfold append_if at 1.
      destruct (_is_device_extraction_failure actual input_text);
        [apply in_or_app; left|]; unfold append_if at 1;
        apply in_or_app; right; right; exact Hx.
    + destruct (Hknown x Hx) as [-> | ->]; reflexivity.
  - destruct (is_dict actual), sv, (_field_correct expected actual "category"),
      (_field_correct expected actual "priority"), (_field_correct expected actual "device"),
      (_field_correct expected actual "needs_clarification"),
      (_is_device_extraction_failure actual input_text); reflexivity.
Qed.

Lemma existsb_py_strs (allowed xs : list string) :
  List.existsb (fun item => mem (py_str item) allowed) (List.map PStr xs)
  = List.existsb (fun text => mem text allowed) xs.
Proof.
  induction xs as [|x xs IH]; [reflexivity|].
  cbn [List.map List.existsb py_str]. rewrite IH. reflexivity.
Qed.

Lemma map_py_str_strs (xs : list string) : List.map py_str (List.map PStr xs) = xs.
Proof. induction xs as [|x xs IH]; simpl; [reflexivity | rewrite IH; reflexivity]. Qed.

(** What the report reads in a row of the runner. *)
Lemma run_case_row
    (provider model : string) (item : dict) (provider_result : ProviderResult)
    (latency_ms : pyval) (allowed_missing_fields : list string) (row : dict) :
  run_case provider model item provider_result latency_ms allowed_missing_fields = Some row ->
  exists expected normalized_actual score combined_warnings,
    score = score_case expected normalized_actual
              (py_str (get_default item "input_text" (PStr "")))
              (Some allowed_missing_fields) /\
    (json_valid score = true -> schema_valid score = true) /\
    dget row "actual" = Some normalized_actual /\
    dget row "json_valid" = Some (PBool (json_valid score)) /\
    dget row "schema_valid" = Some (PBool (schema_valid score)) /\
    dget row "category_correct" = Some (PBool (category_correct score)) /\
    dget row "priority_correct" = Some (PBool (priority_correct score)) /\
    dget row "device_correct" = Some (PBool (device_correct score)) /\
    dget row "needs_clarification_correct"
    = Some (PBool (needs_clarification_correct score)) /\
    dget row "hallucination" = Some (PBool (hallucination score)) /\
    dget row "failure_reasons" = Some (py_strs (failure_reasons score)) /\
    dget row "warnings" = Some (py_strs combined_warnings).
Proof.
  unfold run_case.
  destruct (_coerce_expected (get item "expected")) as [expected|]; [|discriminate].
  set (input_text := py_str (get_default item "input_text" (PStr ""))).
  set (provider_actual := match actual provider_result with
                          | Some d => PDict d
                          | None => PNone
                          end).
  assert (Hvalid : forall score,
            score = score_case expected
                      (fst (fst (normalize_actual provider provider_actual input_text
                                   allowed_missing_fields)))
                      input_text (Some allowed_missing_fields) ->
            json_valid score = true -> schema_valid score = true).
  { intros score -> . unfold normalize_actual.
    destruct provider_actual as [| | | | | |d]; try (cbn; discriminate).
    destruct (String.eqb provider "ollama" && looks_like_ticket_signals (PDict d)).
    - destruct (build_output_from_signals _ _ _ _) as [out w].
      rewrite (surjective_pairing (normalize_output out input_text)). cbn [fst].
      intros _. unfold score_case. cbn [is_dict].
      rewrite (normalized_output_valid out input_text).
      destruct (_hallucination_checks _). reflexivity.
    - rewrite (surjective_pairing (normalize_output d input_text)). cbn [fst].
      intros _. unfold score_case. cbn [is_dict].
      rewrite (normalized_output_valid d input_text).
      destruct (_hallucination_checks _). reflexivity. }
  destruct (normalize_actual provider provider_actual input_text allowed_missing_fields)
    as [[normalized_actual normalization_warnings] key_signals].
  cbn [fst] in Hvalid.
  set (score := score_case expected normalized_actual input_text
                  (Some allowed_missing_fields)) in *.
  specialize (Hvalid score eq_refl).
  assert (Hdef : score = score_case expected normalized_actual input_text
                           (Some allowed_missing_fields)) by reflexivity.
  set (take500 := take 500). clearbody take500. clearbody score.
  intros H. injection H as <-.
  exists expected, normalized_actual, score,
    (_dedupe_warnings (warnings score ++ normalization_warnings)%list).
  split; [exact Hdef|]. split; [exact Hvalid|]. clear Hdef Hvalid.
  destruct key_signals as [snapshot|]; destruct (raw_text provider_result) as [text|];
    try destruct (negb (json_valid score) && negb (is_empty text));
    destruct (String.eqb (status provider_result) "error");
    dsimp; repeat split; reflexivity.
Qed.

Lemma bump_keys (counts : list (string * Z)) (cause : string) :
  List.map fst (bump counts cause) = List.map fst counts.
Proof.
  induction counts as [|[k n] counts IH]; simpl; [reflexivity|].
  destruct (String.eqb k cause); simpl; rewrite IH; reflexivity.
Qed.

Lemma cause_count_bump (counts : list (string * Z)) (cause key : string) :
  cause_count (bump counts cause) key
  = if String.eqb key cause && mem key (List.map fst counts)
    then (cause_count counts key + 1)%Z else cause_count counts key.
Proof.
  unfold cause_count. induction counts as [|[k n] counts IH]; simpl.
  - rewrite andb_false_r. reflexivity.
  - destruct (String.eqb k cause) eqn:Ec; simpl.
    + apply String.eqb_eq in Ec. subst k. destruct (String.eqb cause key) eqn:Ek.
      * apply String.eqb_eq in Ek. subst key. rewrite String.eqb_refl. reflexivity.
      * rewrite (String.eqb_sym key cause), Ek. cbn [andb]. rewrite IH.
        rewrite (String.eqb_sym key cause), Ek. reflexivity.
    + destruct (String.eqb k key) eqn:Ek.
      * apply String.eqb_eq in Ek. subst key. rewrite Ec. reflexivity.
      * rewrite IH. rewrite (String.eqb_sym key k), Ek. reflexivity.
Qed.

Lemma count_row_keys (counts : list (string * Z)) (row : dict) :
  List.map fst (count_row counts row) = List.map fst counts.
Proof.
  unfold count_row.
  repeat match goal with |- context [if ?c then _ else _] => destruct c end;
    rewrite ?bump_keys; reflexivity.
Qed.

Lemma count_row_schema_error (counts : list (string * Z)) (row : dict) :
  (truthy (get row "json_valid") = true -> truthy (get row "schema_valid") = true) ->
  cause_count (count_row counts row) "SchemaError" = cause_count counts "SchemaError".
Proof.
  intros H. unfold count_row.
  destruct (truthy (get row "json_valid")); [rewrite (H eq_refl)|]; cbn [negb andb];
    repeat match goal with |- context [if ?c then _ else _] => destruct c end;
    rewrite ?cause_count_bump; reflexivity.
Qed.

Lemma count_row_invalid_json (counts : list (string * Z)) (row : dict) :
  mem "InvalidJSON" (List.map fst counts) = true ->
  cause_count (count_row counts row) "InvalidJSON"
  = (cause_count counts "InvalidJSON"
     + if truthy (get row "json_valid") then 0 else 1)%Z.
Proof.
  intros Hkey. unfold count_row.
  destruct (truthy (get row "json_valid")); cbn [negb andb];
    repeat match goal with |- context [if ?c then _ else _] => destruct c end;
    rewrite ?cause_count_bump, ?bump_keys, ?Hkey; cbn [String.eqb Ascii.eqb Bool.eqb andb];
    lia.
Qed.

(** X30.  The report on rows written by the runner.  No row is counted
    as a [SchemaError], since a row that is valid JSON is valid against
    the schema, and the [InvalidJSON] count is the number of rows whose
    [actual] is not an object.  For each row, [_reasons_from_row] returns
    the recorded failure reasons, its fallback agreeing with them when
    they are empty, and the row is a rule conflict exactly when it is
    flagged as a hallucination or carries one of the two consistency
    warnings. *)
Theorem report_on_runner_rows (results : list dict) :
  Forall runner_row results ->
  cause_count (_failure_cause_counts results) "SchemaError" = 0%Z /\
  cause_count (_failure_cause_counts results) "InvalidJSON"
  = Z.of_nat (List.length (List.filter (fun row => negb (is_dict (get row "actual"))) results))
  /\
  Forall (fun row =>
            get row "failure_reasons" = py_strs (_reasons_from_row row) /\
            exists row_warnings,
              get row "warnings" = py_strs row_warnings /\
              _is_rule_conflict row
              = truthy (get row "hallucination")
                || List.existsb (fun warning => mem warning RULE_CONFLICT_WARNINGS)
                                row_warnings)
         results.
Proof.
  intros Hrows.
  assert (Hfacts : Forall (fun row =>
            (truthy (get row "json_valid") = true -> truthy (get row "schema_valid") = true) /\
            truthy (get row "json_valid") = is_dict (get row "actual") /\
            get row "failure_reasons" = py_strs (_reasons_from_row row) /\
            exists row_warnings,
              get row "warnings" = py_strs row_warnings /\
              _is_rule_conflict row
              = truthy (get row "hallucination")
                || List.existsb (fun warning => mem warning RULE_CONFLICT_WARNINGS)
                                row_warnings) results).
  { apply Forall_forall. intros row Hrow.
    apply (proj1 (Forall_forall _ _) Hrows) in Hrow.
    destruct Hrow as (provider & model & item & provider_result & latency_ms & allowed & Hrun).
    destruct (run_case_row _ _ _ _ _ _ _ Hrun)
      as (expected & normalized & score & combined & Hscore & Hvalid & Ha & Hj & Hs & Hc
          & Hp & Hd & Hn & Hh & Hf & Hw).
    pose proof (failure_reasons_nil expected normalized
                  (py_str (get_default item "input_text" (PStr ""))) (Some allowed)) as Hnil.
    pose proof (score_hallucination_reasons expected normalized
                  (py_str (get_default item "input_text" (PStr ""))) (Some allowed)) as Hhall.
    cbv zeta in Hnil, Hhall. rewrite <- Hscore in Hnil, Hhall.
    assert (Hjd : json_valid score = is_dict normalized).
    { rewrite Hscore. unfold score_case.
      destruct (if is_dict normalized then _ else _); destruct (_hallucination_checks normalized);
        reflexivity. }
    clear Hscore Hrun.
    unfold _reasons_from_row, _is_rule_conflict, get, get_default.
    rewrite ?Ha, ?Hj, ?Hs, ?Hc, ?Hp, ?Hd, ?Hn, ?Hh, ?Hf, ?Hw. cbn [truthy].
    split; [exact Hvalid|]. split; [exact Hjd|]. split.
    - unfold py_strs at 2.
      destruct (failure_reasons score) as [|reason reasons] eqn:Er.
      + destruct (Hnil eq_refl) as (-> & -> & -> & -> & -> & -> & ->). reflexivity.
      + cbn [List.map]. rewrite <- (map_py_str_strs reasons) at 1.
        reflexivity.
    - exists combined. split; [reflexivity|].
      unfold py_strs. rewrite !existsb_py_strs, Hhall. reflexivity. }
  clear Hrows. unfold _failure_cause_counts.
  set (init := List.map (fun cause => (cause, 0%Z)) FAILURE_CAUSE_ORDER).
  assert (Hgen : forall counts,
            mem "InvalidJSON" (List.map fst counts) = true ->
            cause_count (List.fold_left count_row results counts) "SchemaError"
            = cause_count counts "SchemaError" /\
            cause_count (List.fold_left count_row results counts) "InvalidJSON"
            = (cause_count counts "InvalidJSON"
               + Z.of_nat (List.length
                             (List.filter (fun row => negb (is_dict (get row "actual")))
                                          results)))%Z).
  { induction Hfacts as [|row rest (Hv & Hjd & _) _ IH]; intros counts Hkey.
    - cbn. split; [reflexivity | lia].
    - cbn [List.fold_left List.filter].
      destruct (IH (count_row counts row)) as [IH1 IH2];
        [rewrite count_row_keys; exact Hkey|].
      rewrite IH1, IH2, (count_row_schema_error _ _ Hv), (count_row_invalid_json _ _ Hkey).
      split; [reflexivity|]. rewrite Hjd.
      destruct (is_dict (get row "actual")); cbn [negb List.length]; lia. }
  destruct (Hgen init eq_refl) as [H1 H2]. rewrite H1, H2.
  split; [reflexivity|]. split; [reflexivity|].
  apply Forall_forall. intros row Hrow.
  destruct (proj1 (Forall_forall _ _) Hfacts row Hrow) as (_ & _ & H3 & H4).
  split; assumption.
Qed.

End Harness.

(** * Closed examples *)

(** C4, against the claim as first stated: on an integer literal of 4301
    digits [json.loads] raises [ValueError], which is no decode error, and
    the exception leaves [parse_json_object_with_repair]. *)
Lemma parse_never_raises_counterexample :
  digits_loads (strip long_integer) = Raised "ValueError" /\
  parse_json_object_with_repair_exn digits_loads long_integer = inr "ValueError".
Proof. split; vm_compute; reflexivity. Qed.

(** C6, against the claim as first stated: an output that is already
    normalized (normalizing it returns it unchanged) still draws a warning
    when it is normalized again. *)
Lemma normalize_idempotence_counterexample :
  fst (normalize_output sample_runtime flagged_output flagged_ticket) = flagged_output /\
  normalize_output sample_runtime
    (fst (normalize_output sample_runtime flagged_output flagged_ticket)) flagged_ticket
  = (flagged_output, ["needs_clarification_without_missing_fields"]).
Proof. split; reflexivity. Qed.


(** The lost-phone scenario in strict mode, with the three names in the
    vocabulary. *)
Lemma lost_phone_scenario_witness :
  Forall (fun field =>
            mem field (_resolve_allowed_missing_fields sample_runtime
                         (Some ["last_known_time"; "device_type"; "phone_number_or_asset_id"]))
            = true) lost_phone_fields
  /\ get (fst (build_output_from_signals sample_runtime
                 (coerce_ticket_signals sample_runtime
                    [("device_hint", PStr "iPhone"); ("mentions_email", PStr "yes")])
                 lost_phone_text
                 (Some ["last_known_time"; "device_type"; "phone_number_or_asset_id"]) true))
         "missing_fields"
     = py_strs ["device_type"; "phone_number_or_asset_id"; "last_known_time"].
Proof.
  assert (H : Forall (fun field =>
                        mem field (_resolve_allowed_missing_fields sample_runtime
                                     (Some ["last_known_time"; "device_type";
                                            "phone_number_or_asset_id"]))
                        = true) lost_phone_fields)
    by (repeat constructor).
  split; [exact H|].
  exact (proj1 (proj2 (proj2 (proj2
           (lost_phone_scenario sample_runtime
              [("device_hint", PStr "iPhone"); ("mentions_email", PStr "yes")]
              (Some ["last_known_time"; "device_type"; "phone_number_or_asset_id"]) true
              (or_intror H)))))).
Defined.

(** A run of one case without any latency field, against the default
    threshold. *)
Lemma empty_latency_passes_gate_witness :
  exists check,
    find_check "latency_p95_ms"
      (evaluate_gates sample_runtime
         {| provider := "dummy"; schema_valid_rate := 1; accuracy_category := 1;
            latency_ms_p50 := 0; latency_ms_p95 := 0 |} None) = Some check /\
    check_actual check = 0%float /\
    check_passed check = true.
Proof.
  exact (proj2 (proj2 (proj2
    (empty_latency_passes_gate sample_runtime
       [PDict [("id", PStr "case-1"); ("provider", PStr "dummy");
               ("schema_valid", PBool true); ("category_correct", PBool true)]]
       []
       {| provider := "dummy"; schema_valid_rate := 1; accuracy_category := 1;
          latency_ms_p50 := 0; latency_ms_p95 := 0 |}
       None 95%Z eq_refl eq_refl eq_refl)))).
Defined.

(** A candidate whose flag reads "no" while a field is missing: the flag
    is forced to true. *)
Lemma normalize_consistency_asymmetry_witness :
  candidate_missing_fields sample_runtime
    [("needs_clarification", PStr "no"); ("missing_fields", PList [PStr " employee_email "])]
  <> []
  /\ get (fst (normalize_output sample_runtime
                 [("needs_clarification", PStr "no");
                  ("missing_fields", PList [PStr " employee_email "])]
                 "Please create my account"))
         "needs_clarification" = PBool true
  /\ In "coerced_needs_clarification_true"
        (snd (normalize_output sample_runtime
                [("needs_clarification", PStr "no");
                 ("missing_fields", PList [PStr " employee_email "])]
                "Please create my account")).
Proof.
  assert (H : candidate_missing_fields sample_runtime
                [("needs_clarification", PStr "no");
                 ("missing_fields", PList [PStr " employee_email "])] <> [])
    by discriminate.
  split; [exact H|].
  exact (proj1 (proj2
           (normalize_consistency_asymmetry sample_runtime
              [("needs_clarification", PStr "no");
               ("missing_fields", PList [PStr " employee_email "])]
              "Please create my account")) H eq_refl).
Defined.

(** Strict mode with a one-word vocabulary: a synonym is mapped, a field
    that maps to nothing is dropped. *)
Lemma canonicalization_closure_witness :
  _map_to_canonical "router_color"
    (_resolve_allowed_missing_fields sample_runtime (Some ["speed_test_result"])) = None
  /\ ~ In "router_color"
         (normalize_missing_fields_to_canonical sample_runtime ["speed_test"; "router_color"]
            (Some ["speed_test_result"]) true).
Proof.
  split; [reflexivity|].
  exact (proj2 (canonicalization_closure sample_runtime ["speed_test"; "router_color"]
                  (Some ["speed_test_result"]) true) eq_refl "router_color" eq_refl).
Defined.

(** Strict mode with an empty vocabulary: no field can be reported. *)
Lemma infer_missing_fields_closed_witness :
  _resolve_allowed_missing_fields sample_runtime (Some []) = [] /\
  infer_missing_fields sample_runtime [] "The printer on floor 2 is broken" (Some []) true = [].
Proof.
  split; [reflexivity|].
  exact (proj2 (proj2 (infer_missing_fields_closed sample_runtime []
                         "The printer on floor 2 is broken" (Some []) true))
           eq_refl eq_refl).
Defined.

(** A coerced payload has all the signal keys, so it looks like signals. *)
Lemma signal_recognizers_agree_witness :
  is_ticket_signals (PDict (coerce_ticket_signals sample_runtime [])) = true /\
  looks_like_ticket_signals (PDict (coerce_ticket_signals sample_runtime [])) = true.
Proof.
  split; [reflexivity|].
  exact (proj1 (signal_recognizers_agree (PDict (coerce_ticket_signals sample_runtime [])))
           eq_refl).
Defined.

(** The case identifier of a candidate survives normalization. *)
Lemma normalize_output_keeps_other_keys_witness :
  dget (fst (normalize_output sample_runtime [("id", PStr "T-1")] "vpn down")) "id"
  = Some (PStr "T-1").
Proof.
  apply (normalize_output_keeps_other_keys sample_runtime [("id", PStr "T-1")] "vpn down" "id").
  simpl. intuition discriminate.
Defined.

(** A provider that returned nothing. *)
Lemma score_case_non_object_witness :
  is_dict PNone = false /\
  failure_reasons (score_case sample_runtime [("category", PStr "VPN")] PNone "vpn down" None)
  = ["invalid_json"; "schema_error"; "wrong_category"; "wrong_priority"; "wrong_device";
     "wrong_needs_clarification"].
Proof.
  split; [reflexivity|].
  exact (f_equal failure_reasons
           (score_case_non_object sample_runtime [("category", PStr "VPN")] PNone "vpn down"
              None eq_refl)).
Defined.

(** A complete record scored against itself. *)
Lemma score_case_against_itself_witness :
  validate_required_fields
    (PDict [("category", PStr "VPN"); ("priority", PStr "P2"); ("device", PStr "Windows");
            ("needs_clarification", PBool false); ("missing_fields", PList []);
            ("summary", PStr "vpn down")]) = (true, []) /\
  category_correct
    (score_case sample_runtime
       [("category", PStr "VPN"); ("priority", PStr "P2"); ("device", PStr "Windows");
        ("needs_clarification", PBool false); ("missing_fields", PList []);
        ("summary", PStr "vpn down")]
       (PDict [("category", PStr "VPN"); ("priority", PStr "P2"); ("device", PStr "Windows");
               ("needs_clarification", PBool false); ("missing_fields", PList []);
               ("summary", PStr "vpn down")])
       "vpn down" None) = true.
Proof.
  split; [reflexivity|].
  exact (proj1 (proj2 (proj2 (proj2
           (score_case_against_itself sample_runtime
              [("category", PStr "VPN"); ("priority", PStr "P2"); ("device", PStr "Windows");
               ("needs_clarification", PBool false); ("missing_fields", PList []);
               ("summary", PStr "vpn down")]
              "vpn down" None eq_refl))))).
Defined.

(** An object between two words. *)
Lemma extracted_object_is_fixed_witness :
  extract_first_json_object "see {} here" = Some "{}" /\
  extract_first_json_object "{}" = Some "{}".
Proof.
  split; [reflexivity|].
  exact (proj1 (extracted_object_is_fixed "see {} here" "{}" eq_refl)).
Defined.

(** A refusal in plain words. *)
Lemma no_brace_no_object_witness :
  contains "{" "I cannot help" = false /\
  extract_first_json_object "I cannot help" = None /\
  parse_json_object_with_repair sample_runtime "I cannot help"
  = (None, false, "ExtractionFailure").
Proof.
  split; [reflexivity|]. split.
  - exact (proj1 (no_brace_no_object sample_runtime "I cannot help" (or_introl eq_refl))).
  - apply (proj2 (no_brace_no_object sample_runtime "I cannot help" (or_introl eq_refl)));
      [discriminate | reflexivity].
Defined.

(** A device given as unknown stays unknown although the ticket names
    one. *)
Lemma normalize_output_keeps_valid_labels_witness :
  dget [("device", PStr "Unknown")] "device" = Some (PStr "Unknown") /\
  mem "Unknown" ALLOWED_DEVICES = true /\
  dget (fst (normalize_output sample_runtime [("device", PStr "Unknown")]
               "my windows laptop is slow")) "device" = Some (PStr "Unknown").
Proof.
  split; [reflexivity|]. split; [reflexivity|].
  exact (proj2 (proj2 (normalize_output_keeps_valid_labels sample_runtime
                         [("device", PStr "Unknown")] "my windows laptop is slow" "Unknown"))
           eq_refl eq_refl).
Defined.

(** A flipped [P2]. *)
Lemma dummy_priority_flip_is_scored_witness :
  _coerce_expected sample_runtime
    (get [("id", PStr "T-1"); ("expected", PDict [("priority", PStr "P2")])] "expected")
  = Some [("priority", PStr "P2")] /\
  dummy_actual sample_runtime
    [("id", PStr "T-1"); ("expected", PDict [("priority", PStr "P2")])] true false
  = Some [("priority", PStr "P3")] /\
  priority_correct
    (score_case sample_runtime [("priority", PStr "P2")]
       (PDict (fst (normalize_output sample_runtime [("priority", PStr "P3")] "vpn down")))
       "vpn down" None) = false.
Proof.
  split; [reflexivity|]. split; [reflexivity|].
  exact (proj1 (proj2 (proj2 (proj2
           (dummy_priority_flip_is_scored sample_runtime
              [("id", PStr "T-1"); ("expected", PDict [("priority", PStr "P2")])]
              [("priority", PStr "P2")] [("priority", PStr "P3")] false "vpn down" None
              eq_refl eq_refl))))).
Defined.

(** The engine's record for a ticket, with a vocabulary of trimmed
    names. *)
Lemma engine_output_through_normalization_witness :
  Forall (fun x => strip x = x /\ x <> "")
         (_resolve_allowed_missing_fields sample_runtime (Some ["os_version"])) /\
  dget (fst (normalize_output sample_runtime
               (fst (build_output_from_signals sample_runtime
                       (coerce_ticket_signals sample_runtime []) "My laptop is slow"
                       (Some ["os_version"]) true))
               "My laptop is slow")) "missing_fields"
  = dget (fst (build_output_from_signals sample_runtime
                 (coerce_ticket_signals sample_runtime []) "My laptop is slow"
                 (Some ["os_version"]) true)) "missing_fields".
Proof.
  assert (H : Forall (fun x => strip x = x /\ x <> "")
                     (_resolve_allowed_missing_fields sample_runtime (Some ["os_version"])))
    by (constructor; [split; [reflexivity | discriminate] | constructor]).
  split; [exact H|].
  exact (proj2 (proj2 (proj2 (proj2 (proj2
           (engine_output_through_normalization sample_runtime
              (coerce_ticket_signals sample_runtime []) "My laptop is slow"
              (Some ["os_version"]) true))))) eq_refl H).
Defined.

(** A provider that returned nothing: the event is an [InvalidJSON]
    error. *)
Lemma run_case_scores_valid_records_witness :
  is_dict PNone = false /\
  event_status "ok" None None
    (score_case sample_runtime []
       (fst (fst (normalize_actual sample_runtime "dummy" PNone "vpn down" [])))
       "vpn down" (Some []))
  = ("error", Some "InvalidJSON", Some "Output is not valid JSON object").
Proof.
  split; [reflexivity|].
  exact (proj2 (proj2
           (proj1 (proj2 (run_case_scores_valid_records sample_runtime "dummy" [] PNone
                            "vpn down" []))
              eq_refl))).
Defined.

(** A dataset of one row. *)
Lemma allowed_missing_fields_cover_dataset_witness :
  _build_allowed_missing_fields sample_runtime
    [[("id", PStr "T-1");
      ("expected", PDict [("missing_fields", PList [PStr "os_version"])])]]
  = Some ["os_version"] /\
  exists row expected fields,
    In row [[("id", PStr "T-1");
             ("expected", PDict [("missing_fields", PList [PStr "os_version"])])]] /\
    _coerce_expected sample_runtime (get row "expected") = Some expected /\
    get expected "missing_fields" = PList fields /\
    In (PStr "os_version") fields.
Proof.
  split; [reflexivity|].
  exact (proj2 (allowed_missing_fields_cover_dataset sample_runtime
                  [[("id", PStr "T-1");
                    ("expected", PDict [("missing_fields", PList [PStr "os_version"])])]]
                  ["os_version"] eq_refl)
           "os_version" (or_introl eq_refl)).
Defined.

(** The median of three latencies. *)
Lemma percentile_is_a_sample_witness :
  _percentile [30; 10; 20]%float 50 = Some 20%float /\
  In 20%float [30; 10; 20]%float.
Proof.
  split; [reflexivity|].
  assert (H : [30; 10; 20]%float <> []) by discriminate.
  exact (proj1 (percentile_is_a_sample [30; 10; 20]%float 50 20%float H eq_refl)).
Defined.

(** A summary without latency samples, against the default limits. *)
Lemma gate_limits_resolved_witness :
  latency_ms_p95 {| provider := "dummy"; schema_valid_rate := 1; accuracy_category := 1;
                    latency_ms_p50 := 0; latency_ms_p95 := 0 |} = 0%float /\
  exists check,
    find_check "latency_p95_ms"
      (evaluate_gates sample_runtime
         {| provider := "dummy"; schema_valid_rate := 1; accuracy_category := 1;
            latency_ms_p50 := 0; latency_ms_p95 := 0 |} None) = Some check /\
    check_passed check = true.
Proof.
  split; [reflexivity|].
  exact (proj1 (proj2 (proj2 (proj2
           (gate_limits_resolved sample_runtime
              {| provider := "dummy"; schema_valid_rate := 1; accuracy_category := 1;
                 latency_ms_p50 := 0; latency_ms_p95 := 0 |} [] 0%float))))
           eq_refl).
Defined.

(** A response with the two counts and no total. *)
Lemma extract_usage_cases_witness :
  _extract_usage [("prompt_eval_count", PInt 7); ("eval_count", PInt 5)]
  = Some [("prompt_tokens", PInt 7); ("completion_tokens", PInt 5);
          ("total_tokens", PInt 12)] /\
  get [("prompt_tokens", PInt 7); ("completion_tokens", PInt 5); ("total_tokens", PInt 12)]
      "total_tokens"
  = PInt (int_value (PInt 7) + int_value (PInt 5)).
Proof.
  split; [reflexivity|].
  refine (proj1 (proj2 (proj2 (proj2
            (proj2 (extract_usage_cases [("prompt_eval_count", PInt 7); ("eval_count", PInt 5)])
               [("prompt_tokens", PInt 7); ("completion_tokens", PInt 5);
                ("total_tokens", PInt 12)] eq_refl)))) eq_refl _ _); discriminate.
Defined.

(** A call that timed out. *)
Lemma generate_result_invariants_witness :
  generate sample_runtime [("input_text", PStr "vpn down")]
    (OtherError "TimeoutError" "timed out") ConnectionError
  = inl {| actual := None; raw_text := None; usage := None; status := "error";
           error_type := Some "TimeoutError"; error_msg := Some "timed out";
           prompt_chars := Some 8; response_chars := None |} /\
  prompt_chars {| actual := None; raw_text := None; usage := None; status := "error";
                  error_type := Some "TimeoutError"; error_msg := Some "timed out";
                  prompt_chars := Some 8; response_chars := None |}
  = Some (String.length (py_str sample_runtime
                           (get_default [("input_text", PStr "vpn down")] "input_text"
                              (PStr "")))).
Proof.
  split; [reflexivity|].
  exact (proj2 (proj2 (proj2 (proj2 (proj2
           (generate_result_invariants sample_runtime [("input_text", PStr "vpn down")]
              (OtherError "TimeoutError" "timed out") ConnectionError _ eq_refl)))))).
Defined.


(** The row of one case of the dummy provider. *)
Lemma report_on_runner_rows_witness :
  Forall (runner_row sample_runtime)
    [match run_case sample_runtime "dummy" "dummy-model"
             [("id", PStr "T-1"); ("input_text", PStr "vpn down");
              ("expected", PDict [("category", PStr "VPN")])]
             {| actual := Some [("category", PStr "VPN")]; raw_text := None; usage := None;
                status := "ok"; error_type := None; error_msg := None;
                prompt_chars := None; response_chars := None |}
             (PInt 12) [] with
     | Some row => row
     | None => []
     end] /\
  cause_count
    (_failure_cause_counts sample_runtime
       [match run_case sample_runtime "dummy" "dummy-model"
                [("id", PStr "T-1"); ("input_text", PStr "vpn down");
                 ("expected", PDict [("category", PStr "VPN")])]
                {| actual := Some [("category", PStr "VPN")]; raw_text := None; usage := None;
                   status := "ok"; error_type := None; error_msg := None;
                   prompt_chars := None; response_chars := None |}
                (PInt 12) [] with
        | Some row => row
        | None => []
        end]) "SchemaError" = 0%Z.
Proof.
  assert (H : Forall (runner_row sample_runtime)
    [match run_case sample_runtime "dummy" "dummy-model"
             [("id", PStr "T-1"); ("input_text", PStr "vpn down");
              ("expected", PDict [("category", PStr "VPN")])]
             {| actual := Some [("category", PStr "VPN")]; raw_text := None; usage := None;
                status := "ok"; error_type := None; error_msg := None;
                prompt_chars := None; response_chars := None |}
             (PInt 12) [] with
     | Some row => row
     | None => []
     end]).
  { constructor; [|constructor].
    exists "dummy", "dummy-model",
      [("id", PStr "T-1"); ("input_text", PStr "vpn down");
       ("expected", PDict [("category", PStr "VPN")])],
      {| actual := Some [("category", PStr "VPN")]; raw_text := None; usage := None;
         status := "ok"; error_type := None; error_msg := None;
         prompt_chars := None; response_chars := None |},
      (PInt 12), [].
    reflexivity. }
  split; [exact H|].
  exact (proj1 (report_on_runner_rows sample_runtime _ H)).
Defined.
